(** * Minion Space: configuration resolution, tool assembly and dispatch

    A shallow embedding of [app_with_mcp.py] and [app_without_mcp.py]:
    the environment-derived configuration layers, the lazily built MCP
    client with its tool sources, the request handler
    [minion_respond_async] that turns UI inputs into one call of the
    reasoning engine, and the callbacks of the interface; and of the tool
    dispatch of [example_mcp_server.py].

    Python values are embedded as follows: [str] as [string], [int] as [Z],
    [float] as the binary64 type [float], [None]-able arguments as
    [option], dictionaries as [gmap string _], exceptions as the error
    side of [result]; an argument whose annotation Python does not enforce
    is, where that matters, a value of the untyped universe [pyval]. *)

From Stdlib Require Import ZArith String Ascii List Floats Uint63 Lia.
From stdpp Require Import base option list strings gmap.

Local Open Scope string_scope.
Local Open Scope list_scope.
Local Open Scope Z_scope.

(** ** Exceptions and fallible computations *)

Inductive exn : Type :=
  | ValueError (msg : string)   (* raised by float(), int() and by unpacking *)
  | Exception (msg : string).   (* any other failure of a collaborator *)

Inductive result (A : Type) : Type :=
  | Ok (a : A)
  | Raise (e : exn).
Arguments Ok {A} a.
Arguments Raise {A} e.

Definition result_bind {A B} (f : A → result B) (r : result A) : result B :=
  match r with
  | Ok a => f a
  | Raise e => Raise e
  end.

#[export] Instance result_mret : MRet result := λ A a, Ok a.
#[export] Instance result_mbind : MBind result := λ A B f r, result_bind f r.

Definition raises_ValueError {A} (r : result A) : Prop :=
  match r with Raise (ValueError _) => True | _ => False end.

(** ** Python builtins used by the configuration layer

    [float(s)] and [int(s)] are builtins of the language, not code of the
    application; the development is parametric in them.  [None] stands for
    the [ValueError] they raise on a string they do not accept. *)

Class PyBuiltins : Type := {
  float_of_str : string → option float;
  int_of_str : string → option Z;
}.

Section builtins.
Context `{PyBuiltins}.

Definition py_float (s : string) : result float :=
  match float_of_str s with
  | Some f => Ok f
  | None => Raise (ValueError ("could not convert string to float: " +:+ s))
  end.

Definition py_int (s : string) : result Z :=
  match int_of_str s with
  | Some n => Ok n
  | None => Raise (ValueError ("invalid literal for int() with base 10: " +:+ s))
  end.
End builtins.

(** ** The process environment: [os.getenv(key, default)] *)

Definition getenv (env : gmap string string) (key default : string) : string :=
  match env !! key with
  | Some v => v
  | None => default
  end.

(** ** [class LLMConfig] (identical in both applications) *)

Module LLMConfig.
Record t : Type := mk {
  api_type : string;
  api_key : string;
  base_url : string;
  api_version : string;
  model : string;
  temperature : float;
  max_tokens : Z;
  vision_enabled : bool;
}.

(** [__init__] with its defaulted last argument [vision_enabled=False];
    every call site passes the first seven arguments only. *)
Definition init (api_type api_key base_url api_version model : string)
    (temperature : float) (max_tokens : Z) : t :=
  mk api_type api_key base_url api_version model temperature max_tokens false.
End LLMConfig.

Section config_layers.
Context `{PyBuiltins}.

(** [get_preset_configs]: the four presets, built in source order; the
    arguments of each constructor call are evaluated left to right, so the
    first conversion that fails decides the exception. *)
Definition get_preset_configs (env : gmap string string)
    : result (gmap string LLMConfig.t) :=
  t1 ← py_float (getenv env "GPT_4O_TEMPERATURE" "0");
  m1 ← py_int (getenv env "GPT_4O_MAX_TOKENS" "4000");
  let gpt_4o := LLMConfig.init
    (getenv env "GPT_4O_API_TYPE" "azure")
    (getenv env "GPT_4O_API_KEY" "")
    (getenv env "GPT_4O_BASE_URL" "")
    (getenv env "GPT_4O_API_VERSION" "2024-06-01")
    (getenv env "GPT_4O_MODEL" "gpt-4o") t1 m1 in
  t2 ← py_float (getenv env "GPT_4O_MINI_TEMPERATURE" "0.1");
  m2 ← py_int (getenv env "GPT_4O_MINI_MAX_TOKENS" "4000");
  let gpt_4o_mini := LLMConfig.init
    (getenv env "GPT_4O_MINI_API_TYPE" "azure")
    (getenv env "GPT_4O_MINI_API_KEY" "")
    (getenv env "GPT_4O_MINI_BASE_URL" "")
    (getenv env "GPT_4O_MINI_API_VERSION" "2024-06-01")
    (getenv env "GPT_4O_MINI_MODEL" "gpt-4o-mini") t2 m2 in
  t3 ← py_float (getenv env "GPT_41_TEMPERATURE" "0.7");
  m3 ← py_int (getenv env "GPT_41_MAX_TOKENS" "4000");
  let gpt_41 := LLMConfig.init
    (getenv env "GPT_41_API_TYPE" "azure")
    (getenv env "GPT_41_API_KEY" "")
    (getenv env "GPT_41_BASE_URL" "")
    (getenv env "GPT_41_API_VERSION" "2025-03-01-preview")
    (getenv env "GPT_41_MODEL" "gpt-4.1") t3 m3 in
  t4 ← py_float (getenv env "O4_MINI_TEMPERATURE" "0.7");
  m4 ← py_int (getenv env "O4_MINI_MAX_TOKENS" "4000");
  let o4_mini := LLMConfig.init
    (getenv env "O4_MINI_API_TYPE" "azure")
    (getenv env "O4_MINI_API_KEY" "")
    (getenv env "O4_MINI_BASE_URL" "")
    (getenv env "O4_MINI_API_VERSION" "2025-03-01-preview")
    (getenv env "O4_MINI_MODEL" "o4-mini") t4 m4 in
  Ok (<["gpt-4o" := gpt_4o]> (<["gpt-4o-mini" := gpt_4o_mini]>
      (<["gpt-4.1" := gpt_41]> (<["o4-mini" := o4_mini]> ∅)))).

(** [get_default_config] *)
Definition get_default_config (env : gmap string string) : result LLMConfig.t :=
  t ← py_float (getenv env "DEFAULT_TEMPERATURE" "0.7");
  m ← py_int (getenv env "DEFAULT_MAX_TOKENS" "4000");
  Ok (LLMConfig.init
    (getenv env "DEFAULT_API_TYPE" "azure")
    (getenv env "DEFAULT_API_KEY" "")
    (getenv env "DEFAULT_BASE_URL" "")
    (getenv env "DEFAULT_API_VERSION" "2024-06-01")
    (getenv env "DEFAULT_MODEL" "gpt-4o") t m).
End config_layers.

(** [get_available_routes] *)
Definition get_available_routes : list string :=
  [""; "raw"; "native"; "cot"; "dcot"; "plan"; "python"].

(** ** Module-level state

    Both applications evaluate, at import time and in this order,
    [preset_configs = get_preset_configs()],
    [default_config = get_default_config()] and
    [available_routes = get_available_routes()].  An exception here aborts
    the import, so no request handler ever runs. *)

Record Globals : Type := mkGlobals {
  preset_configs : gmap string LLMConfig.t;
  default_config : LLMConfig.t;
  available_routes : list string;
}.

Definition module_init `{PyBuiltins} (env : gmap string string) : result Globals :=
  presets ← get_preset_configs env;
  dflt ← get_default_config env;
  Ok (mkGlobals presets dflt get_available_routes).

(** ** Dynamic values, tools and dictionaries *)

(** A tool as the brain sees it ([BrainTool]): only its name and description
    are observed by the applications. *)
Record BrainTool : Type := mkBrainTool {
  tool_name : string;
  tool_description : string;
}.

#[export] Instance BrainTool_eq_dec : EqDecision BrainTool.
Proof. solve_decision. Defined.

#[warnings="-register-all"] Inductive pyval : Type :=
  | VNone
  | VBool (b : bool)
  | VInt (n : Z)
  | VFloat (f : float)
  | VStr (s : string)
  | VExn (e : exn)
  | VTool (t : BrainTool)
  | VList (l : list pyval)
  | VTuple (l : list pyval).

(** Truthiness of a string: [bool(s)] is [False] only for the empty string. *)
Definition truthy (s : string) : bool :=
  match s with
  | EmptyString => false
  | String _ _ => true
  end.

(** [create_custom_llm_config] (identical in both applications): a dictionary
    literal with eight keys. *)
Definition create_custom_llm_config (api_type api_key base_url api_version model : pyval)
    (temperature max_tokens : pyval) : gmap string pyval :=
  <["api_type" := api_type]> (<["api_key" := api_key]> (<["base_url" := base_url]>
  (<["api_version" := api_version]> (<["model" := model]>
  (<["temperature" := temperature]> (<["max_tokens" := max_tokens]>
  (<["vision_enabled" := VBool false]> ∅))))))).

(** ** Collaborators

    The reasoning engine, the LLM provider factory and the tool sources are
    outside the applications.  What they answer is a parameter of the model.

    - [create_llm_provider cfg]: whether building the brain from the
      configuration dictionary raises ([build_brain_with_config] copies
      every item of the dictionary onto a [Config] object and hands it on);
    - [brain_step cfg kwargs]: the tuple returned by [brain.step] on the keyword dictionary
      of the brain built from [cfg], as the list of its components;
    - [source_tools s]: the tools a source reports when it is connected and
      listed, or the exception raised on the way;
    - [aenter_outcome]: the outcome of [mcp_client.__aenter__()];
    - [final_answer_tool]: what [create_final_answer_tool()] returns. *)

Inductive source : Type :=
  | Filesystem
  | Sse (url : string)
  | Stdio (command : string).

#[export] Instance source_eq_dec : EqDecision source.
Proof. solve_decision. Defined.

Class Collaborators : Type := {
  create_llm_provider : gmap string pyval → result unit;
  brain_step : gmap string pyval → gmap string pyval → result (list pyval);
  source_tools : source → result (list BrainTool);
  aenter_outcome : result unit;
  final_answer_tool : BrainTool;
}.

(** ** The world: globals that change, standard output, collaborator calls *)

(** Modelled from the spec: the [MCPBrainClient] class of [mcp_integration],
    which is not among the sources.  The spec's Tool Aggregator owns the
    registered sources and merges their descriptors into one flat catalog in
    registration order; a name already in the catalog is kept and the later
    tool is dropped with a warning. *)
Record MCPBrainClient : Type := mkClient {
  entered : bool;
  catalog : list BrainTool;
}.

(** One line of standard output: the text of the f-string and, in order, the
    values interpolated into it (pictographs of the source omitted). *)
Record log_line : Type := Line {
  line_text : string;
  line_args : list pyval;
}.

(** A call that leaves the application. *)
Inductive call : Type :=
  | CallNewClient (id : nat)
  | CallAenter (id : nat)
  | CallAddSource (id : nat) (s : source)
  | CallFinalAnswerTool
  | CallBuildBrain (cfg : gmap string pyval)
  | CallStep (cfg kwargs : gmap string pyval).

Record World : Type := mkWorld {
  heap : list MCPBrainClient;     (* the client objects built so far, by identity *)
  mcp_client : option nat;        (* the global [mcp_client]: None or a reference *)
  stdout : list log_line;         (* oldest first *)
  calls : list call;              (* oldest first *)
}.

Definition initial_world : World := mkWorld [] None [] [].

(** Every reference held by the global points into the heap. *)
Definition wf_world (w : World) : Prop :=
  match mcp_client w with
  | Some id => (id < length (heap w))%nat
  | None => True
  end.

(** State and exceptions: a computation transforms the world and either
    returns or raises; the world reached is kept in both cases. *)
Definition M (A : Type) : Type := World → result A * World.

Definition M_ret {A} (a : A) : M A := λ w, (Ok a, w).
Definition M_bind {A B} (f : A → M B) (m : M A) : M B :=
  λ w, match m w with
       | (Ok a, w') => f a w'
       | (Raise e, w') => (Raise e, w')
       end.
#[export] Instance M_mret : MRet M := @M_ret.
#[export] Instance M_mbind : MBind M := @M_bind.

Definition raise {A} (e : exn) : M A := λ w, (Raise e, w).
Definition lift {A} (r : result A) : M A := λ w, (r, w).

(** [try: m except Exception as e: h e] *)
Definition try_except {A} (m : M A) (h : exn → M A) : M A :=
  λ w, match m w with
       | (Ok a, w') => (Ok a, w')
       | (Raise e, w') => h e w'
       end.

Definition print (text : string) (args : list pyval) : M unit :=
  λ w, (Ok (), mkWorld (heap w) (mcp_client w) (stdout w ++ [Line text args]) (calls w)).

Definition record (c : call) : M unit :=
  λ w, (Ok (), mkWorld (heap w) (mcp_client w) (stdout w) (calls w ++ [c])).

Definition get_mcp_client : M (option nat) := λ w, (Ok (mcp_client w), w).

Definition set_mcp_client (g : option nat) : M unit :=
  λ w, (Ok (), mkWorld (heap w) g (stdout w) (calls w)).

Definition update_client (id : nat) (f : MCPBrainClient → MCPBrainClient) : M unit :=
  λ w, (Ok (), mkWorld (alter f id (heap w)) (mcp_client w) (stdout w) (calls w)).

(** Shared tail of both request handlers:
    [obs, score, *_ = await brain.step(...)] followed by [return obs].  With
    fewer than two components the unpacking raises [ValueError] with the
    text Python gives for a starred target, which ends in the number of
    values it got. *)
Definition unpack_obs (res : list pyval) : result pyval :=
  match res with
  | [] => Raise (ValueError "not enough values to unpack (expected at least 2, got 0)")
  | [_] => Raise (ValueError "not enough values to unpack (expected at least 2, got 1)")
  | obs :: score :: _ => Ok obs
  end.

(** [build_brain_with_config]: the brain is determined by the dictionary it
    was built from, which stands for it afterwards. *)
Definition build_brain_with_config `{Collaborators} (llm_config_dict : gmap string pyval)
    : M (gmap string pyval) :=
  record (CallBuildBrain llm_config_dict);;
  lift (create_llm_provider llm_config_dict);;
  mret llm_config_dict.

Definition step `{Collaborators} (brain kwargs : gmap string pyval) : M (list pyval) :=
  record (CallStep brain kwargs);;
  lift (brain_step brain kwargs).

(** The three keys every request carries, and the conditional [query_type]. *)
Definition base_kwargs (query route : string) (check_enabled : bool) : gmap string pyval :=
  let route_param := if truthy route then VStr route else VNone in
  <["check" := VBool check_enabled]> (<["route" := route_param]>
  (<["query" := VStr query]> ∅)).

Definition add_query_type (route query_type : string) (kwargs : gmap string pyval)
    : gmap string pyval :=
  if bool_decide (route = "python") && truthy query_type
  then <["query_type" := VStr query_type]> kwargs
  else kwargs.

(** [if v is None: v = d], for an argument [v] that can be any value. *)
Definition or_default (d v : pyval) : pyval :=
  match v with
  | VNone => d
  | _ => v
  end.

(** ** The interface callbacks shared by both applications *)

(** The choices of the API-type dropdown, as listed in [update_fields]. *)
Definition valid_api_types : list string :=
  ["azure"; "openai"; "groq"; "ollama"; "anthropic"; "gemini"].

(** The seven values [update_fields] returns, in the order of the tuple:
    they populate the API type, API key, base URL, API version, model,
    temperature and max-tokens fields of the interface. *)
Record shown_fields : Type := mkShown {
  shown_api_type : string;
  shown_api_key : string;
  shown_base_url : string;
  shown_api_version : string;
  shown_model : string;
  shown_temperature : float;
  shown_max_tokens : Z;
}.

(** [update_query_type_visibility(route)] returns
    [gr.update(visible=(route == "python"))]; the update is given by its
    [visible] flag. *)
Definition update_query_type_visibility (route : string) : bool :=
  bool_decide (route = "python").

(** [str(e)] of an exception raised with one message. *)
Definition exn_message (e : exn) : string :=
  match e with ValueError msg | Exception msg => msg end.

(** * The application with MCP tools ([app_with_mcp.py]) *)

Module WithMcp.
Section app.
Context `{Collaborators}.

(** *** The client's operations

    [mcp_integration] is not among the sources; the operations of its
    client are modelled on the spec's Tool Aggregator. *)

(** Modelled from the spec: the constructor [MCPBrainClient()] of
    [mcp_integration]; a fresh aggregator owns no source and its catalog is
    empty. *)
Definition new_client : M nat :=
  λ w, let id := length (heap w) in
       (Ok id, mkWorld (heap w ++ [mkClient false []]) (mcp_client w) (stdout w)
                       (calls w ++ [CallNewClient id])).

(** Modelled from the spec: [await client.__aenter__()] of [mcp_integration];
    it succeeds or raises as the collaborators decide and registers
    nothing. *)
Definition aenter (id : nat) : M unit :=
  record (CallAenter id);;
  lift aenter_outcome;;
  update_client id (λ c, mkClient true (catalog c)).

(** Modelled from the spec: registration of one descriptor inside
    [mcp_integration]; names are unique in a catalog, the first registered
    wins and a later duplicate is dropped with a warning, not an error. *)
Definition register_tool (id : nat) (t : BrainTool) : M unit :=
  λ w, match heap w !! id with
       | Some c =>
           if bool_decide (tool_name t ∈ tool_name <$> catalog c)
           then print "Warning: duplicate tool dropped: " [VStr (tool_name t)] w
           else update_client id (λ c, mkClient (entered c) (catalog c ++ [t])) w
       | None => (Ok (), w)
       end.

(** Modelled from the spec: registration of the descriptors of one source of
    [mcp_integration], in the order the source reports them. *)
Fixpoint register_tools (id : nat) (ts : list BrainTool) : M unit :=
  match ts with
  | [] => mret ()
  | t :: ts => register_tool id t;; register_tools id ts
  end.

(** Modelled from the spec: [await add_filesystem_tool(client)] and
    [await client.add_mcp_server(kind, ...)] of [mcp_integration]; connect to
    the source, list its tools, merge them into the catalog.  A source that
    raises is excluded from the catalog, which stays as it was. *)
Definition add_source (id : nat) (s : source) : M unit :=
  record (CallAddSource id s);;
  ts ← lift (source_tools s);
  register_tools id ts.

(** Modelled from the spec: [client.get_tools_for_brain()] of
    [mcp_integration]; the catalog, in registration order. *)
Definition get_tools_for_brain (id : nat) : M (list BrainTool) :=
  λ w, match heap w !! id with
       | Some c => (Ok (catalog c), w)
       | None => (Raise (Exception "dangling client reference"), w)
       end.

(** Reading the global name [mcp_client] for a method call or as an
    argument; [None] has none of the client's attributes. *)
Definition the_client : M nat :=
  g ← get_mcp_client;
  match g with
  | Some id => mret id
  | None => raise (Exception "'NoneType' object has no such attribute")
  end.

(** *** [setup_mcp_tools] *)

(** The three registrations have one shape:
    [try: await add(...); print(ok) except Exception as e: print(failed, e)].
    What is printed depends on the source only. *)
Definition ok_line (s : source) : log_line :=
  match s with
  | Filesystem => Line "Added filesystem tool" []
  | Sse sse_url => Line "Added SSE server: " [VStr sse_url]
  | Stdio stdio_command => Line "Added stdio server: " [VStr stdio_command]
  end.

Definition fail_text (s : source) : string :=
  match s with
  | Filesystem => "Failed to add filesystem tool: "
  | Sse _ => "Failed to add SSE server: "
  | Stdio _ => "Failed to add stdio server: "
  end.

Definition try_add (s : source) : M unit :=
  try_except
    (id ← the_client; add_source id s;;
     print (line_text (ok_line s)) (line_args (ok_line s)))
    (λ e, print (fail_text s) [VExn e]).

(** [sse_url = os.getenv("MCP_SSE_URL")] under [if sse_url:], and the same
    for the stdio command: an unset or empty variable skips the source. *)
Definition sse_source (env : gmap string string) : option source :=
  match env !! "MCP_SSE_URL" with
  | Some sse_url => if truthy sse_url then Some (Sse sse_url) else None
  | None => None
  end.

Definition stdio_source (env : gmap string string) : option source :=
  match env !! "MCP_STDIO_COMMAND" with
  | Some stdio_command =>
      if truthy stdio_command then Some (Stdio stdio_command) else None
  | None => None
  end.

Definition add_filesystem : M unit := try_add Filesystem.

Definition add_sse (env : gmap string string) : M unit :=
  match sse_source env with
  | Some s => try_add s
  | None => mret ()
  end.

Definition add_stdio (env : gmap string string) : M unit :=
  match stdio_source env with
  | Some s => try_add s
  | None => mret ()
  end.

Definition setup_mcp_tools (env : gmap string string) : M (option nat) :=
  g ← get_mcp_client;
  match g with
  | None =>
      id ← new_client;
      set_mcp_client (Some id);;
      id ← the_client;
      aenter id;;
      add_filesystem;;
      add_sse env;;
      add_stdio env;;
      get_mcp_client
  | Some _ => get_mcp_client
  end.

(** *** [setup_mcp_tools] as a coroutine of one event loop

    The requests served by [minion_respond_async] are coroutines of one
    event loop: they interleave on its thread, and a coroutine gives up
    control only at an [await].  Cut at its awaits, [setup_mcp_tools] is a
    machine whose state says where the coroutine is suspended and with
    which arguments the awaited call was made; one step runs it from one
    suspension to the next.  The awaited call takes effect when the
    coroutine is resumed.  The test [mcp_client is None], the call of the
    constructor and the assignment of the global come before the first
    [await], so on one loop they are one step.  Callers that are not on
    the same loop are the subject of the thread machine further down. *)

Inductive pc : Type :=
  | Start
  | AwaitAenter (id : nat)
  | AwaitAdd (id : nat) (s : source)
  | Returned (r : result (option nat)).

Definition as_pc (m : M pc) : World → pc * World :=
  λ w, match m w with
       | (Ok p, w') => (p, w')
       | (Raise e, w') => (Returned (Raise e), w')
       end.

(** Entering a [try] block up to its await: the argument [mcp_client] is
    evaluated and the call suspends; an exception on the way is handled by
    the block's [except] and the code after the block goes on. *)
Definition suspend_add (s : source) (next : M pc) : M pc :=
  try_except (id ← the_client; mret (AwaitAdd id s))
             (λ e, print (fail_text s) [VExn e];; next).

(** The rest of the [try] block once the awaited call is resumed. *)
Definition resume_add (id : nat) (s : source) : M unit :=
  try_except
    (add_source id s;; print (line_text (ok_line s)) (line_args (ok_line s)))
    (λ e, print (fail_text s) [VExn e]).

Definition finish : M pc :=
  g ← get_mcp_client; mret (Returned (Ok g)).

Definition begin_stdio (env : gmap string string) : M pc :=
  match stdio_source env with
  | Some s => suspend_add s finish
  | None => finish
  end.

Definition begin_sse (env : gmap string string) : M pc :=
  match sse_source env with
  | Some s => suspend_add s (begin_stdio env)
  | None => begin_stdio env
  end.

Definition begin_filesystem (env : gmap string string) : M pc :=
  suspend_add Filesystem (begin_sse env).

Definition after_add (env : gmap string string) (s : source) : M pc :=
  match s with
  | Filesystem => begin_sse env
  | Sse _ => begin_stdio env
  | Stdio _ => finish
  end.

Definition step_setup (env : gmap string string) (p : pc) : World → pc * World :=
  match p with
  | Start =>
      as_pc (g ← get_mcp_client;
             match g with
             | None =>
                 id ← new_client;
                 set_mcp_client (Some id);;
                 id ← the_client;
                 mret (AwaitAenter id)
             | Some _ => finish
             end)
  | AwaitAenter id => as_pc (aenter id;; begin_filesystem env)
  | AwaitAdd id s => as_pc (resume_add id s;; after_add env s)
  | Returned r => λ w, (Returned r, w)
  end.

(** Several callers in flight on one event loop: the shared world and
    where each one is.  A schedule names, step by step, the caller that
    the loop resumes next. *)
Record system : Type := mkSystem {
  world : World;
  tasks : list pc;
}.

Definition sched_step (env : gmap string string) (s : system) (i : nat) : system :=
  match tasks s !! i with
  | Some p =>
      let '(p', w') := step_setup env p (world s) in
      mkSystem w' (<[i := p']> (tasks s))
  | None => s
  end.

Definition run_schedule (env : gmap string string) (schedule : list nat)
    (s : system) : system :=
  foldl (sched_step env) s schedule.

(** [n] callers that have not started yet. *)
Definition spawn (w : World) (n : nat) : system := mkSystem w (replicate n Start).

(** One caller run alone until it returns. *)
Fixpoint run_alone (env : gmap string string) (fuel : nat) (p : pc) (w : World)
    : option (result (option nat)) * World :=
  match p, fuel with
  | Returned r, _ => (Some r, w)
  | _, O => (None, w)
  | _, S fuel => let '(p', w') := step_setup env p w in run_alone env fuel p' w'
  end.

(** *** [setup_mcp_tools] entered from several threads

    Not every caller is on the loop of the requests.  The status button is
    wired to [check_tools], a plain function whose [asyncio.run] drives
    [get_tool_status] on an event loop of its own; [asyncio.run] refuses to
    start inside a running loop, so [check_tools] always runs on a thread
    other than the one serving [minion_respond_async], and each press of
    the button has a thread to itself.  Between threads the interpreter
    may switch at any instruction.  A caller on a thread is therefore cut
    finer than a coroutine: at the test [mcp_client is None], at the call
    [MCPBrainClient()], at the assignment of the global, and at the
    reading of the global for [__aenter__]; from there on it is cut where
    the coroutine is.  A switch that is allowed need not happen, so every
    step of the coroutine machine is a run of this one. *)








(** *** [get_available_tools] *)

(** [create_final_answer_tool()] of [mcp_integration]: a local tool, built
    in process; what it returns is a parameter. *)
Definition create_final_answer_tool : M BrainTool :=
  record CallFinalAnswerTool;;
  mret final_answer_tool.

Definition get_available_tools (env : gmap string string) : M (list BrainTool) :=
  mcp_tools ← try_except
    (g ← setup_mcp_tools env;
     match g with
     | Some id => get_tools_for_brain id
     | None => raise (Exception "'NoneType' object has no such attribute")
     end)
    (λ e, print "Warning: Failed to setup MCP tools: " [VExn e];; mret []);
  final_answer_tool ← create_final_answer_tool;
  mret mcp_tools.

(** *** [minion_respond_async] *)

(** The [if use_tools:] block: on success the key [tools] is set, on any
    exception of the tool assembly a warning is printed and the
    dictionary is left as it was. *)
Definition add_tools (env : gmap string string) (use_tools : bool)
    (kwargs : gmap string pyval) : M (gmap string pyval) :=
  if use_tools then
    try_except
      (tools ← get_available_tools env;
       let kwargs := <["tools" := VList (VTool <$> tools)]> kwargs in
       print "Using tools: "
         [VInt (Z.of_nat (length tools)); VList (VStr ∘ tool_name <$> tools)];;
       mret kwargs)
      (λ e, print "Warning: Failed to get tools: " [VExn e];; mret kwargs)
  else mret kwargs.

Definition print_config (api_type model base_url api_version : string)
    (temperature : float) (max_tokens : Z) : M unit :=
  print "   - API Type: " [VStr api_type];;
  print "   - Model: " [VStr model];;
  print "   - Base URL: " [VStr base_url];;
  print "   - API Version: " [VStr api_version];;
  print "   - Temperature: " [VFloat temperature];;
  print "   - Max tokens: " [VInt max_tokens].

(** The local variable [llm_config_dict] of [minion_respond_async]: each
    argument left at [None] is replaced by the field of [default_config],
    then [create_custom_llm_config] is called.  [preset_model] is not read. *)
Definition llm_config_dict (g : Globals)
    (api_type api_key base_url api_version model : option string)
    (temperature : option float) (max_tokens : option Z) : gmap string pyval :=
  (* Get default config for None values *)
  let api_type := default (LLMConfig.api_type (default_config g)) api_type in
  let api_key := default (LLMConfig.api_key (default_config g)) api_key in
  let base_url := default (LLMConfig.base_url (default_config g)) base_url in
  let api_version := default (LLMConfig.api_version (default_config g)) api_version in
  let model := default (LLMConfig.model (default_config g)) model in
  let temperature := default (LLMConfig.temperature (default_config g)) temperature in
  let max_tokens := default (LLMConfig.max_tokens (default_config g)) max_tokens in
  create_custom_llm_config
    (VStr api_type) (VStr api_key) (VStr base_url) (VStr api_version) (VStr model)
    (VFloat temperature) (VInt max_tokens).

Definition minion_respond_async (g : Globals) (env : gmap string string)
    (query preset_model : string)
    (api_type api_key base_url api_version model : option string)
    (temperature : option float) (max_tokens : option Z)
    (route query_type : string) (check_enabled use_tools : bool) : M pyval :=
  let llm_config_dict := llm_config_dict g api_type api_key base_url api_version
                           model temperature max_tokens in
  (* the arguments as printed: after the defaults were filled in *)
  let api_type := default (LLMConfig.api_type (default_config g)) api_type in
  let base_url := default (LLMConfig.base_url (default_config g)) base_url in
  let api_version := default (LLMConfig.api_version (default_config g)) api_version in
  let model := default (LLMConfig.model (default_config g)) model in
  let temperature := default (LLMConfig.temperature (default_config g)) temperature in
  let max_tokens := default (LLMConfig.max_tokens (default_config g)) max_tokens in
  (if bool_decide (preset_model ≠ "Custom")
   then print "Using preset base with UI overrides: " [VStr preset_model]
   else print "Using custom configuration:" []);;
  print_config api_type model base_url api_version temperature max_tokens;;
  print "Building brain with final config:" [];;
  print "   - Final API type: " [VStr api_type];;
  print "   - Final model: " [VStr model];;
  print "   - Final temperature: " [VFloat temperature];;
  print "   - Final max_tokens: " [VInt max_tokens];;
  brain ← build_brain_with_config llm_config_dict;
  (* Handle empty route selection for auto route; build kwargs *)
  let kwargs := base_kwargs query route check_enabled in
  (* Add query_type to kwargs if route is python *)
  let kwargs := add_query_type route query_type kwargs in
  (* Add tools if enabled *)
  kwargs ← add_tools env use_tools kwargs;
  print "Executing brain.step with route, check: "
    [default VNone (kwargs !! "route"); VBool check_enabled];;
  res ← step brain kwargs;
  lift (unpack_obs res).

(** [minion_respond]: the synchronous entry point,
    [asyncio.run(minion_respond_async(...))] with the thirteen arguments
    in the order they were received. *)
Definition minion_respond (g : Globals) (env : gmap string string)
    (query preset_model : string)
    (api_type api_key base_url api_version model : option string)
    (temperature : option float) (max_tokens : option Z)
    (route query_type : string) (check_enabled use_tools : bool) : M pyval :=
  minion_respond_async g env query preset_model api_type api_key base_url
    api_version model temperature max_tokens route query_type check_enabled
    use_tools.

(** *** The handler on the values it is called with

    The annotations [temperature: float] and [max_tokens: int] are not
    enforced when the handler is called, and the handler neither converts
    nor inspects the two arguments: they are whatever value the caller
    supplies.  The three definitions below are [print_config],
    [llm_config_dict] and [minion_respond_async] with the two arguments as
    arbitrary values; the definitions above are their restriction to the
    arguments that respect the annotations. *)

Definition print_config_dynamic (api_type model base_url api_version : string)
    (temperature max_tokens : pyval) : M unit :=
  print "   - API Type: " [VStr api_type];;
  print "   - Model: " [VStr model];;
  print "   - Base URL: " [VStr base_url];;
  print "   - API Version: " [VStr api_version];;
  print "   - Temperature: " [temperature];;
  print "   - Max tokens: " [max_tokens].

Definition llm_config_dict_dynamic (g : Globals)
    (api_type api_key base_url api_version model : option string)
    (temperature max_tokens : pyval) : gmap string pyval :=
  (* Get default config for None values *)
  let api_type := default (LLMConfig.api_type (default_config g)) api_type in
  let api_key := default (LLMConfig.api_key (default_config g)) api_key in
  let base_url := default (LLMConfig.base_url (default_config g)) base_url in
  let api_version := default (LLMConfig.api_version (default_config g)) api_version in
  let model := default (LLMConfig.model (default_config g)) model in
  let temperature :=
    or_default (VFloat (LLMConfig.temperature (default_config g))) temperature in
  let max_tokens :=
    or_default (VInt (LLMConfig.max_tokens (default_config g))) max_tokens in
  create_custom_llm_config
    (VStr api_type) (VStr api_key) (VStr base_url) (VStr api_version) (VStr model)
    temperature max_tokens.

Definition minion_respond_async_dynamic (g : Globals) (env : gmap string string)
    (query preset_model : string)
    (api_type api_key base_url api_version model : option string)
    (temperature max_tokens : pyval)
    (route query_type : string) (check_enabled use_tools : bool) : M pyval :=
  let llm_config_dict := llm_config_dict_dynamic g api_type api_key base_url api_version
                           model temperature max_tokens in
  (* the arguments as printed: after the defaults were filled in *)
  let api_type := default (LLMConfig.api_type (default_config g)) api_type in
  let base_url := default (LLMConfig.base_url (default_config g)) base_url in
  let api_version := default (LLMConfig.api_version (default_config g)) api_version in
  let model := default (LLMConfig.model (default_config g)) model in
  let temperature :=
    or_default (VFloat (LLMConfig.temperature (default_config g))) temperature in
  let max_tokens :=
    or_default (VInt (LLMConfig.max_tokens (default_config g))) max_tokens in
  (if bool_decide (preset_model ≠ "Custom")
   then print "Using preset base with UI overrides: " [VStr preset_model]
   else print "Using custom configuration:" []);;
  print_config_dynamic api_type model base_url api_version temperature max_tokens;;
  print "Building brain with final config:" [];;
  print "   - Final API type: " [VStr api_type];;
  print "   - Final model: " [VStr model];;
  print "   - Final temperature: " [temperature];;
  print "   - Final max_tokens: " [max_tokens];;
  brain ← build_brain_with_config llm_config_dict;
  (* Handle empty route selection for auto route; build kwargs *)
  let kwargs := base_kwargs query route check_enabled in
  (* Add query_type to kwargs if route is python *)
  let kwargs := add_query_type route query_type kwargs in
  (* Add tools if enabled *)
  kwargs ← add_tools env use_tools kwargs;
  print "Executing brain.step with route, check: "
    [default VNone (kwargs !! "route"); VBool check_enabled];;
  res ← step brain kwargs;
  lift (unpack_obs res).

(** *** [update_fields] *)

Definition update_fields (g : Globals) (preset_model : string) : shown_fields :=
  if bool_decide (preset_model = "Custom") then
    (* Return default values, let user configure themselves *)
    mkShown (LLMConfig.api_type (default_config g))
            (LLMConfig.api_key (default_config g))
            (LLMConfig.base_url (default_config g))
            (LLMConfig.api_version (default_config g))
            (LLMConfig.model (default_config g))
            (LLMConfig.temperature (default_config g))
            (LLMConfig.max_tokens (default_config g))
  else
    let config_obj := default (default_config g) (preset_configs g !! preset_model) in
    (* Ensure API type is from valid choices *)
    let api_type := if bool_decide (LLMConfig.api_type config_obj ∈ valid_api_types)
                    then LLMConfig.api_type config_obj else "azure" in
    mkShown api_type
            (LLMConfig.api_key config_obj)
            (LLMConfig.base_url config_obj)
            (LLMConfig.api_version config_obj)
            (LLMConfig.model config_obj)
            (LLMConfig.temperature config_obj)
            (LLMConfig.max_tokens config_obj).

(** *** [get_tool_status] and [check_tools] *)

(** The f-string [Available tools: ...] joins the tools' names with a comma
    and a space. *)
Definition get_tool_status (env : gmap string string) : M string :=
  try_except
    (tools ← get_available_tools env;
     mret ("Available tools: " +:+ String.concat ", " (tool_name <$> tools)))
    (λ e, mret ("Error getting tools: " +:+ exn_message e)).

(** [check_tools]: [asyncio.run(get_tool_status())], which runs the
    coroutine to completion on an event loop and a thread of its own.  The
    definition is what it returns and leaves behind when no other caller
    of [setup_mcp_tools] runs in the meantime; how it interleaves with
    other callers is given by [thread_step]. *)
Definition check_tools (env : gmap string string) : M string := get_tool_status env.
End app.
End WithMcp.

(** * The application without tools ([app_without_mcp.py]) *)

Module WithoutMcp.
Section app.
Context `{Collaborators}.

(** The local variable [llm_config_dict] of [minion_respond_async]: the
    selected preset's fields ([default_config]'s when the name is not a
    preset), unless the selection is ["Custom"]. *)
Definition llm_config_dict (g : Globals) (preset_model : string)
    (api_type api_key base_url api_version model : string)
    (temperature : float) (max_tokens : Z) : gmap string pyval :=
  (* If a preset model is selected, use preset configuration *)
  if bool_decide (preset_model ≠ "Custom") then
    let config_obj := default (default_config g) (preset_configs g !! preset_model) in
    <["api_type" := VStr (LLMConfig.api_type config_obj)]>
    (<["api_key" := VStr (LLMConfig.api_key config_obj)]>
    (<["base_url" := VStr (LLMConfig.base_url config_obj)]>
    (<["api_version" := VStr (LLMConfig.api_version config_obj)]>
    (<["model" := VStr (LLMConfig.model config_obj)]>
    (<["temperature" := VFloat (LLMConfig.temperature config_obj)]>
    (<["max_tokens" := VInt (LLMConfig.max_tokens config_obj)]>
    (<["vision_enabled" := VBool (LLMConfig.vision_enabled config_obj)]> ∅)))))))
  else
    (* Use custom configuration *)
    create_custom_llm_config
      (VStr api_type) (VStr api_key) (VStr base_url) (VStr api_version) (VStr model)
      (VFloat temperature) (VInt max_tokens).

(** The arguments are the values of the UI fields; none is optional. *)
Definition minion_respond_async (g : Globals)
    (query preset_model : string)
    (api_type api_key base_url api_version model : string)
    (temperature : float) (max_tokens : Z)
    (route query_type : string) (check_enabled : bool) : M pyval :=
  let llm_config_dict := llm_config_dict g preset_model api_type api_key base_url
                           api_version model temperature max_tokens in
  brain ← build_brain_with_config llm_config_dict;
  let kwargs := base_kwargs query route check_enabled in
  let kwargs := add_query_type route query_type kwargs in
  res ← step brain kwargs;
  lift (unpack_obs res).

(** [minion_respond]: the synchronous entry point wired to the submit
    button, [asyncio.run(minion_respond_async(...))] with the twelve
    arguments in the order they were received. *)
Definition minion_respond (g : Globals)
    (query preset_model : string)
    (api_type api_key base_url api_version model : string)
    (temperature : float) (max_tokens : Z)
    (route query_type : string) (check_enabled : bool) : M pyval :=
  minion_respond_async g query preset_model api_type api_key base_url
    api_version model temperature max_tokens route query_type check_enabled.

(** The handler on the values it is called with: [temperature] and
    [max_tokens] are not converted or inspected, and the annotations
    [float] and [int] are not enforced, so on the custom branch the
    dictionary carries whatever value the caller supplies.  The
    definitions above are the restriction of these two to the arguments
    that respect the annotations. *)
Definition llm_config_dict_dynamic (g : Globals) (preset_model : string)
    (api_type api_key base_url api_version model : string)
    (temperature max_tokens : pyval) : gmap string pyval :=
  (* If a preset model is selected, use preset configuration *)
  if bool_decide (preset_model ≠ "Custom") then
    let config_obj := default (default_config g) (preset_configs g !! preset_model) in
    <["api_type" := VStr (LLMConfig.api_type config_obj)]>
    (<["api_key" := VStr (LLMConfig.api_key config_obj)]>
    (<["base_url" := VStr (LLMConfig.base_url config_obj)]>
    (<["api_version" := VStr (LLMConfig.api_version config_obj)]>
    (<["model" := VStr (LLMConfig.model config_obj)]>
    (<["temperature" := VFloat (LLMConfig.temperature config_obj)]>
    (<["max_tokens" := VInt (LLMConfig.max_tokens config_obj)]>
    (<["vision_enabled" := VBool (LLMConfig.vision_enabled config_obj)]> ∅)))))))
  else
    (* Use custom configuration *)
    create_custom_llm_config
      (VStr api_type) (VStr api_key) (VStr base_url) (VStr api_version) (VStr model)
      temperature max_tokens.

Definition minion_respond_async_dynamic (g : Globals)
    (query preset_model : string)
    (api_type api_key base_url api_version model : string)
    (temperature max_tokens : pyval)
    (route query_type : string) (check_enabled : bool) : M pyval :=
  let llm_config_dict := llm_config_dict_dynamic g preset_model api_type api_key base_url
                           api_version model temperature max_tokens in
  brain ← build_brain_with_config llm_config_dict;
  let kwargs := base_kwargs query route check_enabled in
  let kwargs := add_query_type route query_type kwargs in
  res ← step brain kwargs;
  lift (unpack_obs res).

(** [update_fields]: as in the other application, but the key of the
    configuration is never put into the field. *)
Definition update_fields (g : Globals) (preset_model : string) : shown_fields :=
  if bool_decide (preset_model = "Custom") then
    (* Return default values, let user configure themselves *)
    mkShown (LLMConfig.api_type (default_config g))
            ""  (* Don't display API key *)
            (LLMConfig.base_url (default_config g))
            (LLMConfig.api_version (default_config g))
            (LLMConfig.model (default_config g))
            (LLMConfig.temperature (default_config g))
            (LLMConfig.max_tokens (default_config g))
  else
    let config_obj := default (default_config g) (preset_configs g !! preset_model) in
    (* Ensure API type is from valid choices *)
    let api_type := if bool_decide (LLMConfig.api_type config_obj ∈ valid_api_types)
                    then LLMConfig.api_type config_obj else "azure" in
    mkShown api_type
            "***hidden***"  (* Hide API key display *)
            (LLMConfig.base_url config_obj)
            (LLMConfig.api_version config_obj)
            (LLMConfig.model config_obj)
            (LLMConfig.temperature config_obj)
            (LLMConfig.max_tokens config_obj).
End app.
End WithoutMcp.

(** * The example tool server ([example_mcp_server.py])

    The stdio server the application can be pointed at with
    [MCP_STDIO_COMMAND]: the tools it lists and how it executes a call.
    The arguments of a call arrive as JSON. *)

Module ExampleServer.

#[warnings="-register-all"] Inductive json : Type :=
  | JNull
  | JBool (b : bool)
  | JInt (n : Z)
  | JFloat (f : float)
  | JStr (s : string)
  | JArr (l : list json)
  | JObj (fields : list (string * json)).

(** [types.Tool] and [types.TextContent], with the fields the server sets. *)
Record Tool : Type := mkTool {
  name : string;
  description : string;
  inputSchema : json;
}.

Record TextContent : Type := mkText {
  type : string;
  text : string;
}.

(** What the server takes from the language and its libraries: [eval],
    the functions of [math], [int], and the text an f-string interpolates
    for a value that is not a string.  An argument of a call arrived as
    JSON and has a text ([format_value]); a value the server computed may
    have none ([format_result]): an integer with more digits than the
    interpreter prints raises [ValueError] when it is interpolated.  The
    other operations may raise as well. *)
Class Runtime : Type := {
  format_value : json → string;
  format_result : json → result string;
  eval : json → result json;
  int : json → result json;
  math_radians : json → result json;
  math_sin : json → result json;
  math_cos : json → result json;
  math_tan : json → result json;
  math_log : json → result json;
  math_sqrt : json → result json;
  math_factorial : json → result json;
}.

(** One reading of [datetime.now()], in the three renderings the server
    uses: [str(int(now.timestamp()))], [now.strftime(...)] and
    [now.isoformat()]. *)
Record datetime : Type := mkDatetime {
  unix : string;
  readable : string;
  isoformat : string;
}.

(** [handle_list_tools] *)
Definition handle_list_tools : list Tool := [
  mkTool "calculator" "Perform basic arithmetic calculations"
    (JObj [("type", JStr "object");
           ("properties", JObj [
              ("expression", JObj [
                 ("type", JStr "string");
                 ("description",
                  JStr "Mathematical expression to evaluate (e.g., '2 + 3 * 4')")])]);
           ("required", JArr [JStr "expression"])]);
  mkTool "echo" "Echo back the provided text"
    (JObj [("type", JStr "object");
           ("properties", JObj [
              ("text", JObj [
                 ("type", JStr "string");
                 ("description", JStr "Text to echo back")])]);
           ("required", JArr [JStr "text"])]);
  mkTool "timestamp" "Get current timestamp"
    (JObj [("type", JStr "object");
           ("properties", JObj [
              ("format", JObj [
                 ("type", JStr "string");
                 ("description", JStr "Timestamp format ('iso', 'unix', or 'readable')");
                 ("default", JStr "iso")])])]);
  mkTool "math_functions" "Advanced mathematical functions"
    (JObj [("type", JStr "object");
           ("properties", JObj [
              ("function", JObj [
                 ("type", JStr "string");
                 ("description", JStr "Math function to use");
                 ("enum", JArr [JStr "sin"; JStr "cos"; JStr "tan"; JStr "log";
                                JStr "sqrt"; JStr "factorial"])]);
              ("value", JObj [
                 ("type", JStr "number");
                 ("description", JStr "Input value for the function")])]);
           ("required", JArr [JStr "function"; JStr "value"])])
].

Section server.
Context `{Runtime}.

(** [v == "..."]: only the same string is equal to a string. *)
Definition is_str (v : json) (s : string) : bool :=
  match v with
  | JStr s' => bool_decide (s' = s)
  | _ => false
  end.

(** A value interpolated into an f-string: a string goes in as it is. *)
Definition interpolate (v : json) : string :=
  match v with
  | JStr s => s
  | _ => format_value v
  end.

(** A computed value interpolated into an f-string. *)
Definition interpolate_result (v : json) : result string :=
  match v with
  | JStr s => Ok s
  | _ => format_result v
  end.

(** [set("0123456789+-*/()., ")]: the one-character strings allowed in an
    expression. *)
Definition allowed_chars : list string :=
  (λ a, String a EmptyString) <$> list_ascii_of_string "0123456789+-*/()., ".

(** [for c in expression]: a string yields its characters, an array its
    elements, an object its keys; nothing else can be iterated. *)
Definition iterate (v : json) : result (list json) :=
  match v with
  | JStr s => Ok ((λ a, JStr (String a EmptyString)) <$> list_ascii_of_string s)
  | JArr l => Ok l
  | JObj fields => Ok (JStr ∘ fst <$> fields)
  | _ => Raise (Exception "object is not iterable")
  end.

(** [c in allowed_chars]: arrays and objects cannot be hashed. *)
Definition in_allowed_chars (c : json) : result bool :=
  match c with
  | JStr s => Ok (bool_decide (s ∈ allowed_chars))
  | JArr _ | JObj _ => Raise (Exception "unhashable type")
  | _ => Ok false
  end.

(** [all(c in allowed_chars for c in ...)], which stops at the first
    character that is not allowed. *)
Fixpoint all_allowed (cs : list json) : result bool :=
  match cs with
  | [] => Ok true
  | c :: cs =>
      b ← in_allowed_chars c;
      if b : bool then all_allowed cs else Ok false
  end.

(** The body of the [try] of the calculator, up to its [return]: the
    f-string of the answer is built inside the [try], so an exception of
    interpolating the result is handled like one of [eval]. *)
Definition calculate (expression : json) : result (list TextContent) :=
  cs ← iterate expression;
  ok ← all_allowed cs;
  (if ok : bool then Ok () else Raise (ValueError "Invalid characters in expression"));;
  result ← eval expression;
  shown ← interpolate_result result;
  Ok [mkText "text"
        ("Result: " +:+ interpolate expression +:+ " = " +:+ shown)].

(** The body of the [try] of the mathematical functions, up to its
    [return]; the answer is built inside the [try] here as well. *)
Definition apply_function (function value : json) : result (list TextContent) :=
  result ←
    (if is_str function "sin" then math_radians value ≫= math_sin
     else if is_str function "cos" then math_radians value ≫= math_cos
     else if is_str function "tan" then math_radians value ≫= math_tan
     else if is_str function "log" then math_log value
     else if is_str function "sqrt" then math_sqrt value
     else if is_str function "factorial" then int value ≫= math_factorial
     else Raise (ValueError ("Unknown function: " +:+ interpolate function)));
  shown ← interpolate_result result;
  Ok [mkText "text"
        (interpolate function +:+ "(" +:+ interpolate value +:+ ") = " +:+ shown)].

(** [handle_call_tool]; [now] is what [datetime.now()] reads. *)
Definition handle_call_tool (now : datetime) (name : string)
    (arguments : gmap string json) : result (list TextContent) :=
  if bool_decide (name = "calculator") then
    let expression := default (JStr "") (arguments !! "expression") in
    match calculate expression with
    | Ok answer => Ok answer
    | Raise e =>
        Ok [mkText "text"
              ("Error: Unable to calculate '" +:+ interpolate expression +:+ "': "
               +:+ exn_message e)]
    end
  else if bool_decide (name = "echo") then
    let text := default (JStr "") (arguments !! "text") in
    Ok [mkText "text" ("Echo: " +:+ interpolate text)]
  else if bool_decide (name = "timestamp") then
    let format_type := default (JStr "iso") (arguments !! "format") in
    let timestamp :=
      if is_str format_type "unix" then unix now
      else if is_str format_type "readable" then readable now
      else isoformat now in
    Ok [mkText "text"
          ("Current timestamp (" +:+ interpolate format_type +:+ "): " +:+ timestamp)]
  else if bool_decide (name = "math_functions") then
    let function := default JNull (arguments !! "function") in
    let value := default JNull (arguments !! "value") in
    match apply_function function value with
    | Ok answer => Ok answer
    | Raise e =>
        Ok [mkText "text"
              ("Error: Unable to calculate " +:+ interpolate function +:+ "("
               +:+ interpolate value +:+ "): " +:+ exn_message e)]
    end
  else Raise (ValueError ("Unknown tool: " +:+ name)).
End server.

(** The argument names a tool declares: the keys of [properties] in its
    input schema. *)
Definition declared_arguments (t : Tool) : list string :=
  match inputSchema t with
  | JObj fields =>
      match (snd <$> filter (λ kv, kv.1 = "properties") fields) with
      | JObj properties :: _ => fst <$> properties
      | _ => []
      end
  | _ => []
  end.
End ExampleServer.

(** * Observing a run

    What a computation hands to the collaborators is read off the calls it
    appends to the world. *)

Definition run_calls {A} (m : M A) (w : World) : list call :=
  drop (length (calls w)) (calls (m w).2).

Definition run_stdout {A} (m : M A) (w : World) : list log_line :=
  drop (length (stdout w)) (stdout (m w).2).

(** The configuration dictionaries handed to the engine factory. *)
Definition built (cs : list call) : list (gmap string pyval) :=
  omap (λ c, match c with CallBuildBrain cfg => Some cfg | _ => None end) cs.

(** The payloads passed to the engine's step, with the brain they went to. *)
Definition dispatched (cs : list call) : list (gmap string pyval * gmap string pyval) :=
  omap (λ c, match c with CallStep cfg kw => Some (cfg, kw) | _ => None end) cs.

Definition engine_call (c : call) : bool :=
  match c with
  | CallBuildBrain _ | CallStep _ _ => true
  | _ => false
  end.

(** The payload after the tool block: [tools] set, or the dictionary as it was. *)
Definition with_tools (tools : option (list BrainTool)) (kwargs : gmap string pyval)
    : gmap string pyval :=
  match tools with
  | Some ts => <["tools" := VList (VTool <$> ts)]> kwargs
  | None => kwargs
  end.

(** ** The numeric settings of the environment

    The ten variables converted by [float()] or [int()] at import time: the
    variable, the literal used when it is unset, the conversion, and the
    place of the module-level state where the value lands. *)

Inductive numeric_kind : Type := KFloat | KInt.

Record numeric_setting : Type := mkSetting {
  ns_key : string;
  ns_literal : string;
  ns_kind : numeric_kind;
  ns_field : Globals → option pyval;
}.

Definition preset_temperature (name : string) (g : Globals) : option pyval :=
  VFloat ∘ LLMConfig.temperature <$> preset_configs g !! name.
Definition preset_max_tokens (name : string) (g : Globals) : option pyval :=
  VInt ∘ LLMConfig.max_tokens <$> preset_configs g !! name.

Definition numeric_settings : list numeric_setting := [
  mkSetting "GPT_4O_TEMPERATURE" "0" KFloat (preset_temperature "gpt-4o");
  mkSetting "GPT_4O_MAX_TOKENS" "4000" KInt (preset_max_tokens "gpt-4o");
  mkSetting "GPT_4O_MINI_TEMPERATURE" "0.1" KFloat (preset_temperature "gpt-4o-mini");
  mkSetting "GPT_4O_MINI_MAX_TOKENS" "4000" KInt (preset_max_tokens "gpt-4o-mini");
  mkSetting "GPT_41_TEMPERATURE" "0.7" KFloat (preset_temperature "gpt-4.1");
  mkSetting "GPT_41_MAX_TOKENS" "4000" KInt (preset_max_tokens "gpt-4.1");
  mkSetting "O4_MINI_TEMPERATURE" "0.7" KFloat (preset_temperature "o4-mini");
  mkSetting "O4_MINI_MAX_TOKENS" "4000" KInt (preset_max_tokens "o4-mini");
  mkSetting "DEFAULT_TEMPERATURE" "0.7" KFloat
    (λ g, Some (VFloat (LLMConfig.temperature (default_config g))));
  mkSetting "DEFAULT_MAX_TOKENS" "4000" KInt
    (λ g, Some (VInt (LLMConfig.max_tokens (default_config g))))
].

Definition convert `{PyBuiltins} (k : numeric_kind) (s : string) : option pyval :=
  match k with
  | KFloat => VFloat <$> float_of_str s
  | KInt => VInt <$> int_of_str s
  end.

Definition converted `{PyBuiltins} (env : gmap string string) (ns : numeric_setting)
    : option pyval :=
  convert (ns_kind ns) (getenv env (ns_key ns) (ns_literal ns)).

(** The exception a conversion raises on a string. *)
Definition conversion_raises `{PyBuiltins} (k : numeric_kind) (s : string) (e : exn) : Prop :=
  match k with
  | KFloat => py_float s = Raise e
  | KInt => py_int s = Raise e
  end.

(** ** The string settings of the environment

    The twenty-five variables read with [os.getenv] and stored as they
    are: the variable, the literal used when it is unset, and the place of
    the module-level state where the value lands. *)

Record string_setting : Type := mkString {
  ss_key : string;
  ss_literal : string;
  ss_field : Globals → option string;
}.

Definition preset_field (name : string) (field : LLMConfig.t → string) (g : Globals)
    : option string :=
  field <$> preset_configs g !! name.

Definition default_field (field : LLMConfig.t → string) (g : Globals) : option string :=
  Some (field (default_config g)).

Definition string_settings : list string_setting := [
  mkString "GPT_4O_API_TYPE" "azure" (preset_field "gpt-4o" LLMConfig.api_type);
  mkString "GPT_4O_API_KEY" "" (preset_field "gpt-4o" LLMConfig.api_key);
  mkString "GPT_4O_BASE_URL" "" (preset_field "gpt-4o" LLMConfig.base_url);
  mkString "GPT_4O_API_VERSION" "2024-06-01" (preset_field "gpt-4o" LLMConfig.api_version);
  mkString "GPT_4O_MODEL" "gpt-4o" (preset_field "gpt-4o" LLMConfig.model);
  mkString "GPT_4O_MINI_API_TYPE" "azure" (preset_field "gpt-4o-mini" LLMConfig.api_type);
  mkString "GPT_4O_MINI_API_KEY" "" (preset_field "gpt-4o-mini" LLMConfig.api_key);
  mkString "GPT_4O_MINI_BASE_URL" "" (preset_field "gpt-4o-mini" LLMConfig.base_url);
  mkString "GPT_4O_MINI_API_VERSION" "2024-06-01"
    (preset_field "gpt-4o-mini" LLMConfig.api_version);
  mkString "GPT_4O_MINI_MODEL" "gpt-4o-mini" (preset_field "gpt-4o-mini" LLMConfig.model);
  mkString "GPT_41_API_TYPE" "azure" (preset_field "gpt-4.1" LLMConfig.api_type);
  mkString "GPT_41_API_KEY" "" (preset_field "gpt-4.1" LLMConfig.api_key);
  mkString "GPT_41_BASE_URL" "" (preset_field "gpt-4.1" LLMConfig.base_url);
  mkString "GPT_41_API_VERSION" "2025-03-01-preview"
    (preset_field "gpt-4.1" LLMConfig.api_version);
  mkString "GPT_41_MODEL" "gpt-4.1" (preset_field "gpt-4.1" LLMConfig.model);
  mkString "O4_MINI_API_TYPE" "azure" (preset_field "o4-mini" LLMConfig.api_type);
  mkString "O4_MINI_API_KEY" "" (preset_field "o4-mini" LLMConfig.api_key);
  mkString "O4_MINI_BASE_URL" "" (preset_field "o4-mini" LLMConfig.base_url);
  mkString "O4_MINI_API_VERSION" "2025-03-01-preview"
    (preset_field "o4-mini" LLMConfig.api_version);
  mkString "O4_MINI_MODEL" "o4-mini" (preset_field "o4-mini" LLMConfig.model);
  mkString "DEFAULT_API_TYPE" "azure" (default_field LLMConfig.api_type);
  mkString "DEFAULT_API_KEY" "" (default_field LLMConfig.api_key);
  mkString "DEFAULT_BASE_URL" "" (default_field LLMConfig.base_url);
  mkString "DEFAULT_API_VERSION" "2024-06-01" (default_field LLMConfig.api_version);
  mkString "DEFAULT_MODEL" "gpt-4o" (default_field LLMConfig.model)
].

(** The keys of the dictionary [get_preset_configs] returns. *)
Definition preset_names : list string := ["gpt-4o"; "gpt-4o-mini"; "gpt-4.1"; "o4-mini"].

(** ** The catalog a client ends up with

    [merge_tools] is what [register_tools] does to the catalog;
    [attempted] lists the sources [setup_mcp_tools] tries, in order;
    [working] keeps those whose connection and listing succeed. *)

Definition merge_tools (catalog ts : list BrainTool) : list BrainTool :=
  foldl (λ acc t, if bool_decide (tool_name t ∈ tool_name <$> acc) then acc else acc ++ [t])
        catalog ts.

Definition succeeds {A} (r : result A) : bool :=
  match r with Ok _ => true | Raise _ => false end.

Section catalog.
Context `{Collaborators}.
Import WithMcp.

Definition attempted (env : gmap string string) : list source :=
  Filesystem :: option_list (sse_source env) ++ option_list (stdio_source env).

Definition reported (s : source) : list BrainTool :=
  match source_tools s with Ok ts => ts | Raise _ => [] end.

Definition working (env : gmap string string) : list source :=
  filter (λ s, succeeds (source_tools s) = true) (attempted env).

Definition catalog_of (sources : list source) : list BrainTool :=
  foldl (λ cat s, merge_tools cat (reported s)) [] sources.
End catalog.

(** ** Observing several callers of [setup_mcp_tools]

    [constructions] lists the client instances built in a log of calls and
    [registrations] the sources registered, with the instance they were
    registered on.  The remaining definitions describe the states the
    system of callers goes through: nobody has started ([Idle]); one caller,
    the [i]-th, is initializing the client and suspended at [p]
    ([Running i p]); the client is there and nobody is initializing
    ([Settled]). *)

Definition constructions (log : list call) : list nat :=
  omap (λ c, match c with CallNewClient id => Some id | _ => None end) log.

Definition registrations (log : list call) : list (nat * source) :=
  omap (λ c, match c with CallAddSource id s => Some (id, s) | _ => None end) log.

Section callers.
Context `{Collaborators}.
Import WithMcp.









(** Where a registration leads once it is resumed. *)
Definition next_pc (env : gmap string string) (id : nat) (s : source) : pc :=
  let last := Returned (Ok (Some id)) in
  let stdio := match stdio_source env with Some s' => AwaitAdd id s' | None => last end in
  match s with
  | Filesystem => match sse_source env with Some s' => AwaitAdd id s' | None => stdio end
  | Sse _ => stdio
  | Stdio _ => last
  end.
End callers.

(** A handler run [serves] a request with [cfg] and [kw] when it hands
    exactly [cfg] to the engine factory, passes [kw] to the step of the
    brain built from it if the factory succeeds (and dispatches nothing if
    not), and returns what unpacking the engine's answer gives. *)
Definition serves `{Collaborators} (m : M pyval) (w : World)
    (cfg kw : gmap string pyval) : Prop :=
  built (run_calls m w) = [cfg] ∧
  dispatched (run_calls m w) =
    match create_llm_provider cfg with Ok _ => [(cfg, kw)] | Raise _ => [] end ∧
  (m w).1 = (create_llm_provider cfg ≫= λ _, brain_step cfg kw ≫= unpack_obs).

(** The ways a request can fail: the factory raises; or it succeeds and
    the engine's step raises, or answers with no component or with one,
    fewer than the two the handlers unpack; the [ValueError] of the
    unpacking says how many there were. *)
Definition engine_failure `{Collaborators} (cfg kw : gmap string pyval) (e : exn) : Prop :=
  create_llm_provider cfg = Raise e ∨
  (create_llm_provider cfg = Ok () ∧
   (brain_step cfg kw = Raise e ∨
    ∃ res, brain_step cfg kw = Ok res ∧
      ((length res = 0%nat ∧
        e = ValueError "not enough values to unpack (expected at least 2, got 0)") ∨
       (length res = 1%nat ∧
        e = ValueError "not enough values to unpack (expected at least 2, got 1)")))).

(** Two worlds that differ at most in what was printed. *)
Definition same_but_stdout (w1 w2 : World) : Prop :=
  heap w1 = heap w2 ∧ mcp_client w1 = mcp_client w2 ∧ calls w1 = calls w2.

(** A computation is [quiet] when it only appends calls, none of them to
    the engine; its standard output only grows as well. *)
Definition quiet {A} (m : M A) : Prop :=
  ∀ w, ∃ cs, calls (m w).2 = calls w ++ cs ∧ Forall (λ c, engine_call c = false) cs.

(** A computation [respects] what was printed when it neither reads it nor
    lets it influence anything else. *)
Definition respects {A} (m : M A) : Prop :=
  ∀ w1 w2, same_but_stdout w1 w2 →
    (m w1).1 = (m w2).1 ∧ same_but_stdout (m w1).2 (m w2).2.

(** Two worlds that differ at most in the calls recorded. *)
Definition same_but_calls (w1 w2 : World) : Prop :=
  heap w1 = heap w2 ∧ mcp_client w1 = mcp_client w2 ∧ stdout w1 = stdout w2.

(** A computation [ignores_calls] when the calls recorded so far
    influence neither its result nor anything else it leaves behind. *)
Definition ignores_calls {A} (m : M A) : Prop :=
  ∀ w1 w2, same_but_calls w1 w2 →
    (m w1).1 = (m w2).1 ∧ same_but_calls (m w1).2 (m w2).2.

(** What the handler with MCP tools prints before it builds the brain: the
    banner, the configuration in use and the final configuration.  The
    API key is not among the values printed. *)
Definition announcement (g : Globals) (preset_model : string)
    (api_type base_url api_version model : option string)
    (temperature : option float) (max_tokens : option Z) : list log_line :=
  let api_type := default (LLMConfig.api_type (default_config g)) api_type in
  let base_url := default (LLMConfig.base_url (default_config g)) base_url in
  let api_version := default (LLMConfig.api_version (default_config g)) api_version in
  let model := default (LLMConfig.model (default_config g)) model in
  let temperature := default (LLMConfig.temperature (default_config g)) temperature in
  let max_tokens := default (LLMConfig.max_tokens (default_config g)) max_tokens in
  [ if bool_decide (preset_model ≠ "Custom")
    then Line "Using preset base with UI overrides: " [VStr preset_model]
    else Line "Using custom configuration:" [];
    Line "   - API Type: " [VStr api_type];
    Line "   - Model: " [VStr model];
    Line "   - Base URL: " [VStr base_url];
    Line "   - API Version: " [VStr api_version];
    Line "   - Temperature: " [VFloat temperature];
    Line "   - Max tokens: " [VInt max_tokens];
    Line "Building brain with final config:" [];
    Line "   - Final API type: " [VStr api_type];
    Line "   - Final model: " [VStr model];
    Line "   - Final temperature: " [VFloat temperature];
    Line "   - Final max_tokens: " [VInt max_tokens] ].

(** The whole program: the module is imported, then a handler serves. *)
Definition run_app `{PyBuiltins} {A} (env : gmap string string)
    (handler : Globals → M A) : M A :=
  λ w, match module_init env with
       | Ok g => handler g w
       | Raise e => (Raise e, w)
       end.

(** * Reference instances

    The statements below hold for every [PyBuiltins] and every
    [Collaborators].  To run the model on concrete inputs, the builtins are
    instantiated on plain decimal literals and the collaborators by a small
    fixed world. *)

Module Reference.
Definition digit_of (c : ascii) : option Z :=
  let n := Z.of_N (N_of_ascii c) in
  if (48 <=? n) && (n <=? 57) then Some (n - 48) else None.

(** Reads a maximal run of digits: the value accumulated, the number of
    digits read and the rest of the string. *)
Fixpoint read_digits (s : string) (acc : Z) (count : nat) : Z * nat * string :=
  match s with
  | String c s' =>
      match digit_of c with
      | Some d => read_digits s' (10 * acc + d) (S count)
      | None => (acc, count, s)
      end
  | EmptyString => (acc, count, s)
  end.

Definition split_sign (s : string) : bool * string :=
  match s with
  | String "-" s' => (true, s')
  | String "+" s' => (false, s')
  | _ => (false, s)
  end.

(** [int(s)] on an optional sign followed by one or more digits. *)
Definition decimal_int (s : string) : option Z :=
  let '(neg, body) := split_sign s in
  let '(v, n, rest) := read_digits body 0 0 in
  if bool_decide (n ≠ 0%nat) && bool_decide (rest = "")
  then Some (if neg then - v else v) else None.

Definition float_of_Z (n : Z) : float := PrimFloat.of_uint63 (Uint63.of_Z n).

(** [float(s)] on an optional sign, digits and an optional point followed
    by digits, with at least one and at most 15 digits in all.  Mantissa and power of ten are then exact
    binary64 values and their correctly rounded quotient is the float
    nearest to the literal, which is what [float] returns. *)
Definition decimal_float (s : string) : option float :=
  let '(neg, body) := split_sign s in
  let '(ip, n1, rest) := read_digits body 0 0 in
  let parsed :=
    match rest with
    | EmptyString => Some (ip, n1, 0%nat)
    | String "." frac =>
        let '(m, n2, rest') := read_digits frac ip 0 in
        if bool_decide (rest' = "") then Some (m, (n1 + n2)%nat, n2) else None
    | _ => None
    end in
  match parsed with
  | Some (m, digits, k) =>
      if bool_decide (digits ≠ 0%nat) && bool_decide (digits ≤ 15)%nat then
        let q := PrimFloat.div (float_of_Z m) (float_of_Z (10 ^ Z.of_nat k)) in
        Some (if neg then PrimFloat.opp q else q)
      else None
  | None => None
  end.

#[export] Instance builtins : PyBuiltins := {|
  float_of_str := decimal_float;
  int_of_str := decimal_int;
|}.

Definition read_file : BrainTool := mkBrainTool "read_file" "Read a file of the workspace".
Definition echo : BrainTool := mkBrainTool "echo" "Echo back the input".
Definition final_answer : BrainTool := mkBrainTool "final_answer" "Return the final answer".

(** The filesystem tool is there, the SSE server cannot be reached, the
    stdio server offers [echo]; the engine answers ["4"] with score [1.0]
    and one more engine-specific field. *)
#[export] Instance collaborators : Collaborators := {|
  create_llm_provider := λ _, Ok ();
  brain_step := λ _ _, Ok [VStr "4"; VFloat 1%float; VStr "trace"];
  source_tools := λ s,
    match s with
    | Filesystem => Ok [read_file]
    | Sse _ => Raise (Exception "connection refused")
    | Stdio _ => Ok [echo; read_file]
    end;
  aenter_outcome := Ok ();
  final_answer_tool := final_answer;
|}.

(** No variable set; and both tool servers configured. *)
Definition env_empty : gmap string string := ∅.
Definition env_servers : gmap string string :=
  <["MCP_SSE_URL" := "http://localhost:8080/sse"]>
  (<["MCP_STDIO_COMMAND" := "python example_mcp_server.py"]> ∅).

(** The module-level state of a process started with no variable set. *)
Definition globals : Globals :=
  match module_init env_empty with
  | Ok g => g
  | Raise _ => mkGlobals ∅ (LLMConfig.init "" "" "" "" "" 0%float 0) []
  end.

(** The default temperature set to a word. *)
Definition env_hot : gmap string string := <["DEFAULT_TEMPERATURE" := "hot"]> ∅.

(** Two first callers racing, each given five steps. *)
Definition race : list nat := [0; 1; 1; 0; 0; 1; 0; 1; 1; 0]%nat.

(** Collaborators of a machine that is cut off: no provider can be built
    and the client cannot be entered. *)
Definition offline : Collaborators := {|
  create_llm_provider := λ _, Raise (Exception "no provider configured");
  brain_step := λ _ _, Raise (Exception "no engine");
  source_tools := λ _, Raise (Exception "connection refused");
  aenter_outcome := Raise (Exception "cannot start the client session");
  final_answer_tool := final_answer;
|}.

(** A runtime of the example server that can add two and two and raise
    ten to the power 5000, and nothing else; it prints integers of at most
    4300 digits. *)
Definition show (v : ExampleServer.json) : string :=
  match v with
  | ExampleServer.JInt 4 => "4"
  | ExampleServer.JNull => "None"
  | _ => "?"
  end.

Definition runtime : ExampleServer.Runtime := {|
  ExampleServer.format_value := show;
  ExampleServer.format_result := λ v,
    match v with
    | ExampleServer.JInt n =>
        if 10 ^ 4300 <=? Z.abs n
        then Raise (ValueError "Exceeds the limit (4300 digits) for integer string conversion")
        else Ok (show v)
    | _ => Ok (show v)
    end;
  ExampleServer.eval := λ v,
    if ExampleServer.is_str v "2 + 2" then Ok (ExampleServer.JInt 4)
    else if ExampleServer.is_str v "10**5000" then Ok (ExampleServer.JInt (10 ^ 5000))
    else Raise (Exception "invalid syntax");
  ExampleServer.int := λ _, Raise (Exception "not available");
  ExampleServer.math_radians := λ _, Raise (Exception "not available");
  ExampleServer.math_sin := λ _, Raise (Exception "not available");
  ExampleServer.math_cos := λ _, Raise (Exception "not available");
  ExampleServer.math_tan := λ _, Raise (Exception "not available");
  ExampleServer.math_log := λ _, Raise (Exception "not available");
  ExampleServer.math_sqrt := λ _, Raise (Exception "not available");
  ExampleServer.math_factorial := λ _, Raise (Exception "not available");
|}.

(** A reading of the clock. *)
Definition noon : ExampleServer.datetime :=
  ExampleServer.mkDatetime "1767268800" "2026-01-01 12:00:00" "2026-01-01T12:00:00".
End Reference.

(** Symbolic execution of a computation on a world given by its fields.
    The projections are reduced along the way: every primitive reads the
    world several times, and leaving them would duplicate it at each step. *)
Ltac run_M :=
  cbv beta iota zeta delta [mbind mret M_mbind M_mret M_bind M_ret raise lift
    try_except print record get_mcp_client set_mcp_client update_client
    result_mbind result_bind heap mcp_client stdout calls fst snd] in *.

Ltac respects_prim :=
  intros [h1 g1 o1 c1] [h2 g2 o2 c2] (Hh & Hg & Hc); unfold same_but_stdout in *;
  run_M; simplify_eq; try done.

(** * Properties *)

Set Warnings "-inexact-float".

(** ** Reasoning about computations in [M] *)

Lemma quiet_ret {A} (a : A) : quiet (mret a : M A).
Proof. intros w. exists []. by rewrite app_nil_r. Qed.

Lemma quiet_raise {A} (e : exn) : quiet (raise e : M A).
Proof. intros w. exists []. by rewrite app_nil_r. Qed.

Lemma quiet_lift {A} (r : result A) : quiet (lift r).
Proof. intros w. exists []. by rewrite app_nil_r. Qed.

Lemma quiet_print text args : quiet (print text args).
Proof. intros w. exists []. by rewrite app_nil_r. Qed.

Lemma quiet_record c : engine_call c = false → quiet (record c).
Proof. intros Hc w. exists [c]. split; [done|]. by constructor. Qed.

Lemma quiet_get : quiet get_mcp_client.
Proof. intros w. exists []. by rewrite app_nil_r. Qed.

Lemma quiet_set g : quiet (set_mcp_client g).
Proof. intros w. exists []. by rewrite app_nil_r. Qed.

Lemma quiet_update id f : quiet (update_client id f).
Proof. intros w. exists []. by rewrite app_nil_r. Qed.

Lemma quiet_bind {A B} (m : M A) (f : A → M B) :
  quiet m → (∀ a, quiet (f a)) → quiet (m ≫= f).
Proof.
  intros Hm Hf w. destruct (Hm w) as (cs1 & E1 & F1).
  unfold mbind, M_mbind, M_bind. destruct (m w) as [[a|e] w1]; simpl in *.
  - destruct (Hf a w1) as (cs2 & E2 & F2). exists (cs1 ++ cs2).
    rewrite E2, E1, app_assoc. split; [done|]. by apply Forall_app.
  - by exists cs1.
Qed.

Lemma quiet_try {A} (m : M A) (h : exn → M A) :
  quiet m → (∀ e, quiet (h e)) → quiet (try_except m h).
Proof.
  intros Hm Hh w. destruct (Hm w) as (cs1 & E1 & F1).
  unfold try_except. destruct (m w) as [[a|e] w1]; simpl in *.
  - by exists cs1.
  - destruct (Hh e w1) as (cs2 & E2 & F2). exists (cs1 ++ cs2).
    rewrite E2, E1, app_assoc. split; [done|]. by apply Forall_app.
Qed.

Create HintDb quiet.
#[export] Hint Resolve quiet_ret quiet_raise quiet_lift quiet_print quiet_get
  quiet_set quiet_update quiet_bind quiet_try : quiet.
#[export] Hint Extern 1 (quiet (record _)) => apply quiet_record; reflexivity : quiet.

Lemma run_calls_app {A} (m : M A) (w : World) cs :
  calls (m w).2 = calls w ++ cs → run_calls m w = cs.
Proof. intros E. unfold run_calls. rewrite E. by rewrite drop_app_length. Qed.

Lemma built_app cs1 cs2 : built (cs1 ++ cs2) = built cs1 ++ built cs2.
Proof. apply omap_app. Qed.

Lemma dispatched_app cs1 cs2 : dispatched (cs1 ++ cs2) = dispatched cs1 ++ dispatched cs2.
Proof. apply omap_app. Qed.

Lemma built_quiet cs : Forall (λ c, engine_call c = false) cs → built cs = [].
Proof. induction 1 as [|c cs Hc _ IH]; [done|]. by destruct c. Qed.

Lemma dispatched_quiet cs : Forall (λ c, engine_call c = false) cs → dispatched cs = [].
Proof. induction 1 as [|c cs Hc _ IH]; [done|]. by destruct c. Qed.

Lemma respects_ret {A} (a : A) : respects (mret a : M A).
Proof. respects_prim. Qed.
Lemma respects_raise {A} (e : exn) : respects (raise e : M A).
Proof. respects_prim. Qed.
Lemma respects_lift {A} (r : result A) : respects (lift r).
Proof. respects_prim. Qed.
Lemma respects_print text args : respects (print text args).
Proof. respects_prim. Qed.
Lemma respects_record c : respects (record c).
Proof. respects_prim. Qed.
Lemma respects_get : respects get_mcp_client.
Proof. respects_prim. Qed.
Lemma respects_set g : respects (set_mcp_client g).
Proof. respects_prim. Qed.
Lemma respects_update id f : respects (update_client id f).
Proof. respects_prim. Qed.

Lemma respects_bind {A B} (m : M A) (f : A → M B) :
  respects m → (∀ a, respects (f a)) → respects (m ≫= f).
Proof.
  intros Hm Hf w1 w2 Hw. destruct (Hm w1 w2 Hw) as [Hr Hw'].
  unfold mbind, M_mbind, M_bind.
  destruct (m w1) as [[a1|e1] w1'], (m w2) as [[a2|e2] w2']; simpl in *; simplify_eq.
  - by apply Hf.
  - done.
Qed.

Lemma respects_try {A} (m : M A) (h : exn → M A) :
  respects m → (∀ e, respects (h e)) → respects (try_except m h).
Proof.
  intros Hm Hh w1 w2 Hw. destruct (Hm w1 w2 Hw) as [Hr Hw'].
  unfold try_except.
  destruct (m w1) as [[a1|e1] w1'], (m w2) as [[a2|e2] w2']; simpl in *; simplify_eq.
  - done.
  - by apply Hh.
Qed.

Create HintDb respects.
#[export] Hint Resolve respects_ret respects_raise respects_lift respects_print
  respects_record respects_get respects_set respects_update respects_bind
  respects_try : respects.

(** ** The request handler with MCP tools *)

Section with_mcp_facts.
Context `{Collaborators}.
Import WithMcp.

Lemma quiet_register_tools id ts : quiet (register_tools id ts).
Proof.
  induction ts as [|t ts IH]; simpl; [auto with quiet|].
  apply quiet_bind; [|done]. intros w. unfold register_tool.
  destruct (heap w !! id); [|exists []; by rewrite app_nil_r].
  case_bool_decide; exists []; by rewrite app_nil_r.
Qed.

Lemma quiet_add_source id s : quiet (add_source id s).
Proof. unfold add_source. auto using quiet_register_tools with quiet. Qed.

Lemma quiet_the_client : quiet the_client.
Proof. unfold the_client. apply quiet_bind; [auto with quiet|]. intros [?|]; auto with quiet. Qed.

Lemma quiet_setup_mcp_tools env : quiet (setup_mcp_tools env).
Proof.
  unfold setup_mcp_tools, add_filesystem, add_sse, add_stdio, try_add, aenter, new_client.
  apply quiet_bind; [auto with quiet|]. intros [id|]; [auto with quiet|].
  apply quiet_bind.
  { intros w. exists [CallNewClient (length (heap w))]. split; [done|]. by constructor. }
  intros id. repeat (apply quiet_bind; [|intros ?]);
    repeat case_match;
    eauto 10 using quiet_the_client, quiet_add_source with quiet.
Qed.
Lemma quiet_get_available_tools env : quiet (get_available_tools env).
Proof.
  unfold get_available_tools, create_final_answer_tool, get_tools_for_brain.
  apply quiet_bind; [|auto with quiet].
  apply quiet_try; [|auto with quiet].
  apply quiet_bind; [apply quiet_setup_mcp_tools|].
  intros [id|]; [|auto with quiet].
  intros w. exists []. rewrite app_nil_r. by destruct (heap w !! id).
Qed.

Lemma add_tools_spec env use_tools kwargs w :
  ∃ tools cs w',
    add_tools env use_tools kwargs w = (Ok (with_tools tools kwargs), w') ∧
    calls w' = calls w ++ cs ∧ Forall (λ c, engine_call c = false) cs.
Proof.
  unfold add_tools. destruct use_tools.
  - destruct (quiet_get_available_tools env w) as (cs & E & F).
    unfold try_except, mbind, M_mbind, M_bind.
    destruct (get_available_tools env w) as [[ts|e] w1]; simpl in *.
    + exists (Some ts), cs. eexists. split; [reflexivity|]. done.
    + exists None, cs. eexists. split; [reflexivity|]. done.
  - exists None, []. eexists. split; [reflexivity|]. by rewrite app_nil_r.
Qed.

Lemma respond_serves g env query preset_model api_type api_key base_url api_version
    model temperature max_tokens route query_type check_enabled use_tools w :
  ∃ tools,
    serves (minion_respond_async g env query preset_model api_type api_key
              base_url api_version model temperature max_tokens route query_type
              check_enabled use_tools) w
      (llm_config_dict g api_type api_key base_url api_version model
         temperature max_tokens)
      (with_tools tools
         (add_query_type route query_type (base_kwargs query route check_enabled))).
Proof.
  unfold serves, minion_respond_async, run_calls.
  remember (llm_config_dict _ _ _ _ _ _ _ _) as cfg eqn:Ecfg; clear Ecfg.
  remember (add_query_type _ _ _) as kw0 eqn:Ekw; clear Ekw.
  cbv zeta.
  remember (if bool_decide (preset_model ≠ "Custom") then _ else _) as banner eqn:Eb.
  assert (Hb : ∀ w, ∃ out, banner w = (Ok (), mkWorld (heap w) (mcp_client w) out (calls w))).
  { intros w0. subst banner. case_bool_decide; eexists; reflexivity. }
  clear Eb. destruct (Hb w) as [out Eout]. destruct w as [h gl out0 cs0].
  unfold print_config, build_brain_with_config, step. run_M.
  rewrite Eout.
  destruct (create_llm_provider cfg) as [[]|e].
  - match goal with |- context [add_tools ?e ?u ?k ?w] =>
      destruct (add_tools_spec e u k w) as (tools & cs & [h' gl' out' cs'] & E & Ec & F)
    end.
    exists tools. rewrite E. run_M. subst cs'.
    assert (Hdrop : ∀ tl, drop (length cs0) (((cs0 ++ [CallBuildBrain cfg]) ++ cs) ++ tl)
                    = [CallBuildBrain cfg] ++ cs ++ tl).
    { intros tl. rewrite <- !app_assoc. by rewrite drop_app_length. }
    destruct (brain_step cfg (with_tools tools kw0)) as [res|e];
      rewrite Hdrop, !built_app, !dispatched_app,
        (built_quiet cs F), (dispatched_quiet cs F); done.
  - exists None. rewrite drop_app_length. done.
Qed.
Lemma respects_register_tools id ts : respects (register_tools id ts).
Proof.
  induction ts as [|t ts IH]; simpl; [auto with respects|].
  apply respects_bind; [|done].
  intros [h1 g1 o1 c1] [h2 g2 o2 c2] (Hh & Hg & Hc). unfold same_but_stdout in *.
  unfold register_tool. simpl in *. subst.
  destruct (h2 !! id); [|done]. case_bool_decide; run_M; done.
Qed.

Lemma respects_add_source id s : respects (add_source id s).
Proof. unfold add_source. auto using respects_register_tools with respects. Qed.

Lemma respects_the_client : respects the_client.
Proof.
  unfold the_client. apply respects_bind; [auto with respects|].
  intros [?|]; auto with respects.
Qed.

Lemma respects_setup_mcp_tools env : respects (setup_mcp_tools env).
Proof.
  unfold setup_mcp_tools, add_filesystem, add_sse, add_stdio, try_add, aenter.
  apply respects_bind; [auto with respects|]. intros [id|]; [auto with respects|].
  apply respects_bind.
  { intros [h1 g1 o1 c1] [h2 g2 o2 c2] (Hh & Hg & Hc). unfold same_but_stdout in *.
    unfold new_client. simpl in *. by subst. }
  intros id. repeat (apply respects_bind; [|intros ?]);
    repeat case_match;
    eauto 10 using respects_the_client, respects_add_source with respects.
Qed.

Lemma respects_get_available_tools env : respects (get_available_tools env).
Proof.
  unfold get_available_tools, create_final_answer_tool.
  apply respects_bind; [|auto with respects].
  apply respects_try; [|auto with respects].
  apply respects_bind; [apply respects_setup_mcp_tools|].
  intros [id|]; [|auto with respects].
  intros [h1 g1 o1 c1] [h2 g2 o2 c2] (Hh & Hg & Hc). unfold same_but_stdout in *.
  unfold get_tools_for_brain. simpl in *. subst. by destruct (h2 !! id).
Qed.

Lemma respects_add_tools env use_tools kwargs : respects (add_tools env use_tools kwargs).
Proof.
  unfold add_tools. destruct use_tools; auto 10 using respects_get_available_tools with respects.
Qed.

Lemma run_calls_same {A} (m1 m2 : M A) w :
  calls (m1 w).2 = calls (m2 w).2 → run_calls m1 w = run_calls m2 w.
Proof. unfold run_calls. by intros ->. Qed.

End with_mcp_facts.

(** ** The request handler without tools *)

Section without_mcp_facts.
Context `{Collaborators}.
Import WithoutMcp.

Lemma plain_respond_serves g query preset_model api_type api_key base_url api_version
    model temperature max_tokens route query_type check_enabled w :
  serves (minion_respond_async g query preset_model api_type api_key base_url
            api_version model temperature max_tokens route query_type check_enabled) w
    (llm_config_dict g preset_model api_type api_key base_url api_version model
       temperature max_tokens)
    (add_query_type route query_type (base_kwargs query route check_enabled)).
Proof.
  unfold serves, minion_respond_async, run_calls.
  remember (llm_config_dict _ _ _ _ _ _ _ _ _) as cfg eqn:Ecfg; clear Ecfg.
  remember (add_query_type _ _ _) as kw eqn:Ekw; clear Ekw.
  destruct w as [h gl out cs]. unfold build_brain_with_config, step. run_M.
  destruct (create_llm_provider cfg) as [[]|e].
  - assert (Hdrop : ∀ tl, drop (length cs) ((cs ++ [CallBuildBrain cfg]) ++ tl)
                    = [CallBuildBrain cfg] ++ tl).
    { intros tl. rewrite <- !app_assoc. by rewrite drop_app_length. }
    destruct (brain_step cfg kw) as [res|e]; rewrite Hdrop; done.
  - rewrite drop_app_length. done.
Qed.
End without_mcp_facts.

(** ** The dictionaries *)

Section dict_facts.
Lemma custom_config_fields a b c d e f g' :
  let cfg := create_custom_llm_config a b c d e f g' in
  cfg !! "api_type" = Some a ∧ cfg !! "api_key" = Some b ∧
  cfg !! "base_url" = Some c ∧ cfg !! "api_version" = Some d ∧
  cfg !! "model" = Some e ∧ cfg !! "temperature" = Some f ∧
  cfg !! "max_tokens" = Some g' ∧ cfg !! "vision_enabled" = Some (VBool false).
Proof. repeat split; vm_compute; reflexivity. Qed.

Lemma base_kwargs_route query route check_enabled :
  base_kwargs query route check_enabled !! "route"
  = Some (if truthy route then VStr route else VNone).
Proof. unfold base_kwargs. cbv zeta. generalize (if truthy route then VStr route else VNone). intros v. vm_compute. reflexivity. Qed.

Lemma base_kwargs_query_type query route check_enabled :
  base_kwargs query route check_enabled !! "query_type" = None.
Proof. unfold base_kwargs. cbv zeta. generalize (if truthy route then VStr route else VNone). intros v. vm_compute. reflexivity. Qed.

Lemma add_query_type_route route query_type kw :
  add_query_type route query_type kw !! "route" = kw !! "route".
Proof. unfold add_query_type. case_match; [|done]. by rewrite lookup_insert_ne. Qed.

Lemma add_query_type_lookup route query_type kw :
  kw !! "query_type" = None →
  add_query_type route query_type kw !! "query_type"
  = if bool_decide (route = "python") && truthy query_type
    then Some (VStr query_type) else None.
Proof. intros Hkw. unfold add_query_type. case_match; [|done]. by rewrite lookup_insert_eq. Qed.

Lemma with_tools_other tools kw k :
  k ≠ "tools" → with_tools tools kw !! k = kw !! k.
Proof. intros Hk. destruct tools; [|done]. simpl. by rewrite lookup_insert_ne. Qed.
End dict_facts.

(** ** Route, query type, configuration and returned value *)

Section dispatch_claims.
Context `{Collaborators}.
Variables (g : Globals) (env : gmap string string) (w : World).
Variables (query preset_model : string) (check_enabled use_tools : bool).
(* the MCP application's optional arguments *)
Variables (api_type api_key base_url api_version model : option string).
Variables (temperature : option float) (max_tokens : option Z).
(* the plain application's UI values *)
Variables (ui_api_type ui_api_key ui_base_url ui_api_version ui_model : string).
Variables (ui_temperature : float) (ui_max_tokens : Z).

Local Abbreviation with_mcp route query_type :=
  (WithMcp.minion_respond_async g env query preset_model api_type api_key base_url
     api_version model temperature max_tokens route query_type check_enabled use_tools)
  (only parsing).
Local Abbreviation without_mcp route query_type :=
  (WithoutMcp.minion_respond_async g query preset_model ui_api_type ui_api_key
     ui_base_url ui_api_version ui_model ui_temperature ui_max_tokens route query_type
     check_enabled)
  (only parsing).

(** C8.  For every query submitted with the empty-string route, in both
    applications, the value under [route] in the payload passed to the
    engine's step is [None] (auto-selection), not the empty string. *)
Theorem empty_route_is_sent_as_None (query_type : string) :
  (∃ cfg kw, serves (with_mcp "" query_type) w cfg kw ∧ kw !! "route" = Some VNone) ∧
  (∃ cfg kw, serves (without_mcp "" query_type) w cfg kw ∧ kw !! "route" = Some VNone).
Proof.
  split.
  - destruct (respond_serves g env query preset_model api_type api_key base_url
                api_version model temperature max_tokens "" query_type check_enabled
                use_tools w) as [tools Hs].
    eexists _, _. split; [exact Hs|].
    by rewrite with_tools_other, add_query_type_route, base_kwargs_route.
  - eexists _, _. split; [apply plain_respond_serves|].
    by rewrite add_query_type_route, base_kwargs_route.
Qed.

(** C2, as the code has it.  No route tag is validated: for every
    non-empty route, whether or not it is one of the routes offered by the
    UI, the request is served and the tag is forwarded unchanged under
    [route]; it is never replaced by [None]. *)
Theorem nonempty_route_is_forwarded_unchecked (route query_type : string) :
  route ≠ "" →
  (∃ cfg kw, serves (with_mcp route query_type) w cfg kw ∧
             kw !! "route" = Some (VStr route)) ∧
  (∃ cfg kw, serves (without_mcp route query_type) w cfg kw ∧
             kw !! "route" = Some (VStr route)).
Proof.
  intros Hr. assert (Ht : truthy route = true) by (by destruct route).
  split.
  - destruct (respond_serves g env query preset_model api_type api_key base_url
                api_version model temperature max_tokens route query_type check_enabled
                use_tools w) as [tools Hs].
    eexists _, _. split; [exact Hs|].
    by rewrite with_tools_other, add_query_type_route, base_kwargs_route, Ht.
  - eexists _, _. split; [apply plain_respond_serves|].
    by rewrite add_query_type_route, base_kwargs_route, Ht.
Qed.

Lemma query_type_key route query_type (kw : gmap string pyval) :
  kw !! "query_type" = (if bool_decide (route = "python") && truthy query_type
                        then Some (VStr query_type) else None) →
  (is_Some (kw !! "query_type") ↔ route = "python" ∧ query_type ≠ "") ∧
  (∀ v, kw !! "query_type" = Some v → v = VStr query_type).
Proof.
  intros ->. case_bool_decide as Hr; destruct query_type as [|c qt]; simpl;
    (split; [split; [intros [? ?]|intros [? ?]]|intros ? ?]);
    try done; try congruence. 
Qed.

(** C3, as the code has it.  The key [query_type] is present in the
    payload passed to the engine's step if and only if the route is
    ["python"] and the supplied query type is not empty, and then it
    carries the supplied value; for every other route it is absent. *)
Theorem query_type_attached_iff_python_and_nonempty (route query_type : string) :
  (∃ cfg kw, serves (with_mcp route query_type) w cfg kw ∧
     (is_Some (kw !! "query_type") ↔ route = "python" ∧ query_type ≠ "") ∧
     (∀ v, kw !! "query_type" = Some v → v = VStr query_type)) ∧
  (∃ cfg kw, serves (without_mcp route query_type) w cfg kw ∧
     (is_Some (kw !! "query_type") ↔ route = "python" ∧ query_type ≠ "") ∧
     (∀ v, kw !! "query_type" = Some v → v = VStr query_type)).
Proof.
  split.
  - destruct (respond_serves g env query preset_model api_type api_key base_url
                api_version model temperature max_tokens route query_type check_enabled
                use_tools w) as [tools Hs].
    eexists _, _. split; [exact Hs|]. apply query_type_key.
    rewrite with_tools_other by done.
    apply add_query_type_lookup, base_kwargs_query_type.
  - eexists _, _. split; [apply plain_respond_serves|]. apply query_type_key.
    apply add_query_type_lookup, base_kwargs_query_type.
Qed.

Lemma plain_config_fields :
  let selected := default (default_config g) (preset_configs g !! preset_model) in
  let pick {A} (preset ui : A) := if bool_decide (preset_model ≠ "Custom") then preset else ui in
  let cfg := WithoutMcp.llm_config_dict g preset_model ui_api_type ui_api_key ui_base_url
               ui_api_version ui_model ui_temperature ui_max_tokens in
  cfg !! "api_type" = Some (VStr (pick (LLMConfig.api_type selected) ui_api_type)) ∧
  cfg !! "api_key" = Some (VStr (pick (LLMConfig.api_key selected) ui_api_key)) ∧
  cfg !! "base_url" = Some (VStr (pick (LLMConfig.base_url selected) ui_base_url)) ∧
  cfg !! "api_version" = Some (VStr (pick (LLMConfig.api_version selected) ui_api_version)) ∧
  cfg !! "model" = Some (VStr (pick (LLMConfig.model selected) ui_model)) ∧
  cfg !! "temperature" = Some (VFloat (pick (LLMConfig.temperature selected) ui_temperature)) ∧
  cfg !! "max_tokens" = Some (VInt (pick (LLMConfig.max_tokens selected) ui_max_tokens)).
Proof.
  intros selected pick cfg. subst cfg pick. unfold WithoutMcp.llm_config_dict.
  fold selected. generalize selected. intros s.
  case_bool_decide.
  - destruct s. cbn [LLMConfig.api_type LLMConfig.api_key LLMConfig.base_url
      LLMConfig.api_version LLMConfig.model LLMConfig.temperature LLMConfig.max_tokens
      LLMConfig.vision_enabled].
    repeat split; vm_compute; reflexivity.
  - pose proof (custom_config_fields (VStr ui_api_type) (VStr ui_api_key)
      (VStr ui_base_url) (VStr ui_api_version) (VStr ui_model) (VFloat ui_temperature)
      (VInt ui_max_tokens)) as Hf.
    cbv zeta in Hf. tauto.
Qed.

(** C1, as the code has it.  With MCP tools, each of the seven fields of
    the dictionary handed to the engine factory is the explicit argument
    when one is given and the field of the global default configuration
    otherwise; the preset is not consulted.  Without tools, each field is
    the selected preset's (the global default's when the name is not a
    preset) unless the selection is ["Custom"], in which case it is the UI
    value as supplied. *)
Theorem configuration_is_resolved_per_application (route query_type : string) :
  (∃ cfg kw, serves (with_mcp route query_type) w cfg kw ∧
     cfg !! "api_type" = Some (VStr (default (LLMConfig.api_type (default_config g)) api_type)) ∧
     cfg !! "api_key" = Some (VStr (default (LLMConfig.api_key (default_config g)) api_key)) ∧
     cfg !! "base_url" = Some (VStr (default (LLMConfig.base_url (default_config g)) base_url)) ∧
     cfg !! "api_version" =
       Some (VStr (default (LLMConfig.api_version (default_config g)) api_version)) ∧
     cfg !! "model" = Some (VStr (default (LLMConfig.model (default_config g)) model)) ∧
     cfg !! "temperature" =
       Some (VFloat (default (LLMConfig.temperature (default_config g)) temperature)) ∧
     cfg !! "max_tokens" =
       Some (VInt (default (LLMConfig.max_tokens (default_config g)) max_tokens))) ∧
  (∃ cfg kw, serves (without_mcp route query_type) w cfg kw ∧
     let selected := default (default_config g) (preset_configs g !! preset_model) in
     let pick {A} (preset ui : A) :=
       if bool_decide (preset_model ≠ "Custom") then preset else ui in
     cfg !! "api_type" = Some (VStr (pick (LLMConfig.api_type selected) ui_api_type)) ∧
     cfg !! "api_key" = Some (VStr (pick (LLMConfig.api_key selected) ui_api_key)) ∧
     cfg !! "base_url" = Some (VStr (pick (LLMConfig.base_url selected) ui_base_url)) ∧
     cfg !! "api_version" =
       Some (VStr (pick (LLMConfig.api_version selected) ui_api_version)) ∧
     cfg !! "model" = Some (VStr (pick (LLMConfig.model selected) ui_model)) ∧
     cfg !! "temperature" =
       Some (VFloat (pick (LLMConfig.temperature selected) ui_temperature)) ∧
     cfg !! "max_tokens" =
       Some (VInt (pick (LLMConfig.max_tokens selected) ui_max_tokens))).
Proof.
  split.
  - destruct (respond_serves g env query preset_model api_type api_key base_url
                api_version model temperature max_tokens route query_type check_enabled
                use_tools w) as [tools Hs].
    eexists _, _. split; [exact Hs|].
    unfold WithMcp.llm_config_dict. cbv zeta.
    pose proof (custom_config_fields
      (VStr (default (LLMConfig.api_type (default_config g)) api_type))
      (VStr (default (LLMConfig.api_key (default_config g)) api_key))
      (VStr (default (LLMConfig.base_url (default_config g)) base_url))
      (VStr (default (LLMConfig.api_version (default_config g)) api_version))
      (VStr (default (LLMConfig.model (default_config g)) model))
      (VFloat (default (LLMConfig.temperature (default_config g)) temperature))
      (VInt (default (LLMConfig.max_tokens (default_config g)) max_tokens))) as Hf.
    cbv zeta in Hf. tauto.
  - eexists _, _. split; [apply plain_respond_serves|]. apply plain_config_fields.
Qed.

(** C6, as the code has it.  Whenever the engine answers the dispatched
    payload with a tuple [(obs, score, ...)], the handler returns [obs]
    alone: the score and the trailing fields are unpacked and dropped. *)
Theorem only_the_observation_is_returned (route query_type : string)
    (cfg kw : gmap string pyval) (obs score : pyval) (rest : list pyval) :
  brain_step cfg kw = Ok (obs :: score :: rest) →
  ((cfg, kw) ∈ dispatched (run_calls (with_mcp route query_type) w) →
     ((with_mcp route query_type) w).1 = Ok obs) ∧
  ((cfg, kw) ∈ dispatched (run_calls (without_mcp route query_type) w) →
     ((without_mcp route query_type) w).1 = Ok obs).
Proof.
  intros Hstep.
  assert (Hserves : ∀ m cfg' kw', serves m w cfg' kw' →
            (cfg, kw) ∈ dispatched (run_calls m w) → (m w).1 = Ok obs).
  { intros m cfg' kw' (_ & Hd & Hr) Hin. rewrite Hd in Hin. rewrite Hr.
    destruct (create_llm_provider cfg') as [[]|e].
    - apply list_elem_of_singleton in Hin. simplify_eq.
      unfold mbind, result_mbind, result_bind. by rewrite Hstep.
    - by apply elem_of_nil in Hin. }
  split.
  - destruct (respond_serves g env query preset_model api_type api_key base_url
                api_version model temperature max_tokens route query_type check_enabled
                use_tools w) as [tools Hs].
    by eapply Hserves.
  - eapply Hserves, plain_respond_serves.
Qed.
End dispatch_claims.

(** ** The preset selection *)

Section preset_claim.
Context `{Collaborators}.
Import WithMcp.

(** C10.  With MCP tools, two calls that differ only in [preset_model]
    hand the same configuration dictionaries to the engine factory, pass
    the same payloads to the engine's step, return the same result and
    leave the same world but for what was printed. *)
Theorem preset_model_has_no_effect (g : Globals) (env : gmap string string) (w : World)
    (query preset_model preset_model' : string)
    (api_type api_key base_url api_version model : option string)
    (temperature : option float) (max_tokens : option Z)
    (route query_type : string) (check_enabled use_tools : bool) :
  let m := minion_respond_async g env query preset_model api_type api_key base_url
             api_version model temperature max_tokens route query_type check_enabled
             use_tools in
  let m' := minion_respond_async g env query preset_model' api_type api_key base_url
              api_version model temperature max_tokens route query_type check_enabled
              use_tools in
  built (run_calls m w) = built (run_calls m' w) ∧
  dispatched (run_calls m w) = dispatched (run_calls m' w) ∧
  (m w).1 = (m' w).1 ∧
  same_but_stdout (m w).2 (m' w).2.
Proof.
  intros m m'.
  assert (Hgoal : (m w).1 = (m' w).1 ∧ same_but_stdout (m w).2 (m' w).2).
  { subst m m'. unfold minion_respond_async. cbv zeta.
    remember (llm_config_dict _ _ _ _ _ _ _ _) as cfg eqn:Ecfg; clear Ecfg.
    remember (add_query_type _ _ _) as kw0 eqn:Ekw; clear Ekw.
    match goal with
    | |- context [mbind ?f (if bool_decide (preset_model ≠ "Custom") then _ else _)] =>
        assert (Hrest : respects (f ()))
    end.
    { unfold print_config, build_brain_with_config, step.
      repeat (apply respects_bind; [|intros ?]);
        auto using respects_add_tools with respects. }
    destruct w as [h gl out cs].
    unfold mbind at 1 3. unfold M_mbind, M_bind.
    do 2 case_bool_decide; unfold print at 1 2;
      apply Hrest; done. }
  destruct Hgoal as [Hr Hw]. pose proof Hw as (_ & _ & Hc).
  rewrite (run_calls_same m m' w Hc). done.
Qed.
End preset_claim.

(** ** Numeric settings at import *)

Section numeric.
Context `{PyBuiltins}.

Lemma py_float_cases {A} (s : string) (k : float → result A) (P : result A → Prop) :
  (∀ f, float_of_str s = Some f → P (k f)) →
  (∀ msg, float_of_str s = None → P (Raise (ValueError msg))) →
  P (py_float s ≫= k).
Proof.
  intros Hsome Hnone. unfold py_float.
  destruct (float_of_str s) as [f|]; cbn [mbind result_mbind result_bind]; auto.
Qed.

Lemma py_int_cases {A} (s : string) (k : Z → result A) (P : result A → Prop) :
  (∀ n, int_of_str s = Some n → P (k n)) →
  (∀ msg, int_of_str s = None → P (Raise (ValueError msg))) →
  P (py_int s ≫= k).
Proof.
  intros Hsome Hnone. unfold py_int.
  destruct (int_of_str s) as [n|]; cbn [mbind result_mbind result_bind]; auto.
Qed.

Ltac failed_conversion :=
  split; [by eexists|];
  repeat first
    [ apply Exists_cons_hd; unfold converted;
      cbn [convert ns_kind ns_key ns_literal];
      match goal with
      | E : float_of_str ?s = None |- context [float_of_str ?s] => by rewrite E
      | E : int_of_str ?s = None |- context [int_of_str ?s] => by rewrite E
      end
    | apply Exists_cons_tl ].

Ltac next_conversion :=
  lazymatch goal with
  | |- context C [mbind ?k (py_float ?s)] =>
      let P := constr:(λ r : result _, ltac:(let g := context C [r] in exact g)) in
      apply (py_float_cases s k P)
  | |- context C [mbind ?k (py_int ?s)] =>
      let P := constr:(λ r : result _, ltac:(let g := context C [r] in exact g)) in
      apply (py_int_cases s k P)
  end;
  [ intros ? ?; cbv beta
  | intros ? ?; cbn [mbind result_mbind result_bind]; failed_conversion ].

(** What the import computes, in terms of the ten conversions. *)
Lemma module_init_conversions env :
  match module_init env with
  | Ok g => Forall (λ ns, ∃ v, converted env ns = Some v ∧ ns_field ns g = Some v)
              numeric_settings
  | Raise e => (∃ msg, e = ValueError msg) ∧
               Exists (λ ns, converted env ns = None) numeric_settings
  end.
Proof.
  unfold module_init, get_preset_configs, numeric_settings.
  do 8 next_conversion.
  cbn [mbind result_mbind result_bind]. unfold get_default_config.
  do 2 next_conversion.
  cbn [mbind result_mbind result_bind].
  repeat first [apply Forall_cons_2 | apply Forall_nil_2].
  all: unfold converted; cbn [convert ns_kind ns_key ns_literal ns_field].
  all: eexists; split;
    [ match goal with
      | E : float_of_str ?s = Some _ |- context [float_of_str ?s] => rewrite E; reflexivity
      | E : int_of_str ?s = Some _ |- context [int_of_str ?s] => rewrite E; reflexivity
      end
    | reflexivity ].
Qed.

(** For each of the ten numeric settings: when the variable is set to
    a string that [float()] (or [int()]) rejects, the import raises and no
    handler ever runs, so the world is untouched and nothing external is
    called; when the import succeeds, the value in place is the conversion
    of the variable's string, and of the built-in literal only when the
    variable is unset. *)
Lemma import_converts_the_numeric_settings (env : gmap string string)
    (ns : numeric_setting) :
  ns ∈ numeric_settings →
  (∀ s, env !! ns_key ns = Some s → convert (ns_kind ns) s = None →
     raises_ValueError (module_init env) ∧
     ∀ A (handler : Globals → M A) w,
       ∃ msg, run_app env handler w = (Raise (ValueError msg), w)) ∧
  (∀ g, module_init env = Ok g →
     (env !! ns_key ns = None → ns_field ns g = convert (ns_kind ns) (ns_literal ns)) ∧
     (∀ s, env !! ns_key ns = Some s → ns_field ns g = convert (ns_kind ns) s)).
Proof.
  intros Hns. pose proof (module_init_conversions env) as Hinit. split.
  - intros s Hs Hconv.
    assert (Hraise : raises_ValueError (module_init env)).
    { destruct (module_init env) as [g|e].
      - rewrite Forall_forall in Hinit. destruct (Hinit ns Hns) as (v & Hv & _).
        unfold converted, getenv in Hv. rewrite Hs in Hv. congruence.
      - by destruct Hinit as [[msg ->] _]. }
    split; [done|]. intros A handler w. unfold run_app.
    destruct (module_init env) as [g|[msg|msg]]; [done| |done]. by exists msg.
  - intros g Hg. rewrite Hg in Hinit. rewrite Forall_forall in Hinit.
    destruct (Hinit ns Hns) as (v & Hv & Hfield). unfold converted, getenv in Hv.
    rewrite Hfield, <- Hv. split.
    + by intros ->.
    + by intros s ->.
Qed.
End numeric.

(** ** Numeric values at a request *)

Section numeric_requests.
Context `{PyBuiltins} `{Collaborators}.

(** The handlers on annotated arguments are the handlers on arbitrary
    values, at the values the annotations allow. *)
Lemma typed_request_is_dynamic g env query preset_model api_type api_key base_url
    api_version model temperature max_tokens route query_type check_enabled use_tools :
  WithMcp.minion_respond_async g env query preset_model api_type api_key base_url
    api_version model temperature max_tokens route query_type check_enabled use_tools
  = WithMcp.minion_respond_async_dynamic g env query preset_model api_type api_key
      base_url api_version model (from_option VFloat VNone temperature)
      (from_option VInt VNone max_tokens) route query_type check_enabled use_tools.
Proof. by destruct temperature, max_tokens. Qed.

Lemma typed_plain_request_is_dynamic g query preset_model api_type api_key base_url
    api_version model temperature max_tokens route query_type check_enabled :
  WithoutMcp.minion_respond_async g query preset_model api_type api_key base_url
    api_version model temperature max_tokens route query_type check_enabled
  = WithoutMcp.minion_respond_async_dynamic g query preset_model api_type api_key
      base_url api_version model (VFloat temperature) (VInt max_tokens) route
      query_type check_enabled.
Proof. reflexivity. Qed.

Lemma respond_serves_dynamic g env query preset_model api_type api_key base_url
    api_version model temperature max_tokens route query_type check_enabled use_tools w :
  ∃ tools,
    serves (WithMcp.minion_respond_async_dynamic g env query preset_model api_type
              api_key base_url api_version model temperature max_tokens route query_type
              check_enabled use_tools) w
      (WithMcp.llm_config_dict_dynamic g api_type api_key base_url api_version model
         temperature max_tokens)
      (with_tools tools
         (add_query_type route query_type (base_kwargs query route check_enabled))).
Proof.
  unfold serves, WithMcp.minion_respond_async_dynamic, run_calls.
  remember (WithMcp.llm_config_dict_dynamic _ _ _ _ _ _ _ _) as cfg eqn:Ecfg; clear Ecfg.
  remember (add_query_type _ _ _) as kw0 eqn:Ekw; clear Ekw.
  cbv zeta.
  remember (if bool_decide (preset_model ≠ "Custom") then _ else _) as banner eqn:Eb.
  assert (Hb : ∀ w, ∃ out, banner w = (Ok (), mkWorld (heap w) (mcp_client w) out (calls w))).
  { intros w0. subst banner. case_bool_decide; eexists; reflexivity. }
  clear Eb. destruct (Hb w) as [out Eout]. destruct w as [h gl out0 cs0].
  unfold WithMcp.print_config_dynamic, build_brain_with_config, step. run_M.
  rewrite Eout.
  destruct (create_llm_provider cfg) as [[]|e].
  - match goal with |- context [WithMcp.add_tools ?e ?u ?k ?w] =>
      destruct (add_tools_spec e u k w) as (tools & cs & [h' gl' out' cs'] & E & Ec & F)
    end.
    exists tools. rewrite E. run_M. subst cs'.
    assert (Hdrop : ∀ tl, drop (length cs0) (((cs0 ++ [CallBuildBrain cfg]) ++ cs) ++ tl)
                    = [CallBuildBrain cfg] ++ cs ++ tl).
    { intros tl. rewrite <- !app_assoc. by rewrite drop_app_length. }
    destruct (brain_step cfg (with_tools tools kw0)) as [res|e];
      rewrite Hdrop, !built_app, !dispatched_app,
        (built_quiet cs F), (dispatched_quiet cs F); done.
  - exists None. rewrite drop_app_length. done.
Qed.

Lemma plain_respond_serves_dynamic g query preset_model api_type api_key base_url
    api_version model temperature max_tokens route query_type check_enabled w :
  serves (WithoutMcp.minion_respond_async_dynamic g query preset_model api_type api_key
            base_url api_version model temperature max_tokens route query_type
            check_enabled) w
    (WithoutMcp.llm_config_dict_dynamic g preset_model api_type api_key base_url
       api_version model temperature max_tokens)
    (add_query_type route query_type (base_kwargs query route check_enabled)).
Proof.
  unfold serves, WithoutMcp.minion_respond_async_dynamic, run_calls.
  remember (WithoutMcp.llm_config_dict_dynamic _ _ _ _ _ _ _ _ _) as cfg eqn:Ecfg;
    clear Ecfg.
  remember (add_query_type _ _ _) as kw eqn:Ekw; clear Ekw.
  destruct w as [h gl out cs]. unfold build_brain_with_config, step. run_M.
  destruct (create_llm_provider cfg) as [[]|e].
  - assert (Hdrop : ∀ tl, drop (length cs) ((cs ++ [CallBuildBrain cfg]) ++ tl)
                    = [CallBuildBrain cfg] ++ tl).
    { intros tl. rewrite <- !app_assoc. by rewrite drop_app_length. }
    destruct (brain_step cfg kw) as [res|e]; rewrite Hdrop; done.
  - rewrite drop_app_length. done.
Qed.

(** C4.  Numeric values are converted in one place, the import.  For each
    of the ten numeric settings of the environment: set to a string that
    [float()] (or [int()]) rejects, it makes the import raise [ValueError]
    and no handler ever runs, so the world is untouched and nothing
    external is called; when the import succeeds, the value in place is
    the conversion of the variable's string, and of the built-in literal
    only when the variable is unset.  The temperature and max-tokens of a
    request are not converted and not checked: whatever value is supplied,
    numeric or not, is the one in the dictionary handed to the engine
    factory (in the application with tools [None] is replaced by the value
    of the default configuration; in the plain application this is the
    custom branch, a preset ignoring the two arguments), and the request
    then fails only if the engine does. *)
Theorem numeric_values_are_checked_at_import_only (env : gmap string string)
    (ns : numeric_setting) :
  ns ∈ numeric_settings →
  (∀ s, env !! ns_key ns = Some s → convert (ns_kind ns) s = None →
     raises_ValueError (module_init env) ∧
     ∀ A (handler : Globals → M A) w,
       ∃ msg, run_app env handler w = (Raise (ValueError msg), w)) ∧
  (∀ g, module_init env = Ok g →
     (env !! ns_key ns = None → ns_field ns g = convert (ns_kind ns) (ns_literal ns)) ∧
     (∀ s, env !! ns_key ns = Some s → ns_field ns g = convert (ns_kind ns) s)) ∧
  (∀ g query preset_model api_type api_key base_url api_version model
     (temperature max_tokens : pyval) route query_type check_enabled use_tools w,
     ∃ cfg kw,
       serves (WithMcp.minion_respond_async_dynamic g env query preset_model api_type
                 api_key base_url api_version model temperature max_tokens route
                 query_type check_enabled use_tools) w cfg kw ∧
       cfg !! "temperature"
         = Some (or_default (VFloat (LLMConfig.temperature (default_config g))) temperature) ∧
       cfg !! "max_tokens"
         = Some (or_default (VInt (LLMConfig.max_tokens (default_config g))) max_tokens)) ∧
  (∀ g query preset_model api_type api_key base_url api_version model
     (temperature max_tokens : pyval) route query_type check_enabled w,
     ∃ cfg kw,
       serves (WithoutMcp.minion_respond_async_dynamic g query preset_model api_type
                 api_key base_url api_version model temperature max_tokens route
                 query_type check_enabled) w cfg kw ∧
       (preset_model = "Custom" →
        cfg !! "temperature" = Some temperature ∧ cfg !! "max_tokens" = Some max_tokens) ∧
       (preset_model ≠ "Custom" →
        cfg = WithoutMcp.llm_config_dict_dynamic g preset_model "" "" "" "" "" VNone VNone)).
Proof.
  intros Hns.
  destruct (import_converts_the_numeric_settings env ns Hns) as [Hbad Hgood].
  split_and!; [exact Hbad|exact Hgood| |].
  - intros g query preset_model api_type api_key base_url api_version model temperature
      max_tokens route query_type check_enabled use_tools w.
    destruct (respond_serves_dynamic g env query preset_model api_type api_key base_url
                api_version model temperature max_tokens route query_type check_enabled
                use_tools w) as [tools Hs].
    eexists _, _. split; [exact Hs|].
    unfold WithMcp.llm_config_dict_dynamic. cbv zeta.
    match goal with |- context [create_custom_llm_config ?a ?b ?c ?d ?e ?t ?x] =>
      destruct (custom_config_fields a b c d e t x) as (_ & _ & _ & _ & _ & Ht & Hx & _)
    end.
    done.
  - intros g query preset_model api_type api_key base_url api_version model temperature
      max_tokens route query_type check_enabled w.
    eexists _, _. split; [apply plain_respond_serves_dynamic|].
    unfold WithoutMcp.llm_config_dict_dynamic. split.
    + intros ->. rewrite bool_decide_eq_false_2 by (by intros []).
      match goal with |- context [create_custom_llm_config ?a ?b ?c ?d ?e ?t ?x] =>
        destruct (custom_config_fields a b c d e t x) as (_ & _ & _ & _ & _ & Ht & Hx & _)
      end.
      done.
    + intros Hne. by rewrite !bool_decide_eq_true_2 by done.
Qed.
End numeric_requests.

(** ** Tool assembly *)

Section tools.
Context `{Collaborators}.
Import WithMcp.

Lemma register_tools_spec id ts h gl out cs c :
  h !! id = Some c →
  ∃ out', register_tools id ts (mkWorld h gl out cs)
          = (Ok (), mkWorld (<[id := mkClient (entered c) (merge_tools (catalog c) ts)]> h)
                            gl (out ++ out') cs).
Proof.
  revert h out c. induction ts as [|t ts IH]; intros h out c Hc.
  - exists []. simpl. destruct c. run_M. rewrite app_nil_r. by rewrite list_insert_id.
  - cbn [register_tools]. unfold mbind, M_mbind, M_bind, register_tool.
    cbn [heap]. rewrite Hc. cbn [merge_tools foldl]. fold (merge_tools).
    destruct (bool_decide (tool_name t ∈ tool_name <$> catalog c)) eqn:Hin;
      fold (merge_tools (catalog c) ts); fold (merge_tools (catalog c ++ [t]) ts).
    + run_M. destruct (IH h (out ++ [Line "Warning: duplicate tool dropped: " [VStr (tool_name t)]]) c Hc) as [out' E].
      rewrite E. eexists. by rewrite <- app_assoc.
    + run_M.
      assert (Hc' : alter (λ c0, mkClient (entered c0) (catalog c0 ++ [t])) id h !! id
                    = Some (mkClient (entered c) (catalog c ++ [t]))).
      { rewrite list_lookup_alter_eq. by rewrite Hc. }
      destruct (IH _ out _ Hc') as [out' E]. rewrite E. exists out'.
      cbn [entered catalog]. do 2 f_equal.
      apply list_eq. intros j. destruct (decide (j = id)) as [->|Hne].
      * rewrite !list_lookup_insert_eq; [done| |].
        -- by eapply lookup_lt_Some.
        -- rewrite length_alter. by eapply lookup_lt_Some.
      * rewrite !list_lookup_insert_ne by done. by rewrite list_lookup_alter_ne.
Qed.

Lemma merge_tools_nil cat : merge_tools cat [] = cat.
Proof. reflexivity. Qed.

Lemma try_add_spec s h c out cs :
  let id := length h in
  ∃ out', try_add s (mkWorld (h ++ [c]) (Some id) out cs)
          = (Ok (), mkWorld (h ++ [mkClient (entered c) (merge_tools (catalog c) (reported s))])
                            (Some id) (out ++ out') (cs ++ [CallAddSource id s])) ∧
          (∀ e, source_tools s = Raise e → Line (fail_text s) [VExn e] ∈ out').
Proof.
  intros id. unfold try_add, the_client, add_source, reported. run_M.
  destruct (source_tools s) as [ts|e] eqn:Hs.
  - assert (Hc : (h ++ [c]) !! id = Some c) by (by apply list_lookup_middle).
    destruct (register_tools_spec id ts (h ++ [c]) (Some id) out
                (cs ++ [CallAddSource id s]) c Hc) as [out' E].
    rewrite E. run_M. exists (out' ++ [ok_line s]). split; [|done].
    rewrite app_assoc. destruct (ok_line s). do 2 f_equal.
    subst id. by rewrite insert_app_r_alt, Nat.sub_diag.
  - exists [Line (fail_text s) [VExn e]]. split.
    + destruct c. by rewrite merge_tools_nil.
    + intros e' [= <-]. apply list_elem_of_singleton. done.
Qed.

Lemma alter_last {A} (f : A → A) (h : list A) (c : A) :
  alter f (length h) (h ++ [c]) = h ++ [f c].
Proof.
  apply list_eq. intros j. destruct (decide (j = length h)) as [->|Hne].
  - rewrite list_lookup_alter_eq, !list_lookup_middle by done. done.
  - rewrite list_lookup_alter_ne by done.
    destruct (decide (j < length h)%nat).
    + by rewrite !lookup_app_l by done.
    + rewrite !lookup_ge_None_2; [done| |]; rewrite length_app; simpl; lia.
Qed.

Lemma setup_first_call env h out cs :
  let id := length h in
  match aenter_outcome with
  | Ok _ =>
      ∃ out',
        setup_mcp_tools env (mkWorld h None out cs)
        = (Ok (Some id),
           mkWorld (h ++ [mkClient true (catalog_of (attempted env))]) (Some id)
                   (out ++ out')
                   (cs ++ [CallNewClient id; CallAenter id]
                       ++ (CallAddSource id <$> attempted env))) ∧
        (∀ s e, s ∈ attempted env → source_tools s = Raise e →
                Line (fail_text s) [VExn e] ∈ out')
  | Raise e =>
      setup_mcp_tools env (mkWorld h None out cs)
      = (Raise e,
         mkWorld (h ++ [mkClient false []]) (Some id) out
                 (cs ++ [CallNewClient id; CallAenter id]))
  end.
Proof.
  intros id. unfold setup_mcp_tools, new_client, aenter, the_client. run_M.
  fold id. destruct aenter_outcome as [[]|e].
  2:{ by rewrite <- app_assoc. }
  subst id. rewrite alter_last. cbn [catalog].
  unfold add_filesystem, add_sse, add_stdio, attempted, catalog_of.
  destruct (sse_source env) as [s1|], (stdio_source env) as [s2|];
    cbn [option_list app foldl fmap list_fmap];
    repeat match goal with
    | |- context [try_add ?s (mkWorld (?h ++ [?c]) _ ?out ?cs)] =>
        let o := fresh "o" in let E := fresh "E" in let W := fresh "W" in
        destruct (try_add_spec s h c out cs) as (o & E & W); rewrite E; clear E;
        cbn [entered catalog]; run_M
    end; run_M; rewrite <- ?app_assoc; cbn [app].
  all: eexists; split; [reflexivity|].
  all: intros s e Hin Hs; simpl in Hin; rewrite ?elem_of_app;
    repeat (apply elem_of_cons in Hin as [->|Hin]; [eauto 6|]);
    by apply elem_of_nil in Hin.
Qed.

Lemma catalog_of_working env : catalog_of (working env) = catalog_of (attempted env).
Proof.
  unfold catalog_of, working. generalize (@nil BrainTool) as cat.
  induction (attempted env) as [|s l IH]; intros cat; [done|].
  rewrite filter_cons. case_decide as Hok; simpl; [apply IH|].
  assert (Hnone : reported s = []).
  { unfold reported. destruct (source_tools s); [by destruct Hok|done]. }
  rewrite Hnone. apply IH.
Qed.

Lemma get_available_tools_first env h out cs :
  let id := length h in
  match aenter_outcome with
  | Ok _ =>
      ∃ out',
        get_available_tools env (mkWorld h None out cs)
        = (Ok (catalog_of (attempted env)),
           mkWorld (h ++ [mkClient true (catalog_of (attempted env))]) (Some id)
                   (out ++ out')
                   (cs ++ ([CallNewClient id; CallAenter id]
                            ++ (CallAddSource id <$> attempted env))
                       ++ [CallFinalAnswerTool])) ∧
        (∀ s e, s ∈ attempted env → source_tools s = Raise e →
                Line (fail_text s) [VExn e] ∈ out')
  | Raise e =>
      get_available_tools env (mkWorld h None out cs)
      = (Ok [],
         mkWorld (h ++ [mkClient false []]) (Some id)
                 (out ++ [Line "Warning: Failed to setup MCP tools: " [VExn e]])
                 (cs ++ [CallNewClient id; CallAenter id; CallFinalAnswerTool]))
  end.
Proof.
  intros id. pose proof (setup_first_call env h out cs) as Hsetup. fold id in Hsetup.
  unfold get_available_tools, create_final_answer_tool, get_tools_for_brain.
  destruct aenter_outcome as [[]|e].
  - destruct Hsetup as (out' & E & W). exists out'. split; [|done].
    run_M. rewrite E. run_M. subst id. rewrite list_lookup_middle by done.
    cbn [catalog]. by rewrite <- !app_assoc.
  - run_M. rewrite Hsetup. run_M. by rewrite <- !app_assoc.
Qed.

Lemma get_available_tools_again env h id out cs c :
  h !! id = Some c →
  get_available_tools env (mkWorld h (Some id) out cs)
  = (Ok (catalog c), mkWorld h (Some id) out (cs ++ [CallFinalAnswerTool])).
Proof.
  intros Hc. unfold get_available_tools, create_final_answer_tool, get_tools_for_brain,
    setup_mcp_tools. run_M. by rewrite Hc.
Qed.

(** C5.  On the first use of the tool assembly, whatever subset of the
    attempted sources raises: every source is still attempted, the catalog
    returned is the merge, in registration order, of the tools of the
    sources that did not raise, each failure is printed as a warning, and
    nothing is raised to the caller. *)
Theorem failing_source_does_not_stop_the_others (env : gmap string string) (w : World) :
  mcp_client w = None →
  aenter_outcome = Ok () →
  let m := get_available_tools env in
  (m w).1 = Ok (catalog_of (working env)) ∧
  (∀ s, s ∈ attempted env → CallAddSource (length (heap w)) s ∈ run_calls m w) ∧
  (∀ s e, s ∈ attempted env → source_tools s = Raise e →
          Line (fail_text s) [VExn e] ∈ run_stdout m w).
Proof.
  intros Hnone Henter m. destruct w as [h gl out cs]. cbn [mcp_client heap] in *. subst gl.
  pose proof (get_available_tools_first env h out cs) as Hrun.
  rewrite Henter in Hrun. destruct Hrun as (out' & E & W).
  subst m. unfold run_calls, run_stdout. rewrite E. cbn [fst snd calls stdout].
  rewrite !drop_app_length, catalog_of_working. split; [done|]. split; [|done].
  intros s Hs. rewrite !elem_of_app. left. right. by apply list_elem_of_fmap_2.
Qed.

End tools.

(** ** Callers of [setup_mcp_tools] interleaved at the awaits *)

Section machine.
Context `{Collaborators}.
Import WithMcp.

Lemma sse_source_is_sse env s : sse_source env = Some s → ∃ url, s = Sse url.
Proof. unfold sse_source. repeat case_match; intros [= <-]; eauto. Qed.

Lemma stdio_source_is_stdio env s : stdio_source env = Some s → ∃ cmd, s = Stdio cmd.
Proof. unfold stdio_source. repeat case_match; intros [= <-]; eauto. Qed.

(** What one resumption of a registration does to the world. *)
Lemma resume_add_spec id s h g out cs :
  ∃ h' out', resume_add id s (mkWorld h g out cs)
             = (Ok (), mkWorld h' g out' (cs ++ [CallAddSource id s])) ∧
             length h' = length h.
Proof.
  unfold resume_add, add_source. run_M.
  destruct (source_tools s) as [ts|e].
  - destruct (h !! id) as [c|] eqn:Hc.
    + destruct (register_tools_spec id ts h g out (cs ++ [CallAddSource id s]) c Hc)
        as [out' E]. rewrite E. run_M. eexists _, _. split; [reflexivity|].
      by rewrite length_insert.
    + assert (E : ∀ out, register_tools id ts (mkWorld h g out (cs ++ [CallAddSource id s]))
                  = (Ok (), mkWorld h g out (cs ++ [CallAddSource id s]))).
      { induction ts as [|t ts IH]; intros out0; [done|].
        cbn [register_tools]. unfold mbind, M_mbind, M_bind, register_tool.
        cbn [heap]. rewrite Hc. apply IH. }
      rewrite E. run_M. by eexists _, _.
  - by eexists _, _.
Qed.

Lemma step_start_none env h out cs :
  step_setup env Start (mkWorld h None out cs)
  = (AwaitAenter (length h),
     mkWorld (h ++ [mkClient false []]) (Some (length h)) out
             (cs ++ [CallNewClient (length h)])).
Proof. reflexivity. Qed.


Lemma step_aenter env id h out cs :
  step_setup env (AwaitAenter id) (mkWorld h (Some id) out cs)
  = match aenter_outcome with
    | Ok _ => (AwaitAdd id Filesystem,
               mkWorld (alter (λ c, mkClient true (catalog c)) id h) (Some id) out
                       (cs ++ [CallAenter id]))
    | Raise e => (Returned (Raise e), mkWorld h (Some id) out (cs ++ [CallAenter id]))
    end.
Proof.
  unfold step_setup, as_pc, aenter, begin_filesystem, suspend_add, the_client.
  run_M. by destruct aenter_outcome as [[]|e].
Qed.












Lemma registrations_adds id l : registrations (CallAddSource id <$> l) = (id,.) <$> l.
Proof. induction l as [|s l IH]; [done|]. cbn. by f_equal. Qed.





(** The machine run alone is [setup_mcp_tools]. *)

Lemma machine_add env id s h out cs :
  ∃ h' out',
    let w' := mkWorld h' (Some id) out' (cs ++ [CallAddSource id s]) in
    try_add s (mkWorld h (Some id) out cs) = (Ok (), w') ∧
    step_setup env (AwaitAdd id s) (mkWorld h (Some id) out cs) = (next_pc env id s, w').
Proof.
  destruct (resume_add_spec id s h (Some id) out cs) as (h' & out' & E & _).
  exists h', out'. cbn zeta. split.
  - rewrite <- E. unfold try_add, resume_add, the_client. by run_M.
  - unfold step_setup, as_pc. unfold mbind at 1. unfold M_mbind, M_bind. rewrite E.
    unfold next_pc, after_add, begin_sse, begin_stdio, suspend_add, finish, the_client.
    destruct s; destruct (sse_source env), (stdio_source env); run_M; reflexivity.
Qed.

Lemma run_alone_registrations env id h out cs :
  run_alone env 3 (AwaitAdd id Filesystem) (mkWorld h (Some id) out cs)
  = let '(r, w') := (add_filesystem;; add_sse env;; add_stdio env;; get_mcp_client)
                      (mkWorld h (Some id) out cs) in
    (Some r, w').
Proof.
  unfold add_filesystem, add_sse, add_stdio.
  destruct (machine_add env id Filesystem h out cs) as (h1 & out1 & T1 & S1).
  cbn [run_alone]. rewrite S1. unfold mbind at 1. unfold M_mbind, M_bind. rewrite T1.
  unfold next_pc.
  destruct (sse_source env) as [s1|] eqn:E1.
  - apply sse_source_is_sse in E1 as Hs1. destruct Hs1 as [url ->].
    destruct (machine_add env id (Sse url) h1 out1 (cs ++ [CallAddSource id Filesystem]))
      as (h2 & out2 & T2 & S2).
    cbn [run_alone]. rewrite S2. unfold mbind at 1. unfold M_mbind, M_bind. rewrite T2.
    unfold next_pc.
    destruct (stdio_source env) as [s2|] eqn:E2.
    + apply stdio_source_is_stdio in E2 as Hs2. destruct Hs2 as [cmd ->].
      destruct (machine_add env id (Stdio cmd) h2 out2
                  ((cs ++ [CallAddSource id Filesystem]) ++ [CallAddSource id (Sse url)]))
        as (h3 & out3 & T3 & S3).
      cbn [run_alone]. rewrite S3. unfold mbind at 1. unfold M_mbind, M_bind. rewrite T3.
      reflexivity.
    + reflexivity.
  - destruct (stdio_source env) as [s2|] eqn:E2.
    + apply stdio_source_is_stdio in E2 as Hs2. destruct Hs2 as [cmd ->].
      destruct (machine_add env id (Stdio cmd) h1 out1 (cs ++ [CallAddSource id Filesystem]))
        as (h3 & out3 & T3 & S3).
      cbn [run_alone]. rewrite S3. run_M. rewrite T3. reflexivity.
    + reflexivity.
Qed.

Lemma run_alone_step env fuel p w :
  (∀ r, p ≠ Returned r) →
  run_alone env (S fuel) p w
  = run_alone env fuel (step_setup env p w).1 (step_setup env p w).2.
Proof.
  intros Hp. destruct p as [|id|id s|r]; [..|by destruct (Hp r)];
    cbn [run_alone]; by destruct (step_setup env _ w).
Qed.

Lemma run_alone_is_setup env w :
  run_alone env 5 Start w = let '(r, w') := setup_mcp_tools env w in (Some r, w').
Proof.
  destruct w as [h [id|] out cs]; [reflexivity|].
  assert (Hsetup : setup_mcp_tools env (mkWorld h None out cs)
            = let w1 := mkWorld (h ++ [mkClient false []]) (Some (length h)) out
                                ((cs ++ [CallNewClient (length h)]) ++ [CallAenter (length h)]) in
              match aenter_outcome with
              | Ok _ =>
                  (add_filesystem;; add_sse env;; add_stdio env;; get_mcp_client)
                    (mkWorld (alter (λ c, mkClient true (catalog c)) (length h) (heap w1))
                             (Some (length h)) out (calls w1))
              | Raise e => (Raise e, w1)
              end).
  { unfold setup_mcp_tools, new_client, aenter, the_client. run_M.
    by destruct aenter_outcome as [[]|e]. }
  rewrite Hsetup. cbv zeta. cbn [heap calls].
  rewrite run_alone_step, step_start_none by done. cbn [fst snd].
  rewrite run_alone_step, step_aenter by done.
  destruct aenter_outcome as [[]|e]; cbn [fst snd]; [|reflexivity].
  apply run_alone_registrations.
Qed.




End machine.

(** ** The interface callbacks *)

Section fields_facts.

Lemma azure_is_valid : "azure" ∈ valid_api_types.
Proof. apply list_elem_of_here. Qed.

(** X1.  In both applications the API type [update_fields] puts into the
    dropdown is one of the dropdown's six choices exactly when a preset
    name (anything but ["Custom"]) was selected or the default
    configuration's own type is one of them: only the preset branch
    replaces a foreign type by ["azure"].  Both applications show the
    same type. *)
Theorem shown_api_type_is_a_valid_choice (g : Globals) (preset_model : string) :
  (shown_api_type (WithMcp.update_fields g preset_model) ∈ valid_api_types ↔
     preset_model ≠ "Custom" ∨ LLMConfig.api_type (default_config g) ∈ valid_api_types) ∧
  shown_api_type (WithoutMcp.update_fields g preset_model)
  = shown_api_type (WithMcp.update_fields g preset_model).
Proof.
  unfold WithMcp.update_fields, WithoutMcp.update_fields.
  case_bool_decide as Hp; cbv zeta; cbn [shown_api_type].
  - split; [|done]. split; [auto|]. intros [Hne|Hin]; [done|exact Hin].
  - split; [|done]. split; [auto|]. intros _.
    case_bool_decide; [done|apply azure_is_valid].
Qed.

End fields_facts.

Section round_trip.
Context `{Collaborators}.

(** X3.  With MCP tools, selecting a preset and submitting the fields as
    [update_fields] populated them hands the engine factory the stored
    configuration of that selection: the preset's (the default one for
    ["Custom"] and for unknown names), with the API type replaced by
    ["azure"] when a preset's type is not a dropdown choice.  For
    ["Custom"] this is the configuration of a request without any
    override. *)
Theorem shown_fields_are_what_is_executed (g : Globals) (env : gmap string string)
    (w : World) (query preset_model route query_type : string)
    (check_enabled use_tools : bool) :
  let f := WithMcp.update_fields g preset_model in
  let m := WithMcp.minion_respond g env query preset_model
             (Some (shown_api_type f)) (Some (shown_api_key f)) (Some (shown_base_url f))
             (Some (shown_api_version f)) (Some (shown_model f))
             (Some (shown_temperature f)) (Some (shown_max_tokens f))
             route query_type check_enabled use_tools in
  let stored := if bool_decide (preset_model = "Custom") then default_config g
                else default (default_config g) (preset_configs g !! preset_model) in
  ∃ cfg, built (run_calls m w) = [cfg] ∧
    cfg !! "api_type" =
      Some (VStr (if bool_decide (preset_model = "Custom") then LLMConfig.api_type stored
                  else if bool_decide (LLMConfig.api_type stored ∈ valid_api_types)
                       then LLMConfig.api_type stored else "azure")) ∧
    cfg !! "api_key" = Some (VStr (LLMConfig.api_key stored)) ∧
    cfg !! "base_url" = Some (VStr (LLMConfig.base_url stored)) ∧
    cfg !! "api_version" = Some (VStr (LLMConfig.api_version stored)) ∧
    cfg !! "model" = Some (VStr (LLMConfig.model stored)) ∧
    cfg !! "temperature" = Some (VFloat (LLMConfig.temperature stored)) ∧
    cfg !! "max_tokens" = Some (VInt (LLMConfig.max_tokens stored)) ∧
    (preset_model = "Custom" →
       cfg = WithMcp.llm_config_dict g None None None None None None None).
Proof.
  intros f m stored. subst m. unfold WithMcp.minion_respond.
  match goal with |- context [run_calls ?m w] =>
    match m with
    | WithMcp.minion_respond_async ?g ?env ?q ?p ?a ?b ?c ?d ?e ?t ?x ?r ?qt ?ch ?u =>
        destruct (respond_serves g env q p a b c d e t x r qt ch u w) as [tools (Hb & _)]
    end
  end.
  eexists. split; [exact Hb|].
  unfold WithMcp.llm_config_dict. cbv zeta. cbn [default].
  subst f stored. unfold WithMcp.update_fields.
  case_bool_decide as Hp; cbv zeta;
    cbn [shown_api_type shown_api_key shown_base_url shown_api_version shown_model
         shown_temperature shown_max_tokens].
  - match goal with |- context [create_custom_llm_config ?a ?b ?c ?d ?e ?t ?x] =>
      pose proof (custom_config_fields a b c d e t x) as Hf end.
    cbv zeta in Hf. destruct Hf as (? & ? & ? & ? & ? & ? & ? & _). split_and!; done.
  - match goal with |- context [create_custom_llm_config ?a ?b ?c ?d ?e ?t ?x] =>
      pose proof (custom_config_fields a b c d e t x) as Hf end.
    cbv zeta in Hf. destruct Hf as (? & ? & ? & ? & ? & ? & ? & _). split_and!; done.
Qed.

(** X4.  Without MCP tools, submitting the fields as [update_fields]
    populated them does not execute what is shown.  For a preset the
    engine factory gets the stored configuration itself: the real key, not
    the placeholder, and the stored API type even where the dropdown shows
    ["azure"] in its place.  For ["Custom"] it gets the default
    configuration with an empty key. *)
Theorem plain_execution_bypasses_the_fields (g : Globals) (w : World)
    (query preset_model route query_type : string) (check_enabled : bool) :
  let f := WithoutMcp.update_fields g preset_model in
  let m := WithoutMcp.minion_respond g query preset_model
             (shown_api_type f) (shown_api_key f) (shown_base_url f)
             (shown_api_version f) (shown_model f)
             (shown_temperature f) (shown_max_tokens f)
             route query_type check_enabled in
  let stored := if bool_decide (preset_model = "Custom") then default_config g
                else default (default_config g) (preset_configs g !! preset_model) in
  ∃ cfg, built (run_calls m w) = [cfg] ∧
    cfg !! "api_type" = Some (VStr (LLMConfig.api_type stored)) ∧
    cfg !! "api_key" =
      Some (VStr (if bool_decide (preset_model = "Custom") then ""
                  else LLMConfig.api_key stored)) ∧
    cfg !! "base_url" = Some (VStr (LLMConfig.base_url stored)) ∧
    cfg !! "api_version" = Some (VStr (LLMConfig.api_version stored)) ∧
    cfg !! "model" = Some (VStr (LLMConfig.model stored)) ∧
    cfg !! "temperature" = Some (VFloat (LLMConfig.temperature stored)) ∧
    cfg !! "max_tokens" = Some (VInt (LLMConfig.max_tokens stored)).
Proof.
  intros f m stored. subst m. unfold WithoutMcp.minion_respond.
  eexists. split; [apply plain_respond_serves|].
  match goal with |- context [WithoutMcp.llm_config_dict ?g ?p ?a ?b ?c ?d ?e ?t ?x] =>
    pose proof (plain_config_fields g p a b c d e t x) as Hf end.
  cbv zeta in Hf. destruct Hf as (Ha & Hk & Hb & Hv & Hm & Ht & Hx).
  rewrite Ha, Hk, Hb, Hv, Hm, Ht, Hx. clear Ha Hk Hb Hv Hm Ht Hx.
  subst f stored. unfold WithoutMcp.update_fields.
  do 2 case_bool_decide; try done; cbv zeta;
    cbn [shown_api_type shown_api_key shown_base_url shown_api_version shown_model
         shown_temperature shown_max_tokens]; done.
Qed.
End round_trip.

(** ** Runs of the request handler, step by step *)

(** Nothing the applications do reads the calls recorded. *)
Lemma ignores_ret {A} (a : A) : ignores_calls (mret a : M A).
Proof.
  intros [h1 g1 o1 c1] [h2 g2 o2 c2] (Hh & Hg & Ho); unfold same_but_calls in *;
    run_M; simplify_eq; done.
Qed.
Lemma ignores_raise {A} (e : exn) : ignores_calls (raise e : M A).
Proof.
  intros [h1 g1 o1 c1] [h2 g2 o2 c2] (Hh & Hg & Ho); unfold same_but_calls in *;
    run_M; simplify_eq; done.
Qed.
Lemma ignores_lift {A} (r : result A) : ignores_calls (lift r).
Proof.
  intros [h1 g1 o1 c1] [h2 g2 o2 c2] (Hh & Hg & Ho); unfold same_but_calls in *;
    run_M; simplify_eq; done.
Qed.
Lemma ignores_print text args : ignores_calls (print text args).
Proof.
  intros [h1 g1 o1 c1] [h2 g2 o2 c2] (Hh & Hg & Ho); unfold same_but_calls in *;
    run_M; simplify_eq; done.
Qed.
Lemma ignores_record c : ignores_calls (record c).
Proof.
  intros [h1 g1 o1 c1] [h2 g2 o2 c2] (Hh & Hg & Ho); unfold same_but_calls in *;
    run_M; simplify_eq; done.
Qed.
Lemma ignores_get : ignores_calls get_mcp_client.
Proof.
  intros [h1 g1 o1 c1] [h2 g2 o2 c2] (Hh & Hg & Ho); unfold same_but_calls in *;
    run_M; simplify_eq; done.
Qed.
Lemma ignores_set g : ignores_calls (set_mcp_client g).
Proof.
  intros [h1 g1 o1 c1] [h2 g2 o2 c2] (Hh & Hg & Ho); unfold same_but_calls in *;
    run_M; simplify_eq; done.
Qed.
Lemma ignores_update id f : ignores_calls (update_client id f).
Proof.
  intros [h1 g1 o1 c1] [h2 g2 o2 c2] (Hh & Hg & Ho); unfold same_but_calls in *;
    run_M; simplify_eq; done.
Qed.

Lemma ignores_bind {A B} (m : M A) (f : A → M B) :
  ignores_calls m → (∀ a, ignores_calls (f a)) → ignores_calls (m ≫= f).
Proof.
  intros Hm Hf w1 w2 Hw. destruct (Hm w1 w2 Hw) as [Hr Hw'].
  unfold mbind, M_mbind, M_bind.
  destruct (m w1) as [[a1|e1] w1'], (m w2) as [[a2|e2] w2']; simpl in *; simplify_eq.
  - by apply Hf.
  - done.
Qed.

Lemma ignores_try {A} (m : M A) (h : exn → M A) :
  ignores_calls m → (∀ e, ignores_calls (h e)) → ignores_calls (try_except m h).
Proof.
  intros Hm Hh w1 w2 Hw. destruct (Hm w1 w2 Hw) as [Hr Hw'].
  unfold try_except.
  destruct (m w1) as [[a1|e1] w1'], (m w2) as [[a2|e2] w2']; simpl in *; simplify_eq.
  - done.
  - by apply Hh.
Qed.

Section run_facts.
Context `{Collaborators}.
Import WithMcp.

Lemma ignores_register_tools id ts : ignores_calls (register_tools id ts).
Proof.
  induction ts as [|t ts IH]; simpl; [apply ignores_ret|].
  apply ignores_bind; [|done].
  intros [h1 g1 o1 c1] [h2 g2 o2 c2] (Hh & Hg & Ho). unfold same_but_calls in *.
  unfold register_tool. simpl in *. subst.
  destruct (h2 !! id); [|done]. case_bool_decide; run_M; done.
Qed.

Lemma ignores_add_source id s : ignores_calls (add_source id s).
Proof.
  unfold add_source.
  auto using ignores_register_tools, ignores_bind, ignores_record, ignores_lift.
Qed.

Lemma ignores_the_client : ignores_calls the_client.
Proof.
  unfold the_client. apply ignores_bind; [apply ignores_get|].
  intros [?|]; [apply ignores_ret|apply ignores_raise].
Qed.

Lemma ignores_setup_mcp_tools env : ignores_calls (setup_mcp_tools env).
Proof.
  unfold setup_mcp_tools, add_filesystem, add_sse, add_stdio, try_add, aenter.
  apply ignores_bind; [apply ignores_get|]. intros [id|]; [apply ignores_get|].
  apply ignores_bind.
  { intros [h1 g1 o1 c1] [h2 g2 o2 c2] (Hh & Hg & Ho). unfold same_but_calls in *.
    unfold new_client. simpl in *. by subst. }
  intros id. repeat (apply ignores_bind; [|intros ?]);
    repeat case_match;
    eauto 10 using ignores_the_client, ignores_add_source, ignores_ret, ignores_raise, ignores_lift, ignores_print,
      ignores_record, ignores_get, ignores_set, ignores_update, ignores_bind, ignores_try.
Qed.

Lemma ignores_get_available_tools env : ignores_calls (get_available_tools env).
Proof.
  unfold get_available_tools, create_final_answer_tool.
  apply ignores_bind;
    [|auto using ignores_bind, ignores_record, ignores_ret].
  apply ignores_try; [|auto using ignores_bind, ignores_print, ignores_ret].
  apply ignores_bind; [apply ignores_setup_mcp_tools|].
  intros [id|]; [|apply ignores_raise].
  intros [h1 g1 o1 c1] [h2 g2 o2 c2] (Hh & Hg & Ho). unfold same_but_calls in *.
  unfold get_tools_for_brain. simpl in *. subst. by destruct (h2 !! id).
Qed.


Lemma add_tools_off env kwargs w : add_tools env false kwargs w = (Ok kwargs, w).
Proof. reflexivity. Qed.

(** In a well-formed state the tool assembly returns the catalog of the
    client the global refers to afterwards; a client that was there already
    is left as it is. *)
Lemma get_available_tools_wf env h gl out cs :
  wf_world (mkWorld h gl out cs) →
  ∃ id c h' out' cs',
    get_available_tools env (mkWorld h gl out cs)
    = (Ok (catalog c), mkWorld h' (Some id) (out ++ out') (cs ++ cs')) ∧
    h' !! id = Some c ∧ Forall (λ c, engine_call c = false) cs' ∧
    (gl = Some id → h' = h ∧ cs' = [CallFinalAnswerTool]).
Proof.
  intros Hwf. unfold wf_world in Hwf. cbn [mcp_client heap] in Hwf.
  destruct gl as [id|].
  - apply lookup_lt_is_Some_2 in Hwf as [c Hc].
    exists id, c, h, [], [CallFinalAnswerTool].
    rewrite (get_available_tools_again env h id out cs c Hc), app_nil_r.
    split_and!; [done..| |done]. by repeat constructor.
  - pose proof (get_available_tools_first env h out cs) as Hrun.
    destruct aenter_outcome as [[]|e].
    + destruct Hrun as (out' & E & _). rewrite E.
      eexists _, (mkClient true (catalog_of (attempted env))), _, _, _.
      split_and!; [reflexivity| | |done].
      * by apply list_lookup_middle.
      * rewrite !Forall_app. split_and!; [by repeat constructor| |by repeat constructor].
        apply Forall_fmap. by apply Forall_true.
    + rewrite Hrun. eexists _, (mkClient false []), _, _, _.
      split_and!; [reflexivity| | |done].
      * by apply list_lookup_middle.
      * by repeat constructor.
Qed.

Lemma add_tools_on env kwargs h gl out cs :
  wf_world (mkWorld h gl out cs) →
  ∃ id c h' out' cs',
    add_tools env true kwargs (mkWorld h gl out cs)
    = (Ok (<["tools" := VList (VTool <$> catalog c)]> kwargs),
       mkWorld h' (Some id) (out ++ out') (cs ++ cs')) ∧
    h' !! id = Some c ∧ Forall (λ c, engine_call c = false) cs'.
Proof.
  intros Hwf.
  destruct (get_available_tools_wf env h gl out cs Hwf)
    as (id & c & h' & out' & cs' & E & Hc & F & _).
  unfold add_tools. run_M. rewrite E. run_M.
  eexists id, c, h', _, cs'. rewrite <- app_assoc. done.
Qed.

(** The handler with MCP tools, as one equation: the banner and the
    configuration are printed, the brain is built, the tool block runs,
    the step is dispatched and its answer unpacked. *)
Lemma respond_run g env query preset_model api_type api_key base_url api_version
    model temperature max_tokens route query_type check_enabled use_tools h gl out cs :
  let cfg := llm_config_dict g api_type api_key base_url api_version model
               temperature max_tokens in
  let kw0 := add_query_type route query_type (base_kwargs query route check_enabled) in
  let out1 := out ++ announcement g preset_model api_type base_url api_version model
                       temperature max_tokens in
  minion_respond_async g env query preset_model api_type api_key base_url
    api_version model temperature max_tokens route query_type check_enabled
    use_tools (mkWorld h gl out cs)
  = match create_llm_provider cfg with
    | Raise e => (Raise e, mkWorld h gl out1 (cs ++ [CallBuildBrain cfg]))
    | Ok _ =>
        match add_tools env use_tools kw0
                (mkWorld h gl out1 (cs ++ [CallBuildBrain cfg])) with
        | (Ok kw, w2) =>
            (brain_step cfg kw ≫= unpack_obs,
             mkWorld (heap w2) (mcp_client w2)
               (stdout w2 ++ [Line "Executing brain.step with route, check: "
                                [default VNone (kw !! "route"); VBool check_enabled]])
               (calls w2 ++ [CallStep cfg kw]))
        | (Raise e, w2) => (Raise e, w2)
        end
    end.
Proof.
  intros cfg kw0 out1. subst out1. unfold minion_respond_async, announcement.
  fold cfg. fold kw0. clearbody cfg kw0. cbv zeta.
  generalize (default (LLMConfig.api_type (default_config g)) api_type).
  generalize (default (LLMConfig.base_url (default_config g)) base_url).
  generalize (default (LLMConfig.api_version (default_config g)) api_version).
  generalize (default (LLMConfig.model (default_config g)) model).
  generalize (default (LLMConfig.temperature (default_config g)) temperature).
  generalize (default (LLMConfig.max_tokens (default_config g)) max_tokens).
  intros x t m v b a.
  unfold print_config, build_brain_with_config, step.
  case_bool_decide; run_M; rewrite <- !app_assoc; cbn [app];
    (destruct (create_llm_provider cfg) as [[]|e]; [|reflexivity]);
    match goal with |- context [add_tools ?e ?u ?k ?w] =>
      destruct (add_tools e u k w) as [[kw|e'] [h2 g2 o2 c2]] end;
    try reflexivity; run_M; destruct (brain_step cfg kw); reflexivity.
Qed.

Lemma ignores_add_tools env use_tools kwargs : ignores_calls (add_tools env use_tools kwargs).
Proof.
  unfold add_tools. destruct use_tools;
    auto 10 using ignores_get_available_tools, ignores_try, ignores_bind, ignores_print,
      ignores_ret.
Qed.

(** The tool block, in terms of the tool assembly. *)
Lemma add_tools_run env kwargs w :
  add_tools env true kwargs w
  = match get_available_tools env w with
    | (Ok tools, w') =>
        (Ok (<["tools" := VList (VTool <$> tools)]> kwargs),
         mkWorld (heap w') (mcp_client w')
           (stdout w' ++ [Line "Using tools: "
                            [VInt (Z.of_nat (length tools));
                             VList (VStr ∘ tool_name <$> tools)]])
           (calls w'))
    | (Raise e, w') =>
        (Ok kwargs,
         mkWorld (heap w') (mcp_client w')
           (stdout w' ++ [Line "Warning: Failed to get tools: " [VExn e]]) (calls w'))
    end.
Proof.
  unfold add_tools, try_except. unfold mbind at 1. unfold M_mbind, M_bind.
  destruct (get_available_tools env w) as [[ts|e] [h g o c]]; reflexivity.
Qed.
End run_facts.

Section payload_facts.
Lemma base_kwargs_lookup query route check_enabled k :
  base_kwargs query route check_enabled !! k =
    if bool_decide (k = "check") then Some (VBool check_enabled)
    else if bool_decide (k = "route") then Some (if truthy route then VStr route else VNone)
    else if bool_decide (k = "query") then Some (VStr query) else None.
Proof.
  unfold base_kwargs. cbv zeta.
  repeat case_bool_decide; subst;
    rewrite ?lookup_insert_eq, ?lookup_insert_ne, ?lookup_insert_eq, ?lookup_insert_ne,
      ?lookup_insert_eq by done; try done.
Qed.

Lemma add_query_type_other route query_type kw k :
  k ≠ "query_type" → add_query_type route query_type kw !! k = kw !! k.
Proof. intros Hk. unfold add_query_type. case_match; [|done]. by rewrite lookup_insert_ne. Qed.

Lemma payload_keys query route query_type check_enabled k :
  is_Some (add_query_type route query_type (base_kwargs query route check_enabled) !! k) →
  k ∈ ["query"; "route"; "check"; "query_type"].
Proof.
  destruct (decide (k = "query_type")) as [->|Hk].
  { intros _. do 3 apply list_elem_of_further. apply list_elem_of_here. }
  rewrite add_query_type_other, base_kwargs_lookup by done.
  repeat case_bool_decide; subst; intros [? ?]; try done.
  - do 2 apply list_elem_of_further. apply list_elem_of_here.
  - apply list_elem_of_further, list_elem_of_here.
  - apply list_elem_of_here.
Qed.

Lemma unpack_obs_raises res e :
  unpack_obs res = Raise e ↔
  (length res = 0%nat ∧
   e = ValueError "not enough values to unpack (expected at least 2, got 0)") ∨
  (length res = 1%nat ∧
   e = ValueError "not enough values to unpack (expected at least 2, got 1)").
Proof.
  destruct res as [|obs [|score rest]]; simpl; split.
  - intros [= <-]. by left.
  - by intros [[_ ->]|[? _]].
  - intros [= <-]. by right.
  - by intros [[? _]|[_ ->]].
  - done.
  - by intros [[? _]|[? _]].
Qed.

Lemma serves_failure `{Collaborators} (m : M pyval) w cfg kw :
  serves m w cfg kw → ∀ e, (m w).1 = Raise e ↔ engine_failure cfg kw e.
Proof.
  intros (_ & _ & ->) e. unfold engine_failure, mbind, result_mbind, result_bind.
  destruct (create_llm_provider cfg) as [[]|e1].
  - destruct (brain_step cfg kw) as [res|e2].
    + rewrite unpack_obs_raises. split.
      * intros Hres. right. split; [done|]. right. by exists res.
      * intros [?|[_ [?|(res' & [= <-] & ?)]]]; done.
    + split.
      * intros [= <-]. right. split; [done|]. by left.
      * intros [?|[_ [[= <-]|(res' & ? & _)]]]; done.
  - split.
    + intros [= <-]. by left.
    + intros [[= <-]|[? _]]; done.
Qed.
End payload_facts.

(** ** What a request does to the tool client and to the engine *)

Section request_runs.
Context `{Collaborators}.
Import WithMcp.
Variables (g : Globals) (env : gmap string string) (w : World).
Variables (query preset_model route query_type : string) (check_enabled : bool).
Variables (api_type api_key base_url api_version model : option string).
Variables (temperature : option float) (max_tokens : option Z).

Local Abbreviation respond use_tools :=
  (minion_respond_async g env query preset_model api_type api_key base_url
     api_version model temperature max_tokens route query_type check_enabled use_tools)
  (only parsing).
Local Abbreviation the_config :=
  (llm_config_dict g api_type api_key base_url api_version model temperature max_tokens)
  (only parsing).
Local Abbreviation the_payload :=
  (add_query_type route query_type (base_kwargs query route check_enabled))
  (only parsing).

Lemma payload_without_tools : the_payload !! "tools" = None.
Proof. rewrite add_query_type_other by done. by rewrite base_kwargs_lookup. Qed.

(** X5.  A request with [use_tools] off never touches the tool client:
    the client objects and the global reference are as before, the only
    calls that leave the application go to the engine, and no payload
    carries the key [tools]. *)
Theorem disabled_tools_leave_the_client_alone :
  heap (respond false w).2 = heap w ∧
  mcp_client (respond false w).2 = mcp_client w ∧
  Forall (λ c, engine_call c = true) (run_calls (respond false) w) ∧
  Forall (λ p, p.2 !! "tools" = None) (dispatched (run_calls (respond false) w)).
Proof.
  destruct w as [h gl out cs].
  pose proof (respond_run g env query preset_model api_type api_key base_url api_version
                model temperature max_tokens route query_type check_enabled false
                h gl out cs) as E.
  cbv zeta in E. rewrite add_tools_off in E. unfold run_calls. rewrite E. clear E.
  destruct (create_llm_provider _) as [[]|e]; cbn [fst snd heap mcp_client calls].
  - rewrite <- app_assoc, drop_app_length. split_and!; [done..| |].
    + by repeat constructor.
    + repeat constructor. apply payload_without_tools.
  - rewrite drop_app_length. split_and!; [done..| |]; by repeat constructor.
Qed.

(** X6.  When the engine factory raises, the request raises the same
    exception and stops there: the factory call is the only call made, so
    no tool source is contacted and no client is built even with
    [use_tools] on, and nothing is dispatched. *)
Theorem factory_failure_stops_the_request (use_tools : bool) (e : exn) :
  create_llm_provider the_config = Raise e →
  (respond use_tools w).1 = Raise e ∧
  run_calls (respond use_tools) w = [CallBuildBrain the_config] ∧
  heap (respond use_tools w).2 = heap w ∧
  mcp_client (respond use_tools w).2 = mcp_client w.
Proof.
  intros He. destruct w as [h gl out cs].
  pose proof (respond_run g env query preset_model api_type api_key base_url api_version
                model temperature max_tokens route query_type check_enabled use_tools
                h gl out cs) as E.
  cbv zeta in E. rewrite He in E. unfold run_calls. rewrite E.
  cbn [fst snd heap mcp_client calls]. by rewrite drop_app_length.
Qed.

(** X7.  A request with [use_tools] on, in a well-formed state and with a
    factory that succeeds: the brain is built first, then the tools are
    assembled without any call to the engine, then one step is dispatched
    whose payload carries under [tools] exactly the catalog of the client
    the global refers to afterwards, which may be empty. *)
Theorem enabled_tools_carry_the_client_catalog :
  wf_world w →
  create_llm_provider the_config = Ok () →
  ∃ id c cs,
    mcp_client (respond true w).2 = Some id ∧
    heap (respond true w).2 !! id = Some c ∧
    Forall (λ c, engine_call c = false) cs ∧
    run_calls (respond true) w
    = [CallBuildBrain the_config] ++ cs ++
      [CallStep the_config (<["tools" := VList (VTool <$> catalog c)]> the_payload)].
Proof.
  intros Hwf Hok. destruct w as [h gl out cs].
  pose proof (respond_run g env query preset_model api_type api_key base_url api_version
                model temperature max_tokens route query_type check_enabled true
                h gl out cs) as E.
  cbv zeta in E. rewrite Hok in E.
  match type of E with context [add_tools ?e true ?k (mkWorld ?h ?gl ?o ?c)] =>
    destruct (add_tools_on e k h gl o c Hwf) as (id & cl & h' & out' & cs' & Et & Hc & F)
  end.
  rewrite Et in E. cbn [heap mcp_client stdout calls] in E.
  exists id, cl, cs'. unfold run_calls. rewrite E. cbn [fst snd heap mcp_client calls].
  split; [done|]. split; [done|]. split; [done|].
  by rewrite <- !app_assoc, drop_app_length.
Qed.
End request_runs.

Section both_handlers.
Context `{Collaborators}.
Variables (g : Globals) (env : gmap string string) (w : World).
Variables (query preset_model route query_type : string) (check_enabled use_tools : bool).
Variables (api_type api_key base_url api_version model : option string).
Variables (temperature : option float) (max_tokens : option Z).
Variables (ui_api_type ui_api_key ui_base_url ui_api_version ui_model : string).
Variables (ui_temperature : float) (ui_max_tokens : Z).

Local Abbreviation with_mcp :=
  (WithMcp.minion_respond_async g env query preset_model api_type api_key base_url
     api_version model temperature max_tokens route query_type check_enabled use_tools)
  (only parsing).
Local Abbreviation without_mcp :=
  (WithoutMcp.minion_respond_async g query preset_model ui_api_type ui_api_key
     ui_base_url ui_api_version ui_model ui_temperature ui_max_tokens route query_type
     check_enabled)
  (only parsing).

(** X8.  In both applications a request raises in exactly three cases:
    the engine factory raises, the engine's step raises, or the engine
    answers with fewer than two components; in the first two the
    exception is the collaborator's own, in the third it is the
    [ValueError] of the unpacking, whose text ends in the number of
    components received (0 or 1).  No failure of a tool source or of the
    tool client makes a request fail. *)
Theorem request_fails_only_through_the_engine :
  (∃ cfg kw, serves with_mcp w cfg kw ∧
     ∀ e, (with_mcp w).1 = Raise e ↔ engine_failure cfg kw e) ∧
  (∃ cfg kw, serves without_mcp w cfg kw ∧
     ∀ e, (without_mcp w).1 = Raise e ↔ engine_failure cfg kw e).
Proof.
  split.
  - destruct (respond_serves g env query preset_model api_type api_key base_url
                api_version model temperature max_tokens route query_type check_enabled
                use_tools w) as [tools Hs].
    eexists _, _. split; [exact Hs|]. by apply serves_failure.
  - eexists _, _. split; [apply plain_respond_serves|].
    apply serves_failure, plain_respond_serves.
Qed.

(** X9.  In both applications the payload passed to the engine's step
    carries the query and the check flag as they were submitted, and no
    key besides [query], [route], [check], [query_type] and, with MCP
    tools, [tools]. *)
Theorem payload_carries_query_and_check :
  (∃ cfg kw, serves with_mcp w cfg kw ∧
     kw !! "query" = Some (VStr query) ∧ kw !! "check" = Some (VBool check_enabled) ∧
     ∀ k, is_Some (kw !! k) → k ∈ ["query"; "route"; "check"; "query_type"; "tools"]) ∧
  (∃ cfg kw, serves without_mcp w cfg kw ∧
     kw !! "query" = Some (VStr query) ∧ kw !! "check" = Some (VBool check_enabled) ∧
     ∀ k, is_Some (kw !! k) → k ∈ ["query"; "route"; "check"; "query_type"]).
Proof.
  split.
  - destruct (respond_serves g env query preset_model api_type api_key base_url
                api_version model temperature max_tokens route query_type check_enabled
                use_tools w) as [tools Hs].
    eexists _, _. split; [exact Hs|].
    rewrite !with_tools_other, !add_query_type_other, !base_kwargs_lookup by done.
    split; [done|]. split; [done|]. intros k Hk.
    destruct (decide (k = "tools")) as [->|Hne].
    + do 4 apply list_elem_of_further. apply list_elem_of_here.
    + rewrite with_tools_other in Hk by done. apply payload_keys in Hk.
      change ["query"; "route"; "check"; "query_type"; "tools"]
        with (["query"; "route"; "check"; "query_type"] ++ ["tools"]).
      apply elem_of_app. by left.
  - eexists _, _. split; [apply plain_respond_serves|].
    rewrite !add_query_type_other, !base_kwargs_lookup by done.
    split; [done|]. split; [done|]. apply payload_keys.
Qed.

(** X10.  The query-type dropdown is made visible for the route
    ["python"] and for no other route; of the routes offered it is the
    only one.  In both applications a payload carries [query_type] only
    for a route for which the dropdown is visible. *)
Theorem query_type_needs_a_visible_dropdown :
  (update_query_type_visibility route = true ↔ route = "python") ∧
  filter (λ r, update_query_type_visibility r = true) get_available_routes = ["python"] ∧
  (∃ cfg kw, serves with_mcp w cfg kw ∧
     (is_Some (kw !! "query_type") → update_query_type_visibility route = true)) ∧
  (∃ cfg kw, serves without_mcp w cfg kw ∧
     (is_Some (kw !! "query_type") → update_query_type_visibility route = true)).
Proof.
  assert (Hq : is_Some (add_query_type route query_type
                          (base_kwargs query route check_enabled) !! "query_type") →
               update_query_type_visibility route = true).
  { rewrite add_query_type_lookup by apply base_kwargs_query_type.
    unfold update_query_type_visibility.
    destruct (bool_decide (route = "python")); [done|]. by intros [? ?]. }
  split_and!.
  - unfold update_query_type_visibility. apply bool_decide_eq_true.
  - vm_compute. reflexivity.
  - destruct (respond_serves g env query preset_model api_type api_key base_url
                api_version model temperature max_tokens route query_type check_enabled
                use_tools w) as [tools Hs].
    eexists _, _. split; [exact Hs|]. by rewrite with_tools_other.
  - eexists _, _. split; [apply plain_respond_serves|]. exact Hq.
Qed.
End both_handlers.

Section privacy.
Context `{Collaborators}.
Import WithMcp.
Variables (g : Globals) (env : gmap string string) (w : World).
Variables (preset_model route query_type : string) (check_enabled use_tools : bool).
Variables (api_type base_url api_version model : option string).
Variables (temperature : option float) (max_tokens : option Z).
Variables (ui_api_type ui_api_key ui_base_url ui_api_version ui_model : string).
Variables (ui_temperature : float) (ui_max_tokens : Z).

Lemma payload_route query :
  add_query_type route query_type (base_kwargs query route check_enabled) !! "route"
  = Some (if truthy route then VStr route else VNone).
Proof. by rewrite add_query_type_route, base_kwargs_route. Qed.

(** X23.  With MCP tools, what a request prints does not depend on the
    API key or on the query: two requests that differ only in these, and
    for which the engine factory succeeds or fails alike, leave the same
    standard output.  Without MCP tools a request prints nothing. *)
Theorem key_and_query_are_never_printed (query query' : string)
    (api_key api_key' : option string) :
  let m := minion_respond_async g env query preset_model api_type api_key base_url
             api_version model temperature max_tokens route query_type check_enabled
             use_tools in
  let m' := minion_respond_async g env query' preset_model api_type api_key' base_url
              api_version model temperature max_tokens route query_type check_enabled
              use_tools in
  (succeeds (create_llm_provider
               (llm_config_dict g api_type api_key base_url api_version model
                  temperature max_tokens))
   = succeeds (create_llm_provider
                 (llm_config_dict g api_type api_key' base_url api_version model
                    temperature max_tokens)) →
   stdout (m w).2 = stdout (m' w).2) ∧
  (∀ q, stdout (WithoutMcp.minion_respond_async g q preset_model ui_api_type
                      ui_api_key ui_base_url ui_api_version ui_model ui_temperature
                      ui_max_tokens route query_type check_enabled w).2 = stdout w).
Proof.
  intros m m'. split.
  - intros Hsame. subst m m'. destruct w as [h gl out cs].
    rewrite !respond_run. cbv zeta.
    remember (llm_config_dict g api_type api_key _ _ _ _ _) as cfg eqn:E1. clear E1.
    remember (llm_config_dict g api_type api_key' _ _ _ _ _) as cfg' eqn:E2. clear E2.
    remember (out ++ announcement _ _ _ _ _ _ _ _) as out1 eqn:E3. clear E3.
    pose proof (payload_route query) as Hr. pose proof (payload_route query') as Hr'.
    remember (add_query_type _ _ (base_kwargs query _ _)) as kw eqn:E4. clear E4.
    remember (add_query_type _ _ (base_kwargs query' _ _)) as kw' eqn:E5. clear E5.
    destruct (create_llm_provider cfg) as [[]|e], (create_llm_provider cfg') as [[]|e'];
      cbn [succeeds] in Hsame; try done.
    destruct use_tools.
    + rewrite !add_tools_run.
      destruct (ignores_get_available_tools env
                  (mkWorld h gl out1 (cs ++ [CallBuildBrain cfg]))
                  (mkWorld h gl out1 (cs ++ [CallBuildBrain cfg']))) as [Hres Hw];
        [done|].
      destruct (get_available_tools env (mkWorld h gl out1 (cs ++ [CallBuildBrain cfg])))
        as [[ts|e1] [h1 g1 o1 c1]],
        (get_available_tools env (mkWorld h gl out1 (cs ++ [CallBuildBrain cfg'])))
        as [[ts'|e2] [h2 g2 o2 c2]];
        cbn [fst snd] in Hres; simplify_eq; destruct Hw as (_ & _ & Ho);
        cbn [stdout heap mcp_client calls snd] in *; subst;
        rewrite ?lookup_insert_ne by done; by rewrite Hr, Hr'.
    + cbn [add_tools mret M_mret M_ret stdout snd]. by rewrite Hr, Hr'.
  - intros q. destruct w as [h gl out cs].
    unfold WithoutMcp.minion_respond_async.
    remember (WithoutMcp.llm_config_dict _ _ _ _ _ _ _ _ _) as cfg eqn:E1. clear E1.
    remember (add_query_type _ _ _) as kw eqn:E4. clear E4.
    unfold build_brain_with_config, step. run_M.
    destruct (create_llm_provider cfg) as [[]|e]; [|done].
    by destruct (brain_step cfg kw).
Qed.
End privacy.

Section tools_and_requests.
Context `{Collaborators}.
Import WithMcp.
Variables (g : Globals) (env : gmap string string) (w : World).
Variables (query preset_model route query_type : string) (check_enabled : bool).
Variables (api_type api_key base_url api_version model : option string).
Variables (temperature : option float) (max_tokens : option Z).
Variables (query' preset_model' route' query_type' : string) (check_enabled' : bool).
Variables (api_type' api_key' base_url' api_version' model' : option string).
Variables (temperature' : option float) (max_tokens' : option Z).

(** X24.  The tool list is fixed by the first request that uses tools:
    a later request with tools, whatever its query, route and
    configuration, is offered exactly the list the earlier one was, and
    makes no call that constructs a client or registers a source. *)
Theorem later_requests_get_the_same_tools :
  let cfg := llm_config_dict g api_type api_key base_url api_version model
               temperature max_tokens in
  let cfg' := llm_config_dict g api_type' api_key' base_url' api_version' model'
                temperature' max_tokens' in
  let m := minion_respond_async g env query preset_model api_type api_key base_url
             api_version model temperature max_tokens route query_type check_enabled
             true in
  let m' := minion_respond_async g env query' preset_model' api_type' api_key' base_url'
              api_version' model' temperature' max_tokens' route' query_type'
              check_enabled' true in
  wf_world w →
  create_llm_provider cfg = Ok () →
  create_llm_provider cfg' = Ok () →
  ∃ tools,
    dispatched (run_calls m w)
    = [(cfg, <["tools" := tools]>
               (add_query_type route query_type (base_kwargs query route check_enabled)))] ∧
    dispatched (run_calls m' (m w).2)
    = [(cfg', <["tools" := tools]>
                (add_query_type route' query_type'
                   (base_kwargs query' route' check_enabled')))] ∧
    constructions (run_calls m' (m w).2) = [] ∧
    registrations (run_calls m' (m w).2) = [].
Proof.
  intros cfg cfg' m m' Hwf Hok Hok'. subst m m'. destruct w as [h gl out cs].
  unfold run_calls. rewrite respond_run. cbv zeta. fold cfg. rewrite Hok.
  clearbody cfg.
  remember (add_query_type route _ _) as kw eqn:E4. clear E4.
  match goal with |- context [add_tools ?e true ?k (mkWorld ?h ?gl ?o ?c)] =>
    destruct (add_tools_on e k h gl o c Hwf) as (id & cl & h' & out' & cs' & Et & Hc & F)
  end.
  rewrite Et. cbn [fst snd heap mcp_client stdout calls].
  match goal with
  | |- context [minion_respond_async _ _ _ _ _ _ _ _ _ _ _ _ _ _ _ (mkWorld _ _ _ ?c)] =>
      remember c as log eqn:Elog
  end.
  rewrite respond_run. cbv zeta. fold cfg'. rewrite Hok'. clearbody cfg'.
  remember (add_query_type route' _ _) as kw' eqn:E5. clear E5.
  rewrite add_tools_run, (get_available_tools_again env h' id _ _ cl Hc).
  cbn [fst snd heap mcp_client stdout calls].
  exists (VList (VTool <$> catalog cl)).
  rewrite <- !(app_assoc log), drop_app_length. split_and!; [|done..].
  rewrite Elog, <- !app_assoc, drop_app_length.
  by rewrite !dispatched_app, (dispatched_quiet cs' F).
Qed.
End tools_and_requests.

(** ** The tool assembly over successive calls *)

Section assembly_facts.
Context `{Collaborators}.
Import WithMcp.

(** X11.  Once [get_available_tools] has run in a well-formed state, the
    global client is set, and running it again returns the same catalog
    while building only the final-answer tool: no client is constructed
    or entered and no source is registered again, so a source that failed
    the first time is not retried. *)
Theorem sources_are_not_retried (env : gmap string string) (w : World) :
  wf_world w →
  let m := get_available_tools env in
  let w1 := (m w).2 in
  is_Some (mcp_client w1) ∧
  (m w1).1 = (m w).1 ∧
  run_calls m w1 = [CallFinalAnswerTool] ∧
  heap (m w1).2 = heap w1 ∧
  mcp_client (m w1).2 = mcp_client w1.
Proof.
  intros Hwf m w1. subst w1 m. destruct w as [h gl out cs].
  destruct (get_available_tools_wf env h gl out cs Hwf)
    as (id & c & h' & out' & cs' & E & Hc & _ & _).
  rewrite E. cbn [fst snd]. unfold run_calls.
  rewrite (get_available_tools_again env h' id _ _ c Hc).
  cbn [fst snd heap mcp_client calls]. rewrite drop_app_length. by split_and!.
Qed.

(** X12.  When entering the client raises on the first call,
    [setup_mcp_tools] raises that exception after the global has been
    assigned: no source was registered, the global keeps the client, and a
    later [setup_mcp_tools] returns it without any call, so the entry is
    never attempted again.  [get_available_tools] turns the failure into
    an empty tool list and a printed warning. *)
Theorem failed_entry_is_not_repeated (env : gmap string string) (w : World) (e : exn) :
  mcp_client w = None →
  aenter_outcome = Raise e →
  let id := length (heap w) in
  let w1 := (setup_mcp_tools env w).2 in
  (setup_mcp_tools env w).1 = Raise e ∧
  run_calls (setup_mcp_tools env) w = [CallNewClient id; CallAenter id] ∧
  mcp_client w1 = Some id ∧
  (setup_mcp_tools env w1).1 = Ok (Some id) ∧
  run_calls (setup_mcp_tools env) w1 = [] ∧
  (get_available_tools env w).1 = Ok [] ∧
  Line "Warning: Failed to setup MCP tools: " [VExn e] ∈ run_stdout (get_available_tools env) w.
Proof.
  intros Hnone He id w1. subst w1 id. destruct w as [h gl out cs].
  cbn [mcp_client heap] in *. subst gl.
  pose proof (setup_first_call env h out cs) as Hs.
  pose proof (get_available_tools_first env h out cs) as Hg.
  rewrite He in Hs, Hg. cbv zeta in Hs, Hg. unfold run_calls, run_stdout.
  rewrite Hs, Hg. cbn [fst snd heap mcp_client calls stdout].
  rewrite !drop_app_length.
  split_and!; try done.
  - unfold setup_mcp_tools. run_M. by rewrite drop_all.
  - apply list_elem_of_here.
Qed.

(** X13.  In a well-formed state the tool status check does not raise:
    it returns the text [Available tools: ] followed by the names of the
    client's catalog, in catalog order, separated by a comma and a space;
    as a side effect the global client is set. *)
Theorem tool_status_lists_the_catalog (env : gmap string string) (w : World) :
  wf_world w →
  ∃ id c,
    (check_tools env w).1
    = Ok ("Available tools: " +:+ String.concat ", " (tool_name <$> catalog c)) ∧
    mcp_client (check_tools env w).2 = Some id ∧
    heap (check_tools env w).2 !! id = Some c.
Proof.
  intros Hwf. destruct w as [h gl out cs].
  destruct (get_available_tools_wf env h gl out cs Hwf)
    as (id & c & h' & out' & cs' & E & Hc & _ & _).
  exists id, c. unfold check_tools, get_tool_status. run_M. rewrite E. run_M. done.
Qed.
End assembly_facts.

Section source_selection.
Context `{Collaborators}.
Import WithMcp.

Lemma in_option_list {A} (x : A) (mx : option A) : x ∈ option_list mx ↔ mx = Some x.
Proof.
  destruct mx as [y|]; simpl.
  - rewrite list_elem_of_singleton. split; [by intros ->|by intros [= ->]].
  - rewrite elem_of_nil. done.
Qed.

Lemma sse_source_spec env s :
  sse_source env = Some s ↔ ∃ url, s = Sse url ∧ env !! "MCP_SSE_URL" = Some url ∧ url ≠ "".
Proof.
  unfold sse_source. destruct (env !! "MCP_SSE_URL") as [[|c u]|]; cbn [truthy]; split.
  - done.
  - by intros (url & _ & [= <-] & ?).
  - intros [= <-]. by eexists.
  - by intros (url & -> & [= <-] & _).
  - done.
  - by intros (url & _ & ? & _).
Qed.

Lemma stdio_source_spec env s :
  stdio_source env = Some s ↔
  ∃ cmd, s = Stdio cmd ∧ env !! "MCP_STDIO_COMMAND" = Some cmd ∧ cmd ≠ "".
Proof.
  unfold stdio_source. destruct (env !! "MCP_STDIO_COMMAND") as [[|c u]|]; cbn [truthy]; split.
  - done.
  - by intros (cmd & _ & [= <-] & ?).
  - intros [= <-]. by eexists.
  - by intros (cmd & -> & [= <-] & _).
  - done.
  - by intros (cmd & _ & ? & _).
Qed.

Lemma attempted_sse env url :
  Sse url ∈ attempted env ↔ env !! "MCP_SSE_URL" = Some url ∧ url ≠ "".
Proof.
  unfold attempted.
  rewrite elem_of_cons, elem_of_app, !in_option_list, sse_source_spec, stdio_source_spec.
  split.
  - intros [?|[(u & [= <-] & ? & ?)|(c & ? & _)]]; done.
  - intros [? ?]. right. left. by exists url.
Qed.

Lemma attempted_stdio env cmd :
  Stdio cmd ∈ attempted env ↔ env !! "MCP_STDIO_COMMAND" = Some cmd ∧ cmd ≠ "".
Proof.
  unfold attempted.
  rewrite elem_of_cons, elem_of_app, !in_option_list, sse_source_spec, stdio_source_spec.
  split.
  - intros [?|[(u & ? & _)|(c & [= <-] & ? & ?)]]; done.
  - intros [? ?]. right. right. by exists cmd.
Qed.

(** X14.  On the first call with a client that can be entered,
    [setup_mcp_tools] registers on the new client, in this order, the
    filesystem tool, then the SSE server exactly when [MCP_SSE_URL] is set
    to a non-empty string, then the stdio server exactly when
    [MCP_STDIO_COMMAND] is set to a non-empty string: at most three
    sources, the variable's value passed on as it is. *)
Theorem environment_selects_the_sources (env : gmap string string) (w : World) :
  mcp_client w = None →
  aenter_outcome = Ok () →
  registrations (run_calls (setup_mcp_tools env) w)
  = (λ s, (length (heap w), s)) <$> attempted env ∧
  head (attempted env) = Some Filesystem ∧
  (∀ url, Sse url ∈ attempted env ↔ env !! "MCP_SSE_URL" = Some url ∧ url ≠ "") ∧
  (∀ cmd, Stdio cmd ∈ attempted env ↔ env !! "MCP_STDIO_COMMAND" = Some cmd ∧ cmd ≠ "") ∧
  (∀ url cmd, Sse url ∈ attempted env → Stdio cmd ∈ attempted env →
     attempted env = [Filesystem; Sse url; Stdio cmd]) ∧
  (length (attempted env) ≤ 3)%nat.
Proof.
  intros Hnone Hok. destruct w as [h gl out cs]. cbn [mcp_client heap] in *. subst gl.
  pose proof (setup_first_call env h out cs) as Hs. rewrite Hok in Hs.
  destruct Hs as (out' & E & _). unfold run_calls. rewrite E.
  cbn [fst snd calls]. rewrite drop_app_length.
  split_and!.
  - cbn [app registrations omap]. apply registrations_adds.
  - done.
  - apply attempted_sse.
  - apply attempted_stdio.
  - intros url cmd [Hu Hu']%attempted_sse [Hc Hc']%attempted_stdio.
    unfold attempted, sse_source, stdio_source. rewrite Hu, Hc.
    by destruct url, cmd.
  - unfold attempted. destruct (sse_source env), (stdio_source env); simpl; lia.
Qed.
End source_selection.

(** ** The import, setting by setting *)

Section import_facts.
Context `{PyBuiltins}.

(** The conversion the import is about to evaluate. *)
Ltac head_conversion t :=
  lazymatch t with
  | mbind _ ?m => head_conversion m
  | match ?c with _ => _ end => constr:(c)
  end.

(** From a successful import to the ten converted values. *)
Ltac import_succeeded Hg :=
  unfold module_init, get_preset_configs, get_default_config, py_float, py_int in Hg;
  repeat (lazymatch type of Hg with
          | ?l = Ok _ => let c := head_conversion l in destruct c
          end;
          cbn [mbind result_mbind result_bind] in Hg; [|discriminate Hg]);
  injection Hg as <-.

Lemma module_init_strings env g :
  module_init env = Ok g →
  Forall (λ ss, ss_field ss g = Some (getenv env (ss_key ss) (ss_literal ss)))
         string_settings.
Proof.
  intros Hg. import_succeeded Hg.
  unfold string_settings.
  repeat first [apply Forall_cons_2 | apply Forall_nil_2];
    cbn [ss_field ss_key ss_literal]; unfold preset_field, default_field;
    cbn [preset_configs default_config];
    rewrite ?lookup_insert_ne by done; rewrite ?lookup_insert_eq; reflexivity.
Qed.

Lemma module_init_presets env g name :
  module_init env = Ok g →
  (is_Some (preset_configs g !! name) ↔ name ∈ preset_names) ∧
  (∀ c, c = default_config g ∨ preset_configs g !! name = Some c →
        LLMConfig.vision_enabled c = false) ∧
  available_routes g = get_available_routes.
Proof.
  intros Hg. import_succeeded Hg. cbn [preset_configs default_config available_routes].
  unfold preset_names. split_and!; [|intros c [->|Hc]; [done|]|done].
  - split.
    + intros [c Hc].
      repeat (rewrite lookup_insert_Some in Hc; destruct Hc as [[<- _]|[_ Hc]];
              [by repeat first [apply list_elem_of_here | apply list_elem_of_further]|]).
      by rewrite lookup_empty in Hc.
    + intros Hin.
      repeat (apply elem_of_cons in Hin as [->|Hin];
              [rewrite ?lookup_insert_ne by done; rewrite lookup_insert_eq; eauto|]).
      by apply elem_of_nil in Hin.
  - repeat (rewrite lookup_insert_Some in Hc; destruct Hc as [[_ <-]|[_ Hc]]; [done|]).
    by rewrite lookup_empty in Hc.
Qed.

(** X15.  After a successful import, each of the twenty-five string
    settings holds the string of its variable as it is, the empty string
    included, and the built-in literal only when the variable is unset:
    no string setting is validated or normalised. *)
Theorem string_settings_are_taken_verbatim (env : gmap string string) (g : Globals)
    (ss : string_setting) :
  ss ∈ string_settings →
  module_init env = Ok g →
  (∀ s, env !! ss_key ss = Some s → ss_field ss g = Some s) ∧
  (env !! ss_key ss = None → ss_field ss g = Some (ss_literal ss)).
Proof.
  intros Hss Hg. pose proof (module_init_strings env g Hg) as Hall.
  rewrite Forall_forall in Hall. rewrite (Hall ss Hss). unfold getenv.
  split; [intros s ->|intros ->]; done.
Qed.

(** X16.  After a successful import the preset table has exactly the
    four names of the source, whatever the environment.  For every other
    name, ["Custom"] or not, [update_fields] of both applications shows the
    default configuration's base URL, API version, model, temperature and
    token limit. *)
Theorem unknown_preset_shows_the_default (env : gmap string string) (g : Globals)
    (name : string) :
  module_init env = Ok g →
  (is_Some (preset_configs g !! name) ↔ name ∈ preset_names) ∧
  (name ∉ preset_names →
     ∀ f, f = WithMcp.update_fields g name ∨ f = WithoutMcp.update_fields g name →
       shown_base_url f = LLMConfig.base_url (default_config g) ∧
       shown_api_version f = LLMConfig.api_version (default_config g) ∧
       shown_model f = LLMConfig.model (default_config g) ∧
       shown_temperature f = LLMConfig.temperature (default_config g) ∧
       shown_max_tokens f = LLMConfig.max_tokens (default_config g)).
Proof.
  intros Hg. destruct (module_init_presets env g name Hg) as (Hdom & _ & _).
  split; [exact Hdom|]. intros Hname f Hf.
  assert (Hnone : preset_configs g !! name = None).
  { apply eq_None_not_Some. by rewrite Hdom. }
  destruct Hf as [-> | ->]; unfold WithMcp.update_fields, WithoutMcp.update_fields;
    rewrite Hnone; case_bool_decide; done.
Qed.

(** The import failed at the [n]-th numeric setting. *)
Ltac failed_at n Hg :=
  solve [
    eexists (take n numeric_settings), _, (drop (S n) numeric_settings);
    split; [reflexivity|];
    split; [ cbn [take numeric_settings];
             repeat first [apply Forall_cons_2 | apply Forall_nil_2];
             unfold converted; cbn [convert ns_kind ns_key ns_literal];
             match goal with
             | E : float_of_str ?s = Some _ |- context [float_of_str ?s] =>
                 rewrite E; by eexists
             | E : int_of_str ?s = Some _ |- context [int_of_str ?s] =>
                 rewrite E; by eexists
             end |];
    unfold converted, py_float, py_int;
    cbn [convert ns_kind ns_key ns_literal];
    match goal with
    | E : float_of_str ?s = None |- context [float_of_str ?s] => rewrite E
    | E : int_of_str ?s = None |- context [int_of_str ?s] => rewrite E
    end; split; [reflexivity | by injection Hg as <-] ].

Lemma module_init_first_failure env e :
  module_init env = Raise e →
  ∃ pre ns post,
    numeric_settings = pre ++ ns :: post ∧
    Forall (λ n, is_Some (converted env n)) pre ∧
    converted env ns = None ∧
    conversion_raises (ns_kind ns) (getenv env (ns_key ns) (ns_literal ns)) e.
Proof.
  intros Hg. unfold conversion_raises.
  unfold module_init, get_preset_configs, get_default_config, py_float, py_int in Hg.
  repeat (lazymatch type of Hg with
          | ?l = Raise _ => let c := head_conversion l in destruct c eqn:?
          end;
          cbn [mbind result_mbind result_bind] in Hg;
          [| first [failed_at 0%nat Hg | failed_at 1%nat Hg | failed_at 2%nat Hg
                   | failed_at 3%nat Hg | failed_at 4%nat Hg | failed_at 5%nat Hg
                   | failed_at 6%nat Hg | failed_at 7%nat Hg | failed_at 8%nat Hg
                   | failed_at 9%nat Hg] ]).
  discriminate Hg.
Qed.

(** X17.  The import succeeds exactly when each of the ten numeric
    settings converts; no string setting and no tool variable can make it
    fail.  When it fails, the exception is the one raised by the
    conversion of the first setting, in source order, whose string is
    rejected: later settings are not looked at. *)
Theorem import_succeeds_iff_every_numeric_setting_converts (env : gmap string string) :
  (succeeds (module_init env) = true ↔
     Forall (λ ns, is_Some (converted env ns)) numeric_settings) ∧
  (∀ e, module_init env = Raise e →
     ∃ pre ns post,
       numeric_settings = pre ++ ns :: post ∧
       Forall (λ n, is_Some (converted env n)) pre ∧
       converted env ns = None ∧
       conversion_raises (ns_kind ns) (getenv env (ns_key ns) (ns_literal ns)) e).
Proof.
  split; [|apply module_init_first_failure].
  pose proof (module_init_conversions env) as Hinit.
  destruct (module_init env) as [g|e]; cbn [succeeds].
  - split; [intros _|done]. eapply Forall_impl; [exact Hinit|].
    intros ns (v & -> & _). by eexists.
  - destruct Hinit as [_ Hex]. split; [done|]. intros Hall. exfalso.
    apply Exists_exists in Hex as (ns & Hin & Hnone).
    rewrite Forall_forall in Hall. destruct (Hall ns Hin) as [v Hv]. congruence.
Qed.
End import_facts.

Section configuration_shape.
Context `{PyBuiltins} `{Collaborators}.
Variables (g : Globals) (env : gmap string string) (w : World).
Variables (query preset_model route query_type : string) (check_enabled use_tools : bool).
Variables (api_type api_key base_url api_version model : option string).
Variables (temperature max_tokens : pyval).
Variables (ui_api_type ui_api_key ui_base_url ui_api_version ui_model : string).
Variables (ui_temperature ui_max_tokens : pyval).

(** X18.  Vision is never enabled.  For module-level state produced by the
    import, the dictionary either application hands to the engine factory
    has [vision_enabled] set to [False], whatever the request carries:
    with tools, and on the custom branch of the plain application, it is
    the constant of [create_custom_llm_config]; on the preset branch of
    the plain application it is copied from a configuration object that
    the import built without setting the field. *)
Theorem vision_is_never_enabled :
  module_init env = Ok g →
  (∃ cfg kw,
     serves (WithMcp.minion_respond_async_dynamic g env query preset_model api_type
               api_key base_url api_version model temperature max_tokens route query_type
               check_enabled use_tools) w cfg kw ∧
     cfg !! "vision_enabled" = Some (VBool false)) ∧
  (∃ cfg kw,
     serves (WithoutMcp.minion_respond_async_dynamic g query preset_model ui_api_type
               ui_api_key ui_base_url ui_api_version ui_model ui_temperature ui_max_tokens
               route query_type check_enabled) w cfg kw ∧
     cfg !! "vision_enabled" = Some (VBool false)).
Proof.
  intros Hg. split.
  - destruct (respond_serves_dynamic g env query preset_model api_type api_key base_url
                api_version model temperature max_tokens route query_type check_enabled
                use_tools w) as [tools Hs].
    eexists _, _. split; [exact Hs|].
    unfold WithMcp.llm_config_dict_dynamic. cbv zeta. apply custom_config_fields.
  - eexists _, _. split; [apply plain_respond_serves_dynamic|].
    unfold WithoutMcp.llm_config_dict_dynamic. case_bool_decide.
    + destruct (module_init_presets env g preset_model Hg) as (_ & Hv & _).
      cbv zeta. rewrite (Hv (default (default_config g) (preset_configs g !! preset_model))).
      * by simplify_map_eq.
      * destruct (preset_configs g !! preset_model); [by right|by left].
    + apply custom_config_fields.
Qed.
End configuration_shape.

(** ** A caller arriving during the initialization *)

Section late_callers.
Context `{Collaborators}.
Import WithMcp.

Lemma run_returned env k r w rest :
  run_schedule env (replicate k 0%nat) (mkSystem w (Returned r :: rest))
  = mkSystem w (Returned r :: rest).
Proof. induction k as [|k IH]; [done|]. exact IH. Qed.

Lemma run_first_alone env fuel p w rest r w' :
  run_alone env fuel p w = (Some r, w') →
  run_schedule env (replicate fuel 0%nat) (mkSystem w (p :: rest))
  = mkSystem w' (Returned r :: rest).
Proof.
  revert p w. induction fuel as [|fuel IH]; intros p w Hrun.
  - destruct p; cbn [run_alone] in Hrun; by simplify_eq.
  - assert (Hp : (∃ r0, p = Returned r0) ∨ ∀ r0, p ≠ Returned r0).
    { destruct p; [by right..|left; by eexists]. }
    destruct Hp as [[r0 ->]|Hp].
    + cbn [run_alone] in Hrun. simplify_eq. apply run_returned.
    + rewrite run_alone_step in Hrun by done.
      cbn [replicate]. unfold run_schedule. cbn [foldl].
      unfold sched_step at 2. cbn [tasks world lookup list_lookup].
      destruct (step_setup env p w) as [p1 w1]. cbn [fst snd] in Hrun.
      cbn [insert list_insert]. by apply IH.
Qed.

(** X19.  A caller that enters [setup_mcp_tools] while the first caller
    is still suspended in the client's entry returns at once with the
    client the first one has just constructed: not yet entered, no source
    registered, its catalog empty, so the tool list read from it is empty.
    When the first caller has gone on to finish, the same client holds
    the merged catalog of the sources. *)
Theorem late_caller_gets_an_unfinished_client (env : gmap string string) (w0 : World) :
  mcp_client w0 = None →
  let id := length (heap w0) in
  let s := run_schedule env [0; 1]%nat (spawn w0 2) in
  tasks s = [AwaitAenter id; Returned (Ok (Some id))] ∧
  heap (world s) !! id = Some (mkClient false []) ∧
  (get_tools_for_brain id (world s)).1 = Ok [] ∧
  registrations (drop (length (calls w0)) (calls (world s))) = [] ∧
  (aenter_outcome = Ok () →
     let s' := run_schedule env [0; 0; 0; 0]%nat s in
     tasks s' = [Returned (Ok (Some id)); Returned (Ok (Some id))] ∧
     heap (world s') !! id = Some (mkClient true (catalog_of (attempted env)))).
Proof.
  intros Hnone id s. destruct w0 as [h gl out cs]. cbn [mcp_client heap calls] in *.
  subst gl.
  assert (Hs : s = mkSystem (mkWorld (h ++ [mkClient false []]) (Some id) out
                               (cs ++ [CallNewClient id]))
                            [AwaitAenter id; Returned (Ok (Some id))]) by reflexivity.
  rewrite Hs. cbn [tasks world heap calls].
  assert (Hc : (h ++ [mkClient false []]) !! id = Some (mkClient false [])).
  { by apply list_lookup_middle. }
  split; [done|]. split; [exact Hc|]. split.
  { unfold get_tools_for_brain. cbn [heap]. by rewrite Hc. }
  split. { by rewrite drop_app_length. }
  intros Hok.
  pose proof (run_alone_is_setup env (mkWorld h None out cs)) as Halone.
  pose proof (setup_first_call env h out cs) as Hsetup. rewrite Hok in Hsetup.
  destruct Hsetup as (out' & E & _). rewrite E in Halone.
  rewrite run_alone_step, step_start_none in Halone by done. cbn [fst snd] in Halone.
  fold id in Halone.
  change [0; 0; 0; 0]%nat with (replicate 4 0%nat).
  rewrite (run_first_alone env 4 _ _ _ _ _ Halone). cbn [tasks world heap].
  split; [done|]. by apply list_lookup_middle.
Qed.
End late_callers.

(** ** The example tool server *)

Section server_facts.
Import ExampleServer.
Context `{Runtime}.

Lemma listed_names :
  name <$> handle_list_tools = ["calculator"; "echo"; "timestamp"; "math_functions"].
Proof. reflexivity. Qed.

Lemma calculate_answer expression answer :
  calculate expression = Ok answer → ∃ t, answer = [mkText "text" t].
Proof.
  unfold calculate, mbind, result_mbind, result_bind.
  destruct (iterate expression) as [cs|?]; [|done].
  destruct (all_allowed cs) as [[]|?]; [|done..].
  destruct (eval expression) as [r|?]; [|done].
  destruct (interpolate_result r) as [shown|?]; [|done].
  intros [= <-]. by eexists.
Qed.

Lemma apply_function_answer function value answer :
  apply_function function value = Ok answer → ∃ t, answer = [mkText "text" t].
Proof.
  unfold apply_function. unfold mbind at 1. unfold result_mbind, result_bind.
  match goal with |- context [match ?r with Ok _ => _ | Raise _ => _ end] =>
    destruct r as [r'|?]; [|done] end.
  unfold mbind, result_mbind, result_bind.
  destruct (interpolate_result r') as [shown|?]; [|done].
  intros [= <-]. by eexists.
Qed.

(** X20.  A call of the example server raises exactly when the tool name
    is not one of the four names the server lists, and then with a
    [ValueError] naming the tool.  A call of a listed tool always returns
    one text item: what goes wrong inside the calculator or the
    mathematical functions, an unknown function included, comes back as
    text. *)
Theorem call_tool_raises_only_for_unknown_tools (now : datetime) (tool : string)
    (arguments : gmap string json) :
  match handle_call_tool now tool arguments with
  | Ok answer => tool ∈ (name <$> handle_list_tools) ∧ ∃ t, answer = [mkText "text" t]
  | Raise e =>
      (tool ∉ (name <$> handle_list_tools)) ∧ e = ValueError ("Unknown tool: " +:+ tool)
  end.
Proof.
  rewrite listed_names. unfold handle_call_tool.
  repeat case_bool_decide; subst; cbv zeta.
  - destruct (calculate _) as [answer|e] eqn:E.
    + split; [apply list_elem_of_here|]. by eapply calculate_answer.
    + split; [apply list_elem_of_here|]. by eexists.
  - split; [apply list_elem_of_further, list_elem_of_here|]. by eexists.
  - split; [do 2 apply list_elem_of_further; apply list_elem_of_here|]. by eexists.
  - destruct (apply_function _ _) as [answer|e] eqn:E.
    + split; [do 3 apply list_elem_of_further; apply list_elem_of_here|].
      by eapply apply_function_answer.
    + split; [do 3 apply list_elem_of_further; apply list_elem_of_here|]. by eexists.
  - split; [|done]. intros Hin.
    repeat (apply elem_of_cons in Hin as [->|Hin]; [done|]).
    by apply elem_of_nil in Hin.
Qed.

Lemma all_allowed_string (l : list ascii) :
  all_allowed ((λ a, JStr (String a EmptyString)) <$> l)
  = Ok (forallb (λ a, bool_decide (String a EmptyString ∈ allowed_chars)) l).
Proof.
  induction l as [|a l IH]; [done|].
  cbn [fmap list_fmap all_allowed in_allowed_chars forallb].
  unfold mbind, result_mbind, result_bind.
  destruct (bool_decide (String a EmptyString ∈ allowed_chars)); [exact IH|done].
Qed.

(** X21.  For an expression given as a string, the calculator consults
    [eval] only when every character of the string is one of the nineteen
    allowed ones (digits, the four operators, parentheses, point, comma,
    space).  The answer is then the result of [eval] put into text, or
    the error text of the exception raised by [eval] or by putting its
    result into text (an integer too long to print).  A string with any
    other character is answered with the fixed text about invalid
    characters, whatever [eval] would do with it. *)
Theorem calculator_evaluates_only_allowed_characters (now : datetime)
    (arguments : gmap string json) (s : string) :
  arguments !! "expression" = Some (JStr s) →
  handle_call_tool now "calculator" arguments =
    Ok [mkText "text"
          (if forallb (λ a, bool_decide (String a EmptyString ∈ allowed_chars))
                (list_ascii_of_string s)
           then match eval (JStr s) with
                | Ok r =>
                    match interpolate_result r with
                    | Ok shown => "Result: " +:+ s +:+ " = " +:+ shown
                    | Raise e =>
                        "Error: Unable to calculate '" +:+ s +:+ "': " +:+ exn_message e
                    end
                | Raise e => "Error: Unable to calculate '" +:+ s +:+ "': " +:+ exn_message e
                end
           else "Error: Unable to calculate '" +:+ s
                +:+ "': Invalid characters in expression")].
Proof.
  intros Harg. unfold handle_call_tool.
  rewrite bool_decide_eq_true_2 by done. rewrite Harg. cbn [default from_option id].
  unfold calculate. cbn [iterate mbind result_mbind result_bind].
  rewrite all_allowed_string.
  destruct (forallb _ _); [|reflexivity].
  cbn [interpolate]. destruct (eval (JStr s)) as [r|e]; [|done].
  unfold mbind, result_mbind, result_bind. by destruct (interpolate_result r).
Qed.

(** X22.  The answer to a call of a listed tool depends only on the
    arguments the tool declares in its input schema: two argument
    dictionaries that agree on the declared names get the same answer,
    whatever else they hold. *)
Theorem answers_depend_on_declared_arguments (now : datetime) (t : Tool)
    (arguments arguments' : gmap string json) :
  t ∈ handle_list_tools →
  (∀ k, k ∈ declared_arguments t → arguments !! k = arguments' !! k) →
  handle_call_tool now (name t) arguments = handle_call_tool now (name t) arguments'.
Proof.
  intros Ht Hagree. unfold handle_list_tools in Ht.
  repeat (apply elem_of_cons in Ht as [->|Ht]); [..|by apply elem_of_nil in Ht];
    cbn [name] in *; unfold handle_call_tool;
    repeat (first [rewrite bool_decide_eq_true_2 by done
                  |rewrite bool_decide_eq_false_2 by done]); cbv zeta.
  - rewrite (Hagree "expression"); [done|]. apply list_elem_of_here.
  - rewrite (Hagree "text"); [done|]. apply list_elem_of_here.
  - rewrite (Hagree "format"); [done|]. apply list_elem_of_here.
  - rewrite (Hagree "function"), (Hagree "value"); [done|..].
    + apply list_elem_of_further, list_elem_of_here.
    + apply list_elem_of_here.
Qed.
End server_facts.

(** * Runs on the reference instances *)

Module ReferenceRuns.
Import Reference.

Example reference_float_literals :
decimal_float "0.7" = Some 0.7%float ∧
decimal_float "0" = Some 0%float ∧
decimal_float "0.1" = Some 0.1%float ∧
decimal_float "-1.25" = Some (-1.25)%float ∧
decimal_float "hot" = None ∧
decimal_float "" = None.
Proof. repeat split; reflexivity. Qed.

Example reference_int_literals :
decimal_int "4000" = Some 4000 ∧
decimal_int "-12" = Some (-12) ∧
decimal_int "4000.5" = None ∧
decimal_int "many" = None ∧
decimal_int "" = None.
Proof. repeat split; reflexivity. Qed.

Example reference_globals : module_init env_empty = Ok globals.
Proof. vm_compute. reflexivity. Qed.

Example reference_defaults :
LLMConfig.model (default_config globals) = "gpt-4o" ∧
LLMConfig.temperature (default_config globals) = 0.7%float ∧
LLMConfig.max_tokens (default_config globals) = 4000.
Proof. repeat split; vm_compute; reflexivity. Qed.

(** C1 fails as stated: with the known preset ["gpt-4.1"] selected and no
  explicit argument, the model handed to the engine factory is the global
  default's ["gpt-4o"], not the preset's ["gpt-4.1"]. *)
Lemma preset_is_not_consulted :
let m := WithMcp.minion_respond_async globals env_empty "What is 2+2?" "gpt-4.1"
           None None None None None None None "" "calculate" false false in
LLMConfig.model <$> preset_configs globals !! "gpt-4.1" = Some "gpt-4.1" ∧
(λ cfg, cfg !! "model") <$> built (run_calls m initial_world) = [Some (VStr "gpt-4o")].
Proof. split; vm_compute; reflexivity. Qed.

(** C2 fails as stated: the tag ["fast"] is not one of the routes, and the
  request is dispatched with it and answered. *)
Lemma unknown_route_is_dispatched :
let m := WithMcp.minion_respond_async globals env_empty "What is 2+2?" "gpt-4o"
           None None None None None None None "fast" "calculate" false false in
("fast" ∉ get_available_routes) ∧
(m initial_world).1 = Ok (VStr "4") ∧
(λ p, p.2 !! "route") <$> dispatched (run_calls m initial_world) = [Some (VStr "fast")].
Proof.
split; [|split; vm_compute; reflexivity].
unfold get_available_routes. intros Hin.
repeat (apply elem_of_cons in Hin as [Hin|Hin]; [discriminate Hin|]).
by apply elem_of_nil in Hin.
Qed.

Lemma nonempty_route_witness :
"fast" ≠ "" ∧
(∃ cfg kw, serves (WithMcp.minion_respond_async globals env_empty "What is 2+2?" "gpt-4o"
                     None None None None None None None "fast" "calculate" false false)
             initial_world cfg kw ∧ kw !! "route" = Some (VStr "fast")).
Proof.
split; [discriminate|].
exact (proj1 (nonempty_route_is_forwarded_unchecked globals env_empty initial_world
                "What is 2+2?" "gpt-4o" false false None None None None None None None
                "" "" "" "" "" 0%float 0 "fast" "calculate" ltac:(discriminate))).
Defined.

(** C3 fails as stated: on the route ["python"] with an empty query type,
  the payload has no [query_type]. *)
Lemma python_route_without_query_type :
let m := WithMcp.minion_respond_async globals env_empty "print(2+2)" "gpt-4o"
           None None None None None None None "python" "" false false in
(m initial_world).1 = Ok (VStr "4") ∧
(λ p, p.2 !! "query_type") <$> dispatched (run_calls m initial_world) = [None].
Proof. split; vm_compute; reflexivity. Qed.

(** C6 fails as stated: the engine answers [("4", 1.0, "trace")] and the
  handler returns ["4"], neither a pair nor the tuple. *)
Lemma score_and_rest_are_not_returned :
let m := WithMcp.minion_respond_async globals env_empty "What is 2+2?" "gpt-4o"
           None None None None None None None "" "calculate" false false in
(λ p, brain_step p.1 p.2) <$> dispatched (run_calls m initial_world)
  = [Ok [VStr "4"; VFloat 1%float; VStr "trace"]] ∧
(m initial_world).1 = Ok (VStr "4") ∧
(m initial_world).1 ≠ Ok (VTuple [VStr "4"; VFloat 1%float]) ∧
(m initial_world).1 ≠ Ok (VTuple [VStr "4"; VFloat 1%float; VStr "trace"]).
Proof. repeat split; [vm_compute; reflexivity..| |]; vm_compute; discriminate. Qed.

Lemma observation_only_witness :
let m := WithMcp.minion_respond_async globals env_empty "What is 2+2?" "gpt-4o"
           None None None None None None None "" "calculate" false false in
let cfg := WithMcp.llm_config_dict globals None None None None None None None in
let kw := add_query_type "" "calculate" (base_kwargs "What is 2+2?" "" false) in
brain_step cfg kw = Ok [VStr "4"; VFloat 1%float; VStr "trace"] ∧
(cfg, kw) ∈ dispatched (run_calls m initial_world) ∧
(m initial_world).1 = Ok (VStr "4").
Proof.
intros m cfg kw.
assert (Hstep : brain_step cfg kw = Ok [VStr "4"; VFloat 1%float; VStr "trace"])
  by reflexivity.
assert (Hin : (cfg, kw) ∈ dispatched (run_calls m initial_world)).
{ replace (dispatched (run_calls m initial_world)) with [(cfg, kw)]
    by (vm_compute; reflexivity).
  apply list_elem_of_here. }
split; [exact Hstep|]. split; [exact Hin|].
exact (proj1 (only_the_observation_is_returned globals env_empty initial_world
                "What is 2+2?" "gpt-4o" false false None None None None None None None
                "" "" "" "" "" 0%float 0 "" "calculate" cfg kw
                (VStr "4") (VFloat 1%float) [VStr "trace"] Hstep) Hin).
Defined.

(** C4 fails as stated: a request whose temperature is the word ["hot"]
  and whose max-tokens is the word ["many"] is served in both
  applications.  The two words are in the dictionary handed to the engine
  factory, the engine is called and its answer is returned; nothing
  raises. *)
Lemma non_numeric_request_values_reach_the_engine :
let m1 := WithMcp.minion_respond_async_dynamic globals env_empty "What is 2+2?" "gpt-4o"
            None None None None None (VStr "hot") (VStr "many") "" "calculate" false
            false in
let m2 := WithoutMcp.minion_respond_async_dynamic globals "What is 2+2?" "Custom"
            "openai" "sk-test" "" "" "gpt-4o" (VStr "hot") (VStr "many") "" "calculate"
            false in
(m1 initial_world).1 = Ok (VStr "4") ∧
(λ cfg, (cfg !! "temperature", cfg !! "max_tokens")) <$> built (run_calls m1 initial_world)
  = [(Some (VStr "hot"), Some (VStr "many"))] ∧
length (dispatched (run_calls m1 initial_world)) = 1%nat ∧
(m2 initial_world).1 = Ok (VStr "4") ∧
(λ cfg, (cfg !! "temperature", cfg !! "max_tokens")) <$> built (run_calls m2 initial_world)
  = [(Some (VStr "hot"), Some (VStr "many"))] ∧
length (dispatched (run_calls m2 initial_world)) = 1%nat.
Proof. repeat split; vm_compute; reflexivity. Qed.

Lemma numeric_values_witness :
let ns := mkSetting "DEFAULT_TEMPERATURE" "0.7" KFloat
            (λ g, Some (VFloat (LLMConfig.temperature (default_config g)))) in
ns ∈ numeric_settings ∧
env_hot !! ns_key ns = Some "hot" ∧
convert (ns_kind ns) "hot" = None ∧
raises_ValueError (module_init env_hot).
Proof.
intros ns.
assert (Hin : ns ∈ numeric_settings).
{ unfold numeric_settings. do 8 apply list_elem_of_further. apply list_elem_of_here. }
split; [exact Hin|]. split; [reflexivity|]. split; [reflexivity|].
exact (proj1 (proj1 (numeric_values_are_checked_at_import_only env_hot ns Hin)
                "hot" eq_refl eq_refl)).
Defined.

Lemma failing_source_witness :
mcp_client initial_world = None ∧
aenter_outcome = Ok () ∧
source_tools (Sse "http://localhost:8080/sse") = Raise (Exception "connection refused") ∧
(WithMcp.get_available_tools env_servers initial_world).1
  = Ok (catalog_of (working env_servers)) ∧
catalog_of (working env_servers) = [read_file; echo].
Proof.
split; [reflexivity|]. split; [reflexivity|]. split; [reflexivity|]. split.
- exact (proj1 (failing_source_does_not_stop_the_others env_servers initial_world
                  eq_refl eq_refl)).
- vm_compute. reflexivity.
Defined.

Example reference_race :
  let s := WithMcp.run_schedule env_servers race (WithMcp.spawn initial_world 2) in
  WithMcp.tasks s = [WithMcp.Returned (Ok (Some 0%nat)); WithMcp.Returned (Ok (Some 0%nat))] ∧
  constructions (calls (WithMcp.world s)) = [0%nat] ∧
  registrations (calls (WithMcp.world s))
    = [(0%nat, Filesystem); (0%nat, Sse "http://localhost:8080/sse");
       (0%nat, Stdio "python example_mcp_server.py")].
Proof. repeat split; vm_compute; reflexivity. Qed.


(** The text of the status check with both servers configured: the SSE
  server is down, the stdio server's second tool is a duplicate. *)
Example reference_tool_status :
(WithMcp.check_tools env_servers initial_world).1 = Ok "Available tools: read_file, echo".
Proof. vm_compute. reflexivity. Qed.

(** With no variable set, the preset ["gpt-4.1"] shown and submitted with
  MCP tools runs on the preset's model; a request without overrides runs
  on the default's. *)
Example reference_round_trip :
let f := WithMcp.update_fields globals "gpt-4.1" in
let m := WithMcp.minion_respond globals env_empty "What is 2+2?" "gpt-4.1"
           (Some (shown_api_type f)) (Some (shown_api_key f)) (Some (shown_base_url f))
           (Some (shown_api_version f)) (Some (shown_model f))
           (Some (shown_temperature f)) (Some (shown_max_tokens f))
           "" "calculate" false false in
(λ cfg, cfg !! "model") <$> built (run_calls m initial_world) = [Some (VStr "gpt-4.1")].
Proof. vm_compute. reflexivity. Qed.

Lemma factory_failure_witness :
let cfg := WithMcp.llm_config_dict globals None None None None None None None in
@create_llm_provider offline cfg = Raise (Exception "no provider configured") ∧
run_calls (@WithMcp.minion_respond_async offline globals env_servers "What is 2+2?" "gpt-4o"
             None None None None None None None "" "calculate" false true) initial_world
= [CallBuildBrain cfg].
Proof.
intros cfg. split; [reflexivity|].
exact (proj1 (proj2 (@factory_failure_stops_the_request offline globals env_servers
                       initial_world "What is 2+2?" "gpt-4o" "" "calculate" false
                       None None None None None None None true
                       (Exception "no provider configured") eq_refl))).
Defined.

Lemma enabled_tools_witness :
let m := WithMcp.minion_respond_async globals env_servers "What is 2+2?" "gpt-4o"
           None None None None None None None "" "calculate" false true in
let cfg := WithMcp.llm_config_dict globals None None None None None None None in
let kw := add_query_type "" "calculate" (base_kwargs "What is 2+2?" "" false) in
wf_world initial_world ∧
create_llm_provider cfg = Ok () ∧
∃ id c cs,
  mcp_client (m initial_world).2 = Some id ∧
  heap (m initial_world).2 !! id = Some c ∧
  Forall (λ c, engine_call c = false) cs ∧
  run_calls m initial_world
  = [CallBuildBrain cfg] ++ cs ++
    [CallStep cfg (<["tools" := VList (VTool <$> catalog c)]> kw)].
Proof.
intros m cfg kw.
assert (Hwf : wf_world initial_world) by exact I.
split; [exact Hwf|]. split; [reflexivity|].
exact (enabled_tools_carry_the_client_catalog globals env_servers initial_world
         "What is 2+2?" "gpt-4o" "" "calculate" false None None None None None None None
         Hwf eq_refl).
Defined.

Lemma sources_not_retried_witness :
let m := WithMcp.get_available_tools env_servers in
wf_world initial_world ∧
(m (m initial_world).2).1 = (m initial_world).1 ∧
run_calls m (m initial_world).2 = [CallFinalAnswerTool].
Proof.
intros m.
assert (Hwf : wf_world initial_world) by exact I.
split; [exact Hwf|].
pose proof (sources_are_not_retried env_servers initial_world Hwf) as (_ & Hr & Hc & _).
split; [exact Hr|exact Hc].
Defined.

Lemma failed_entry_witness :
mcp_client initial_world = None ∧
@aenter_outcome offline = Raise (Exception "cannot start the client session") ∧
(@WithMcp.setup_mcp_tools offline env_servers initial_world).1
  = Raise (Exception "cannot start the client session") ∧
(@WithMcp.get_available_tools offline env_servers initial_world).1 = Ok [].
Proof.
split; [reflexivity|]. split; [reflexivity|].
pose proof (@failed_entry_is_not_repeated offline env_servers initial_world
              (Exception "cannot start the client session") eq_refl eq_refl)
  as (Hs & _ & _ & _ & _ & Hg & _).
split; [exact Hs|exact Hg].
Defined.

Lemma tool_status_witness :
wf_world initial_world ∧
∃ id c,
  (WithMcp.check_tools env_servers initial_world).1
  = Ok ("Available tools: " +:+ String.concat ", " (tool_name <$> catalog c)) ∧
  mcp_client (WithMcp.check_tools env_servers initial_world).2 = Some id ∧
  heap (WithMcp.check_tools env_servers initial_world).2 !! id = Some c.
Proof.
assert (Hwf : wf_world initial_world) by exact I.
split; [exact Hwf|].
exact (tool_status_lists_the_catalog env_servers initial_world Hwf).
Defined.

Lemma source_selection_witness :
mcp_client initial_world = None ∧
aenter_outcome = Ok () ∧
registrations (run_calls (WithMcp.setup_mcp_tools env_servers) initial_world)
= (λ s, (0%nat, s)) <$> attempted env_servers ∧
attempted env_servers
= [Filesystem; Sse "http://localhost:8080/sse"; Stdio "python example_mcp_server.py"].
Proof.
split; [reflexivity|]. split; [reflexivity|]. split.
- exact (proj1 (environment_selects_the_sources env_servers initial_world eq_refl eq_refl)).
- vm_compute. reflexivity.
Defined.

Lemma string_setting_witness :
let ss := mkString "DEFAULT_MODEL" "gpt-4o" (default_field LLMConfig.model) in
ss ∈ string_settings ∧
module_init env_empty = Ok globals ∧
env_empty !! ss_key ss = None ∧
ss_field ss globals = Some "gpt-4o".
Proof.
intros ss.
assert (Hin : ss ∈ string_settings).
{ unfold string_settings. do 24 apply list_elem_of_further. apply list_elem_of_here. }
assert (Hg : module_init env_empty = Ok globals) by (vm_compute; reflexivity).
split; [exact Hin|]. split; [exact Hg|]. split; [reflexivity|].
exact (proj2 (string_settings_are_taken_verbatim env_empty globals ss Hin Hg) eq_refl).
Defined.

Lemma unknown_preset_witness :
module_init env_empty = Ok globals ∧
("gpt-5" ∉ preset_names) ∧
shown_model (WithMcp.update_fields globals "gpt-5") = LLMConfig.model (default_config globals).
Proof.
assert (Hg : module_init env_empty = Ok globals) by (vm_compute; reflexivity).
assert (Hname : "gpt-5" ∉ preset_names).
{ unfold preset_names. intros Hin.
  repeat (apply elem_of_cons in Hin as [Hin|Hin]; [discriminate Hin|]).
  by apply elem_of_nil in Hin. }
split; [exact Hg|]. split; [exact Hname|].
pose proof (proj2 (unknown_preset_shows_the_default env_empty globals "gpt-5" Hg) Hname
              (WithMcp.update_fields globals "gpt-5") (or_introl eq_refl))
  as (_ & _ & Hm & _).
exact Hm.
Defined.

Lemma first_failure_witness :
module_init env_hot = Raise (ValueError "could not convert string to float: hot") ∧
∃ pre ns post,
  numeric_settings = pre ++ ns :: post ∧
  Forall (λ n, is_Some (converted env_hot n)) pre ∧
  converted env_hot ns = None ∧
  conversion_raises (ns_kind ns) (getenv env_hot (ns_key ns) (ns_literal ns))
    (ValueError "could not convert string to float: hot").
Proof.
assert (Hg : module_init env_hot = Raise (ValueError "could not convert string to float: hot"))
  by (vm_compute; reflexivity).
split; [exact Hg|].
exact (proj2 (import_succeeds_iff_every_numeric_setting_converts env_hot) _ Hg).
Defined.

Lemma vision_witness :
module_init env_empty = Ok globals ∧
∃ cfg kw,
  serves (WithoutMcp.minion_respond_async_dynamic globals "What is 2+2?" "gpt-4.1"
            "openai" "sk-test" "" "" "gpt-4o" (VFloat 0.7%float) (VInt 4000) "" "calculate"
            false)
    initial_world cfg kw ∧
  cfg !! "vision_enabled" = Some (VBool false).
Proof.
assert (Hg : module_init env_empty = Ok globals) by (vm_compute; reflexivity).
split; [exact Hg|].
exact (proj2 (vision_is_never_enabled globals env_empty initial_world
                "What is 2+2?" "gpt-4.1" "" "calculate" false false
                None None None None None VNone VNone
                "openai" "sk-test" "" "" "gpt-4o" (VFloat 0.7%float) (VInt 4000) Hg)).
Defined.
Lemma late_caller_witness :
let s := WithMcp.run_schedule env_servers [0; 1]%nat (WithMcp.spawn initial_world 2) in
mcp_client initial_world = None ∧
WithMcp.tasks s = [WithMcp.AwaitAenter 0; WithMcp.Returned (Ok (Some 0%nat))] ∧
(WithMcp.get_tools_for_brain 0 (WithMcp.world s)).1 = Ok [].
Proof.
intros s. split; [reflexivity|].
pose proof (late_caller_gets_an_unfinished_client env_servers initial_world eq_refl)
  as (Ht & _ & Hg & _).
split; [exact Ht|exact Hg].
Defined.

(** The example server asked for a tool it does not list, and its
  calculator on an expression with letters, which never reaches the
  evaluation. *)
Example reference_server_errors :
@ExampleServer.handle_call_tool runtime noon "weather" ∅
= Raise (ValueError "Unknown tool: weather") ∧
@ExampleServer.handle_call_tool runtime noon "calculator"
  {["expression" := ExampleServer.JStr "__import__('os')"]}
= Ok [ExampleServer.mkText "text"
        "Error: Unable to calculate '__import__('os')': Invalid characters in expression"] ∧
@ExampleServer.handle_call_tool runtime noon "calculator"
  {["expression" := ExampleServer.JStr "10**5000"]}
= Ok [ExampleServer.mkText "text"
        "Error: Unable to calculate '10**5000': Exceeds the limit (4300 digits) for integer string conversion"].
Proof. repeat split; vm_compute; reflexivity. Qed.

Lemma calculator_witness :
let arguments : gmap string ExampleServer.json :=
  {["expression" := ExampleServer.JStr "2 + 2"]} in
arguments !! "expression" = Some (ExampleServer.JStr "2 + 2") ∧
@ExampleServer.handle_call_tool runtime noon "calculator" arguments
= Ok [ExampleServer.mkText "text" "Result: 2 + 2 = 4"].
Proof.
intros arguments. split; [reflexivity|].
rewrite (@calculator_evaluates_only_allowed_characters runtime noon arguments "2 + 2" eq_refl).
vm_compute. reflexivity.
Defined.

Lemma declared_arguments_witness :
let arguments : gmap string ExampleServer.json := {["text" := ExampleServer.JStr "hello"]} in
let arguments' := <["volume" := ExampleServer.JInt 11]> arguments in
∃ t, ExampleServer.handle_list_tools !! 1%nat = Some t ∧
     ExampleServer.name t = "echo" ∧
     @ExampleServer.handle_call_tool runtime noon (ExampleServer.name t) arguments
     = @ExampleServer.handle_call_tool runtime noon (ExampleServer.name t) arguments'.
Proof.
intros arguments arguments'. eexists. split; [reflexivity|]. split; [reflexivity|].
apply (@answers_depend_on_declared_arguments runtime noon).
- apply list_elem_of_further, list_elem_of_here.
- intros k Hk. change (k ∈ ["text"]) in Hk. apply list_elem_of_singleton in Hk as ->.
  vm_compute. reflexivity.
Defined.
Lemma key_and_query_witness :
let m := WithMcp.minion_respond_async globals env_servers "What is 2+2?" "gpt-4o"
           None (Some "sk-one") None None None None None "" "calculate" false true in
let m' := WithMcp.minion_respond_async globals env_servers "What is my balance?" "gpt-4o"
            None (Some "sk-two") None None None None None "" "calculate" false true in
succeeds (create_llm_provider
            (WithMcp.llm_config_dict globals None (Some "sk-one") None None None None None))
= succeeds (create_llm_provider
              (WithMcp.llm_config_dict globals None (Some "sk-two") None None None None None)) ∧
stdout (m initial_world).2 = stdout (m' initial_world).2.
Proof.
intros m m'. split; [reflexivity|].
exact (proj1 (key_and_query_are_never_printed globals env_servers initial_world "gpt-4o" ""
                "calculate" false true None None None None None None
                "" "" "" "" "" 0%float 0
                "What is 2+2?" "What is my balance?" (Some "sk-one") (Some "sk-two"))
         eq_refl).
Defined.

Lemma same_tools_witness :
let cfg := WithMcp.llm_config_dict globals None None None None None None None in
let m := WithMcp.minion_respond_async globals env_servers "What is 2+2?" "gpt-4o"
           None None None None None None None "" "calculate" false true in
let m' := WithMcp.minion_respond_async globals env_servers "print(2+2)" "gpt-4.1"
            None None None None None None None "python" "calculate" true true in
wf_world initial_world ∧
create_llm_provider cfg = Ok () ∧
∃ tools,
  dispatched (run_calls m initial_world)
  = [(cfg, <["tools" := tools]>
             (add_query_type "" "calculate" (base_kwargs "What is 2+2?" "" false)))] ∧
  dispatched (run_calls m' (m initial_world).2)
  = [(cfg, <["tools" := tools]>
             (add_query_type "python" "calculate" (base_kwargs "print(2+2)" "python" true)))] ∧
  constructions (run_calls m' (m initial_world).2) = [] ∧
  registrations (run_calls m' (m initial_world).2) = [].
Proof.
intros cfg m m'.
assert (Hwf : wf_world initial_world) by exact I.
split; [exact Hwf|]. split; [reflexivity|].
exact (later_requests_get_the_same_tools globals env_servers initial_world
         "What is 2+2?" "gpt-4o" "" "calculate" false None None None None None None None
         "print(2+2)" "gpt-4.1" "python" "calculate" true None None None None None None None
         Hwf eq_refl eq_refl).
Defined.
End ReferenceRuns.
